(* ===== verification/_CoqProject ===== *)
-Q . S2P
Prelude.v
Digest.v
Json.v
Hasher.v
Store.v
Jwt.v
Sha2.v
Scrypt.v
App.v
Routing.v
Concurrent.v
Base64.v
JsonText.v
Refinement.v
Scenario.v
Interop.v
