(* ===== verification/Prelude.v ===== *)
(** * Verification of flask-user-auth-api

    The program (src/flask-user-auth-api) is a Flask service of three
    routes over one SQLite table.  [register] (app.py lines 13-26) reads
    a JSON body, hashes the password with werkzeug's
    [generate_password_hash] and INSERTs [(username, digest)] into
    [users]; [login] (lines 32-49) SELECTs the row of the username,
    checks the password with [check_password_hash] and returns a PyJWT
    HS256 token [{"user": username, "exp": utcnow() + 2h}] signed with
    the [SECRET_KEY] hard-coded on line 7; [protected] (lines 55-66)
    answers 401 without an [Authorization] header, 200 when
    [jwt.decode] accepts it and 403 otherwise.  database.py's [get_db]
    opens users.db and creates the table
    [users(id INTEGER PRIMARY KEY AUTOINCREMENT, username TEXT UNIQUE,
    password TEXT)].

    ** Files, in dependency order

    - Prelude.v (this file): the [result] error type with its [let*]
      notation (scope [auth_scope]), the Python string builtins the
      libraries use ([str.split], [str.rsplit], [str(int)], [int(str)])
      with their lemmas, bytes as [list Z], the tactics [inv_clear] and
      [destr_eqb] and the hint databases [auth] and [auth_rw].
    - Digest.v, [Module CompareDigest]: [hmac.compare_digest] (CPython's
      [_tscmp] loop) with an iteration counter; it is equality, and it
      runs [len(b)] iterations whatever the bytes.  On [str] arguments
      it raises [TypeError] unless both are ASCII.
    - Json.v: the JSON values [request.json] produces ([json]) and
      [dict.get] ([dict_get], the last duplicate key winning).
    - Hasher.v, [Module Hasher]: werkzeug's [generate_password_hash] and
      [check_password_hash] over the digest format [method$salt$hash];
      the key-derivation function is the class [Kdf] with its laws
      [KdfLaws] (the reported method reproduces the hash and accepts
      every password, the hash is ASCII), the random salt an input.
      Where werkzeug raises (an unknown method, a non-string password)
      the model returns [None].  [ToyKdf] (hexadecimal digits of
      [salt:password]) is an executable instance.
    - Store.v, [Module Store]: the database file ([db], [None] before
      [get_db] creates the table), its rows in rowid order and the
      AUTOINCREMENT counter ([users_table]), the INSERT of register
      ([insert_user]) and the SELECT of login ([select_by_username])
      with the SQLite rules the code depends on: NULLs never collide
      under UNIQUE, [= NULL] matches nothing, a bound integer is stored
      as decimal text ([bind_text]), SQLITE_FULL at rowid [2^63 - 1], and a
      failed statement changes nothing.  The invariant is [table_wf].
    - Jwt.v, [Module Jwt]: PyJWT 2.x [jwt.encode] and [jwt.decode]:
      segment split, the header's [alg] checked against the caller's
      [algorithms], the algorithm registry of a PyJWT installed without
      the cryptography extra ([get_algorithm_by_name]: none, HS256,
      HS384, HS512; the none algorithm refuses a non-empty key),
      [compare_digest] of the HMAC, and the claim checks in the order
      iat, nbf, exp, aud, at whole seconds (which, for integer claims,
      decides as PyJWT's comparison with the float [now] does).
      base64url, JSON text and HMAC-SHA256/384/512
      are the classes [Base64Url], [JsonCodec] and [Hmac] with the laws
      the proofs use.
    - Sha2.v, [Module Sha2] and [Module HmacSha2]: the SHA-2 family of
      FIPS 180-4 as one definition ([hash]) over its parameters
      ([sha2_params]: word width, round constants, initial value, rotation
      amounts, length field), instantiated as SHA-256 (32-bit words),
      SHA-512 and SHA-384 (64-bit words), words kept as [Z] with every
      sum wrapped by [Z.land _ (Z.ones w)]; HMAC as CPython's [hmac]
      builds it (a key longer than the block is hashed first);
      [hmac_sha2_impl] is the instance of [Hmac] whose laws are proved.
    - Scrypt.v: PBKDF2-HMAC-SHA256 ([Module Pbkdf2]), Salsa20/8,
      BlockMix, ROMix and scrypt ([Module Scrypt]) with the checks
      CPython's [hashlib.scrypt] and OpenSSL 3 make before deriving, and
      werkzeug's [_hash_internal] ([Module Werkzeug]: parse the method,
      derive, [hex()], report the method), whose instance [werkzeug_kdf]
      of [Kdf] satisfies [KdfLaws].  Both files end with known-answer
      tests (FIPS 180-2 for the three hashes, RFC 4231, RFC 7914, and digests computed by
      CPython 3.11 with OpenSSL 3.0).
    - App.v, [Module App]: the handlers, each split into the steps of the
      source ([register_input], [register_store]; [login_input],
      [login_lookup], [login_authenticated], [login_token];
      [authorization_token], [verify_token]), as functions of the
      request, the environment's input (the salt, the clock in
      microseconds) and the database file, returning the response and
      the new file.  An uncaught exception is Flask's 500.  [handle]
      routes a request, [run] serves a sequence of requests, and
      [reachable] holds for the files a fresh install can reach.  The
      tactic [handler_cases] goes through the branches of a handler,
      unfolding the steps listed in the hint database [handlers].
    - Routing.v, [Module Routing]: [app = Flask(__name__)], with the
      rule ["/static/<path:filename>"] Flask adds for its static folder,
      and the three route decorators as werkzeug's URL map ([url_map],
      [rule_matches]: a constant path or a prefix and a [<path:...>]
      variable; [rule_methods]: HEAD added to a GET rule, OPTIONS to
      every rule), [MapAdapter.match] ([match_rules]: 404 for an unknown
      path, 405 for a method the rule does not accept), and [serve],
      Flask's dispatch of one HTTP request (method upper-cased, automatic
      OPTIONS, HEAD without the body) to the handlers of App.v, the
      static view answering 404 as the repository has no static folder.
    - Concurrent.v, [Module Concurrent]: registrations served by
      concurrent threads, interleaved statement by statement ([cstep]:
      the INSERT, which takes SQLite's write lock, and the commit, which
      releases it; a lock timeout raises and is answered 400), over a
      state [cstate] of the committed table, the lock holder and the
      requests in flight ([reg_thread]).
    - Base64.v, JsonText.v: executable base64url and JSON text codecs in
      CPython's manner (binascii's bit accumulator; [json.dumps] with
      compact separators and [ensure_ascii], a [json.loads] parser with
      fuel [1 + length] of the text), instances of [Base64Url] and
      [JsonCodec] whose laws ([decode (encode b) = b], [loads (dumps j) =
      j]) are proved there.
    - Refinement.v: [Module AuthSpec] is the contract of the
      specification (a map from usernames to passwords, [register ->
      ok | duplicate], [login -> token | invalid]), and [Module
      Refinement] the relation [refines] between a database file and
      such a map, with the simulation of one request and of any run.
    - Scenario.v: [ToyHmac], an executable stand-in for HMAC-SHA256, the
      specification's end-to-end scenario evaluated by [vm_compute], and
      the witnesses of the theorems with hypotheses.
    - Interop.v, [Module Interop]: the handlers over the real primitives
      (werkzeug's scrypt, HMAC-SHA256, base64url, JSON text), where the
      end-to-end theorem [register_login_protected] is witnessed.

    ** What the theorems show

    - Invariant: every file reachable by any requests is well formed,
      with non-NULL usernames distinct and rowids increasing below the
      counter ([App.reachable_db_wf], from [Store.insert_user_wf]).
      Accounts are append-only ([handle_append_only], [run_append_only]).
    - Refinement: for string credentials and while rowids remain,
      [handle] and [run] implement [AuthSpec] ([handle_refines],
      [run_refines]).  The proof assumes the KDF is collision-free
      for a fixed salt (a section hypothesis).
    - Concurrency: under every interleaving of registrations the table
      stays well formed and a username is granted to one request at
      most ([concurrent_unique]); from every reachable state every
      request can be answered without any lock timeout, the holder of
      the write lock committing next ([concurrent_all_answered], whose
      proof needs [commit] to release the lock); a registration running alone is the
      sequential [register_store] ([concurrent_serial_register]).
    - Functional: registration then login then access
      ([register_login_protected]); the exact validity window of a token
      ([protected_login_token], [login_token_lifetime]) and its
      expiry, which is terminal ([login_token_expiry_terminal]); the
      token of a login decodes to its claims and is issued only after
      the stored digest checked ([login_token_roundtrip]); digests are
      salted ([register_salted]).
    - Safety: [/protected] accepts only three-segment tokens with an
      HS256 header and the HMAC under [SECRET_KEY]
      ([protected_accepts_only_signed]); tampered signatures and other
      algorithms are refused ([protected_tampered],
      [protected_rejects_other_alg]: PyJWT's registry knows none,
      HS384 and HS512, and it is [algorithms=["HS256"]] that refuses
      them); a wrong password or an unknown
      user gets the same 401 ([login_wrong_password],
      [login_unknown_user]).
    - Errors: duplicates ([register_duplicate]); a failed registration
      has no effect ([register_failure_atomic]); no token gives 401
      ([protected_missing_token]).
    - Primitives (Interop.v): [register] stores [scrypt:32768:8:1$], the
      salt, [$] and 128 hexadecimal digits for every salt and password
      ([register_input_scrypt_digest]); a stored digest
      [scrypt:n:1:1$...] makes login fail with 500 exactly when [n] is
      below 128 (werkzeug's [maxmem = 132 n r p] is less than OpenSSL's
      [128 r (n + p + 2)]) or at least [2^16] ([login_scrypt_cost_bounds]).
    - HTTP dispatch (Routing.v): the routes run exactly the handlers of
      App.v ([serve_dispatch]); other paths and methods get 404 and 405,
      on the static rule too, OPTIONS 200, and a static file 404, all
      without running a handler ([serve_without_view]).  A login on a
      row werkzeug wrote answers the very token PyJWT issues as CPython
      computes it, a known-answer test in Interop.v
      ([login_pyjwt_token]).
    - Findings (PROJECT.json): a registration that times out on the
      write lock is told its username exists
      ([concurrent_locked_reported_duplicate]); the hard-coded key lets
      anyone mint tokens ([protected_accepts_signed]); an expired token
      gets the same 403 as a forged one ([login_token_expired_error]); a token without exp never expires
      ([protected_token_without_exp]); SQLITE_FULL is reported as a
      duplicate ([register_full_reported_as_duplicate]); NULL usernames
      are stored ([register_without_username]); an integer username is
      its decimal text ([register_int_username]) and one outside 64
      bits is reported as a duplicate ([register_overflow_username]); a
      login without a password reveals whether the username exists
      ([login_without_password_reveals_user]); a stored digest of an
      unknown method makes login fail with 500
      ([login_unknown_method]).

    ** Bounds and fuel

    Rowids are integers with SQLite's maximum [2^63 - 1] written out
    ([Store.MAX_ROWID]); an integer bound to a parameter must lie in
    [[-2^63, 2^63)] ([Store.bind_text]).  Time is the UTC clock in microseconds (as
    [datetime] keeps it) and PyJWT's [timegm(utctimetuple())] truncates
    it to seconds; the lifetime is [2 * 3600 * 10^6] microseconds.  The
    JSON parser runs on fuel [1 + length] of its input, and
    [JsonText.parse_dumps_fuel] shows that this is enough for every
    text [dumps] produces.  Every other recursion is structural; the
    concurrent model is a relation, and the liveness proof goes by
    well-founded induction on the statements left ([cmeasure]: two per
    request waiting, one per request inserted).

    ** Not modelled

    The OS random source is not modelled: the salt is an input, drawn
    from [gen_salt]'s alphabet.  Of werkzeug's methods, pbkdf2 is modelled
    with SHA-256 only (another digest name gets [None], where hashlib
    would compute it), and passwords over [INT_MAX] bytes (an
    [OverflowError] in hashlib) are not modelled; werkzeug's default
    scrypt cost ([n = 2^15], [r = 8]) is proved to pass every check, but
    is too costly to evaluate by [vm_compute], so the computed examples
    use [n = 128].  The bytes of HTTP (request
    line, headers and body as werkzeug parses them into a request), the
    server process ([app.run(debug=True)]) and the on-disk format of
    users.db are not modelled either; routing starts from the parsed
    method, path, [Authorization] header and body.  werkzeug's
    [merge_slashes] (a path with ["//"] is redirected with 308 to the
    path with single slashes) is not modelled: such a path goes to the
    rules as it is.  Concurrency is modelled for registrations
    only: logins and [/protected] read the committed table or nothing,
    and are served one after another in [App.run].  Floating-point JSON
    numbers are not modelled, and strings are sequences of bytes:
    Python's code points above 255 (and the [UnicodeEncodeError] of a
    lone surrogate) are not. *)

From stdpp Require Export base list strings sets.
From Stdlib Require Export ZArith String Ascii DecimalString DecimalZ DecimalPos Lia.

(** [length] is the length of a list; [String.length] is written out. *)
Abbreviation length := List.length (only parsing).

Declare Scope auth_scope.
Delimit Scope auth_scope with auth.
Open Scope auth_scope.

(** ** Results of fallible operations

    Python code signals failure by raising; the model returns [Err e]
    where the code raises [e], and [Ok a] where it returns [a]. *)
Inductive result (E A : Type) : Type :=
  | Ok (a : A)
  | Err (e : E).
Arguments Ok {E A} a.
Arguments Err {E A} e.

Definition result_bind {E A B} (m : result E A) (k : A -> result E B) : result E B :=
  match m with
  | Ok a => k a
  | Err e => Err e
  end.

Notation "'let*' x ':=' m 'in' k" := (result_bind m (fun x => k))
  (at level 100, x name, m at level 99, right associativity,
   format "'[' 'let*'  x  ':='  m  'in' '//' k ']'") : auth_scope.

Notation "'let*' ' p ':=' m 'in' k" := (result_bind m (fun x => match x with p => k end))
  (at level 100, p pattern, m at level 99, right associativity) : auth_scope.

Definition result_of_option {E A} (e : E) (o : option A) : result E A :=
  match o with
  | Some a => Ok a
  | None => Err e
  end.

(** ** Strings

    A Python [str] is modelled by its UTF-8 encoding, one [ascii] per
    byte, so [s.encode("utf-8")] is the identity on the model. *)

(** Concatenation computes: stdpp marks [String.append] [simpl never]. *)
Arguments String.append : simpl nomatch.

Fixpoint char_in (c : ascii) (s : string) : bool :=
  match s with
  | EmptyString => false
  | String x s' => Ascii.eqb x c || char_in c s'
  end.

(** [s.split(c, 1)] when it yields two parts: the text before the first
    [c] and the text after it. *)
Fixpoint split_once (c : ascii) (s : string) : option (string * string) :=
  match s with
  | EmptyString => None
  | String x s' =>
      if Ascii.eqb x c then Some (EmptyString, s')
      else match split_once c s' with
           | Some (a, b) => Some (String x a, b)
           | None => None
           end
  end.

(** Python's [s.split(c, maxsplit)]: split at the first [c] at most
    [maxsplit] times, the last part keeping the remaining separators. *)
Fixpoint py_split (c : ascii) (maxsplit : nat) (s : string) : list string :=
  match maxsplit with
  | O => [s]
  | S m =>
      match split_once c s with
      | Some (a, b) => a :: py_split c m b
      | None => [s]
      end
  end.

(** [s.rsplit(c, 1)] when it yields two parts: split at the last [c]. *)
Fixpoint rsplit_once (c : ascii) (s : string) : option (string * string) :=
  match s with
  | EmptyString => None
  | String x s' =>
      match rsplit_once c s' with
      | Some (a, b) => Some (String x a, b)
      | None => if Ascii.eqb x c then Some (EmptyString, s') else None
      end
  end.

(** ** Integers

    [str(n)] and [int(s)] on Python integers, through the decimal
    notation of the Standard Library. *)
Definition py_str_of_int (z : Z) : string :=
  NilEmpty.string_of_int (Z.to_int z).

(** [int(s)] on an optional minus sign followed by digits; text without
    a digit ([""], ["-"]) raises [ValueError]. *)
Definition py_int_of_str (s : string) : option Z :=
  match NilEmpty.int_of_string s with
  | Some (Decimal.Pos Decimal.Nil) | Some (Decimal.Neg Decimal.Nil) => None
  | Some d => Some (Z.of_int d)
  | None => None
  end.

(** ** Bytes

    A Python [bytes] value is a list of integers in [0, 256). *)
Definition is_byte (z : Z) : Prop := (0 <= z < 256)%Z.

#[export] Instance is_byte_dec z : Decision (is_byte z).
Proof. unfold is_byte. apply _. Defined.

Definition byte_of_char (c : ascii) : Z := Z.of_N (N_of_ascii c).
Definition char_of_byte (z : Z) : ascii := ascii_of_N (Z.to_N z).

Definition bytes_of_string (s : string) : list Z :=
  map byte_of_char (list_ascii_of_string s).
Definition string_of_bytes (bs : list Z) : string :=
  string_of_list_ascii (map char_of_byte bs).

(** [bytes.hex()]: two lower-case hexadecimal digits per byte. *)
Definition hex_digit (n : Z) : ascii :=
  ascii_of_nat (Z.to_nat (if (n <? 10)%Z then 48 + n else 87 + n)%Z).

Definition bytes_hex (bs : list Z) : string :=
  string_of_list_ascii (flat_map (fun b => [hex_digit (b / 16); hex_digit (b mod 16)]%Z) bs).

(** ** Proof automation shared by the components *)

Create HintDb auth discriminated.
Create Rewrite HintDb auth_rw.

Ltac inv_clear H := inversion H; subst; clear H.

(** Case analysis on the boolean equality tests the models use. *)
Ltac destr_eqb :=
  match goal with
  | |- context [Ascii.eqb ?a ?b] => destruct (Ascii.eqb_spec a b)
  | |- context [String.eqb ?a ?b] => destruct (String.eqb_spec a b)
  | |- context [Z.eqb ?a ?b] => destruct (Z.eqb_spec a b)
  | |- context [Z.ltb ?a ?b] => destruct (Z.ltb_spec a b)
  | |- context [Z.leb ?a ?b] => destruct (Z.leb_spec a b)
  end.

(** ** Lemmas on strings *)

Lemma str_app_assoc (a b c : string) : (a +:+ b) +:+ c = a +:+ (b +:+ c).
Proof. induction a; simpl; congruence. Qed.

Lemma str_app_nil_r (a : string) : a +:+ EmptyString = a.
Proof. induction a; simpl; congruence. Qed.

Lemma str_app_single c (a : string) : String c EmptyString +:+ a = String c a.
Proof. done. Qed.

Lemma str_app_inv_l (a b c : string) : a +:+ b = a +:+ c -> b = c.
Proof. induction a; simpl; [done|]. intros [= ?]; auto. Qed.

Lemma char_in_app c (a b : string) : char_in c (a +:+ b) = char_in c a || char_in c b.
Proof. induction a as [|x a IH]; simpl; [done|]. rewrite IH. apply orb_assoc. Qed.

#[export] Hint Rewrite str_app_assoc str_app_nil_r str_app_single char_in_app : auth_rw.

Lemma split_once_none c s : char_in c s = false -> split_once c s = None.
Proof.
  induction s as [|x s IH]; simpl; [done|].
  intros [Hx Hs]%orb_false_iff. rewrite Hx, IH; done.
Qed.

Lemma split_once_app c a b :
  char_in c a = false -> split_once c (a +:+ String c b) = Some (a, b).
Proof.
  induction a as [|x a IH]; simpl.
  - rewrite Ascii.eqb_refl. done.
  - intros [Hx Ha]%orb_false_iff. rewrite Hx, IH; done.
Qed.

Lemma split_once_spec c s a b :
  split_once c s = Some (a, b) -> s = a +:+ String c b /\ char_in c a = false.
Proof.
  revert a; induction s as [|x s IH]; intros a; simpl; [done|].
  destruct (Ascii.eqb_spec x c) as [->|Hne].
  - intros [= <- <-]. done.
  - destruct (split_once c s) as [[a' b']|] eqn:E; [|done].
    intros [= <- <-]. destruct (IH a' eq_refl) as [-> Ha]. simpl.
    split; [done|]. apply orb_false_iff. split; [|done].
    by apply Ascii.eqb_neq.
Qed.

Lemma rsplit_once_none c s : char_in c s = false -> rsplit_once c s = None.
Proof.
  induction s as [|x s IH]; simpl; [done|].
  intros [Hx Hs]%orb_false_iff. rewrite IH, Hx; done.
Qed.

Lemma rsplit_once_app c a b :
  char_in c b = false -> rsplit_once c (a +:+ String c b) = Some (a, b).
Proof.
  intros Hb. induction a as [|x a IH]; simpl.
  - rewrite rsplit_once_none by done. by rewrite Ascii.eqb_refl.
  - rewrite IH. done.
Qed.

Lemma rsplit_once_spec c s a b :
  rsplit_once c s = Some (a, b) -> s = a +:+ String c b /\ char_in c b = false.
Proof.
  revert a; induction s as [|x s IH]; intros a; simpl; [done|].
  destruct (rsplit_once c s) as [[a' b']|] eqn:E.
  - intros [= <- <-]. destruct (IH a' eq_refl) as [-> Hb]. done.
  - destruct (Ascii.eqb_spec x c) as [->|]; [|done].
    intros [= <- <-]. split; [done|].
    destruct (char_in c s) eqn:Hs; [|done].
    exfalso. clear IH. induction s as [|y s IHs]; simpl in *; [done|].
    destruct (rsplit_once c s) as [[]|]; [done|].
    destruct (Ascii.eqb_spec y c); [done|]. auto.
Qed.

Lemma py_split2_fmt c a b h :
  char_in c a = false -> char_in c b = false ->
  py_split c 2 (a +:+ String c (b +:+ String c h)) = [a; b; h].
Proof.
  intros Ha Hb. simpl. rewrite split_once_app by done.
  rewrite split_once_app by done. done.
Qed.

Lemma py_split2_inv c s a b h :
  py_split c 2 s = [a; b; h] -> s = a +:+ String c (b +:+ String c h).
Proof.
  simpl. destruct (split_once c s) as [[a' r]|] eqn:E1; [|done].
  destruct (split_once c r) as [[b' h']|] eqn:E2; [|done].
  intros [= -> -> ->].
  apply split_once_spec in E1 as [-> _]. apply split_once_spec in E2 as [-> _]. done.
Qed.

(** A string [h.p.s] with no separator in [h] nor in [s] determines its
    three parts. *)
Lemma split3_unique c h p s h' p' s' :
  char_in c h = false -> char_in c s = false ->
  char_in c h' = false -> char_in c s' = false ->
  h +:+ String c (p +:+ String c s) = h' +:+ String c (p' +:+ String c s') ->
  h = h' /\ p = p' /\ s = s'.
Proof.
  intros Hh Hs Hh' Hs' Heq.
  assert (E : rsplit_once c ((h +:+ String c p) +:+ String c s) =
              rsplit_once c ((h' +:+ String c p') +:+ String c s'))
    by (autorewrite with auth_rw; simpl; by rewrite Heq).
  rewrite !rsplit_once_app in E by done. injection E as E ->.
  apply (f_equal (split_once c)) in E. rewrite !split_once_app in E by done.
  naive_solver.
Qed.

(** ** Lemmas on integers and bytes *)

Lemma py_int_of_str_of_int z : py_int_of_str (py_str_of_int z) = Some z.
Proof.
  unfold py_int_of_str, py_str_of_int. rewrite NilEmpty.isi.
  rewrite <- (DecimalZ.of_to z) at 2.
  destruct (Z.to_int z) as [d|d] eqn:E; destruct d; try done; exfalso;
    destruct z; simpl in E; try discriminate; injection E as E;
    by apply DecimalPos.Unsigned.to_uint_nonnil in E.
Qed.

Lemma py_str_of_int_inj z1 z2 : py_str_of_int z1 = py_str_of_int z2 -> z1 = z2.
Proof.
  intros H. apply (f_equal py_int_of_str) in H.
  rewrite !py_int_of_str_of_int in H. congruence.
Qed.

Lemma byte_of_char_range c : is_byte (byte_of_char c).
Proof.
  unfold is_byte, byte_of_char. pose proof (N_ascii_bounded c). lia.
Qed.

Lemma char_of_byte_of_char c : char_of_byte (byte_of_char c) = c.
Proof. unfold char_of_byte, byte_of_char. by rewrite N2Z.id, ascii_N_embedding. Qed.

Lemma string_of_bytes_of_string s : string_of_bytes (bytes_of_string s) = s.
Proof.
  unfold string_of_bytes, bytes_of_string. rewrite map_map.
  rewrite (map_ext _ id char_of_byte_of_char), map_id.
  apply string_of_list_ascii_of_string.
Qed.

Lemma bytes_of_string_bytes s : Forall is_byte (bytes_of_string s).
Proof.
  unfold bytes_of_string. apply Forall_map, Forall_true. apply byte_of_char_range.
Qed.

#[export] Hint Resolve byte_of_char_range bytes_of_string_bytes : auth.
(** [str(n)] is digits after an optional minus sign: a character that
    is neither does not occur in it. *)
Lemma char_in_str_of_int c z :
  forallb (fun d => negb (Ascii.eqb d c)) (list_ascii_of_string "-0123456789") = true ->
  char_in c (py_str_of_int z) = false.
Proof.
  intros Hc. cbn [forallb list_ascii_of_string] in Hc. rewrite !andb_true_iff, !negb_true_iff in Hc.
  destruct Hc as (H0&H1&H2&H3&H4&H5&H6&H7&H8&H9&H10&_).
  assert (Hu : forall d, char_in c (NilEmpty.string_of_uint d) = false).
  { induction d; cbn [NilEmpty.string_of_uint char_in];
      rewrite ?H1, ?H2, ?H3, ?H4, ?H5, ?H6, ?H7, ?H8, ?H9, ?H10; done. }
  unfold py_str_of_int, NilEmpty.string_of_int.
  destruct (Z.to_int z); cbn [char_in]; rewrite ?H0; apply Hu.
Qed.

(** Splitting at a separator that does not occur before it, and a text
    without the separator. *)
Lemma py_split_cons c k a b :
  char_in c a = false -> py_split c (S k) (a +:+ String c b) = a :: py_split c k b.
Proof. intros Ha. cbn [py_split]. by rewrite split_once_app. Qed.

Lemma py_split_single c k s : char_in c s = false -> py_split c k s = [s].
Proof. intros Hs. destruct k; cbn [py_split]; [done|]. by rewrite split_once_none. Qed.

Lemma Forall_flat_map {A B} (P : B -> Prop) (f : A -> list B) l :
  (forall x, Forall P (f x)) -> Forall P (flat_map f l).
Proof. intros Hf. induction l as [|x l IH]; cbn [flat_map]; [done|]. by apply Forall_app. Qed.

#[export] Hint Rewrite py_int_of_str_of_int string_of_bytes_of_string char_of_byte_of_char : auth_rw.
