(* ===== verification/Digest.v ===== *)
(** * [hmac.compare_digest]

    The constant-time comparison both werkzeug ([check_password_hash])
    and PyJWT ([HMACAlgorithm.verify]) call.  It is CPython's C routine
    [_tscmp] (Modules/_operator.c), which is not part of the repository:
    it is modelled from its documented contract and its well-known loop,
    with an iteration counter added as instrumentation so that the
    constant-time claim can be stated. *)

From S2P Require Import Prelude.

Module CompareDigest.

(** The loop [for (i = 0; i < length; i++) result |= *left++ ^ *right++;]
    with its iteration count. *)
Fixpoint tscmp_loop (left right : list Z) (result : Z) : Z * nat :=
  match left, right with
  | l :: ls, r :: rs =>
      let '(res, n) := tscmp_loop ls rs (Z.lor result (Z.lxor l r)) in
      (res, S n)
  | _, _ => (result, O)
  end.

(** [_tscmp(a, b, len_a, len_b)]: the loop always runs over [b]; when
    the lengths differ it compares [b] with itself and starts from a
    non-zero result. *)
Definition tscmp (a b : list Z) : Z * nat :=
  let left := if Nat.eqb (List.length a) (List.length b) then a else b in
  let result := if Nat.eqb (List.length a) (List.length b) then 0%Z else 1%Z in
  tscmp_loop left b result.

Definition compare_digest (a b : list Z) : bool :=
  Z.eqb (fst (tscmp a b)) 0.

(** The number of loop iterations one comparison performs. *)
Definition compare_digest_steps (a b : list Z) : nat :=
  snd (tscmp a b).

(** Every character of [s] is ASCII. *)
Definition is_ascii_str (s : string) : bool :=
  forallb (fun c => Nat.ltb (nat_of_ascii c) 128) (list_ascii_of_string s).

(** [hmac.compare_digest(a, b)] on two [str]: it raises [TypeError]
    ([None]) unless both are ASCII, and then compares their bytes. *)
Definition compare_digest_str (a b : string) : option bool :=
  if is_ascii_str a && is_ascii_str b
  then Some (compare_digest (bytes_of_string a) (bytes_of_string b))
  else None.

(** ** Lemmas *)

Lemma is_ascii_str_app a b : is_ascii_str (a +:+ b) = is_ascii_str a && is_ascii_str b.
Proof.
  induction a as [|c a IH]; [done|]. unfold is_ascii_str in *. simpl.
  by rewrite IH, andb_assoc.
Qed.

Lemma tscmp_loop_steps left right res :
  List.length left = List.length right -> snd (tscmp_loop left right res) = List.length right.
Proof.
  revert right res; induction left as [|l ls IH]; intros [|r rs] res Hlen;
    simpl in *; try done.
  destruct (tscmp_loop ls rs _) as [x n] eqn:E. simpl.
  f_equal. specialize (IH rs (Z.lor res (Z.lxor l r))). rewrite E in IH. simpl in IH.
  apply IH. lia.
Qed.

Lemma tscmp_loop_zero left right res :
  List.length left = List.length right ->
  fst (tscmp_loop left right res) = 0%Z <-> res = 0%Z /\ left = right.
Proof.
  revert right res; induction left as [|l ls IH]; intros [|r rs] res Hlen;
    simpl in *; try done.
  - naive_solver.
  - destruct (tscmp_loop ls rs _) as [x n] eqn:E. simpl.
    specialize (IH rs (Z.lor res (Z.lxor l r))). rewrite E in IH. simpl in IH.
    rewrite IH by lia. rewrite Z.lor_eq_0_iff, Z.lxor_eq_0_iff.
    naive_solver.
Qed.

(** ** Properties *)

(** [compare_digest] is equality of byte strings: the loop with
    its accumulator computes the same answer as the reference
    comparison [a = b], on inputs of equal or different lengths. *)
Theorem compare_digest_correct (a b : list Z) :
  compare_digest a b = bool_decide (a = b).
Proof.
  unfold compare_digest, tscmp.
  destruct (Nat.eqb_spec (length a) (length b)) as [Hlen|Hlen].
  - destruct (Z.eqb_spec (fst (tscmp_loop a b 0)) 0) as [H|H];
      rewrite tscmp_loop_zero in H by done.
    + rewrite bool_decide_true; naive_solver.
    + rewrite bool_decide_false; naive_solver.
  - rewrite bool_decide_false by (intros ->; done).
    apply Z.eqb_neq. rewrite tscmp_loop_zero by done. naive_solver.
Qed.

(** The comparison takes constant time: the loop runs exactly
    [len(b)] times whatever the contents of both arguments and the
    length of [a], so the time spent does not reveal where the first
    differing byte is. *)
Theorem compare_digest_constant_time (a b : list Z) :
  compare_digest_steps a b = length b.
Proof.
  unfold compare_digest_steps, tscmp.
  destruct (Nat.eqb_spec (length a) (length b)); by apply tscmp_loop_steps.
Qed.

Lemma compare_digest_bytes a b :
  compare_digest (bytes_of_string a) (bytes_of_string b) = bool_decide (a = b).
Proof.
  rewrite compare_digest_correct. apply bool_decide_ext. split; [|by intros ->].
  intros H. rewrite <- (string_of_bytes_of_string a), H.
  apply string_of_bytes_of_string.
Qed.

Lemma compare_digest_str_correct a b :
  is_ascii_str a = true -> is_ascii_str b = true ->
  compare_digest_str a b = Some (bool_decide (a = b)).
Proof.
  intros Ha Hb. unfold compare_digest_str. rewrite Ha, Hb. simpl.
  by rewrite compare_digest_bytes.
Qed.

Lemma compare_digest_str_true a b : compare_digest_str a b = Some true -> a = b.
Proof.
  unfold compare_digest_str. destruct (_ && _); [|done].
  rewrite compare_digest_bytes. intros [= H]. by apply bool_decide_eq_true_1 in H.
Qed.

End CompareDigest.
