(* ===== verification/Json.v ===== *)
(** * JSON values as Python sees them

    The values [request.json] and [json.loads] produce, and that
    [jsonify] and [json.dumps] consume: [None], booleans, integers,
    strings, lists and dicts.  A dict decoded from JSON keeps the last
    of duplicate keys; [dict_get] is [d.get(k)] on such a dict.
    Floating-point numbers are not modelled. *)

From S2P Require Import Prelude.

Inductive json : Type :=
  | JNull
  | JBool (b : bool)
  | JInt (z : Z)
  | JStr (s : string)
  | JArr (xs : list json)
  | JObj (fields : list (string * json)).

(** [d.get(k)] on the dict decoded from the members [fields]: the value
    of the last member named [k]. *)
Fixpoint dict_get (k : string) (fields : list (string * json)) : option json :=
  match fields with
  | [] => None
  | (k', v) :: rest =>
      match dict_get k rest with
      | Some v' => Some v'
      | None => if String.eqb k' k then Some v else None
      end
  end.

(** [bool(v)]: Python truthiness. *)
Definition json_truthy (v : json) : bool :=
  match v with
  | JNull => false
  | JBool b => b
  | JInt z => negb (Z.eqb z 0)
  | JStr s => negb (String.eqb s "")
  | JArr xs => negb (Nat.eqb (length xs) 0)
  | JObj fs => negb (Nat.eqb (length fs) 0)
  end.

(** [int(v)]: [Some] of the integer, [None] where Python raises
    [ValueError] or [TypeError].  Only sign and digits are accepted in
    a string (Python also skips blanks and underscores). *)
Definition py_int (v : json) : option Z :=
  match v with
  | JBool b => Some (if b then 1%Z else 0%Z)
  | JInt z => Some z
  | JStr s => py_int_of_str s
  | _ => None
  end.

Lemma dict_get_app_r k fs1 fs2 v :
  dict_get k fs2 = Some v -> dict_get k (fs1 ++ fs2) = Some v.
Proof.
  induction fs1 as [|[k' v'] fs1 IH]; simpl; [done|].
  intros H. by rewrite IH.
Qed.

Lemma dict_get_cons_ne k k' v fs :
  k' <> k -> dict_get k ((k', v) :: fs) = dict_get k fs.
Proof.
  intros Hne. simpl. destruct (dict_get k fs); [done|].
  by destruct (String.eqb_spec k' k).
Qed.

Lemma dict_get_cons_last k v fs :
  dict_get k fs = None -> dict_get k ((k, v) :: fs) = Some v.
Proof. intros H. simpl. rewrite H, String.eqb_refl. done. Qed.

#[export] Hint Rewrite dict_get_cons_ne using done : auth_rw.
