(* ===== verification/Hasher.v ===== *)
(** * Password hasher: werkzeug.security

    [generate_password_hash] and [check_password_hash], called by the
    handlers [register] and [login] of app.py.  Werkzeug is a library
    the repository only calls, so this file is modelled from the
    specification (section 4.1) and werkzeug's digest format
    ["method$salt$hash"].  The key-derivation function
    ([_hash_internal], scrypt by default) is an interface, [Kdf], with
    the laws the hasher relies on; randomness (the salt) is an input. *)

From S2P Require Import Prelude Json Digest.
Import CompareDigest.

(** [_hash_internal(method, salt, password)]: [Some (hexdigest,
    actual_method)], or [None] where werkzeug raises on an unknown
    method. *)
Class Kdf := {
  hash_internal : string -> string -> string -> option (string * string)
}.

(** What the hasher needs of the key-derivation function: the method
    string it reports reproduces the digest, contains no ["$"] and
    accepts every password, the digest is ASCII (a [hexdigest]), and
    the default method ["scrypt"] accepts every password. *)
Class KdfLaws `{Kdf} := {
  kdf_reproducible : forall m s p h m',
    hash_internal m s p = Some (h, m') -> hash_internal m' s p = Some (h, m');
  kdf_method_plain : forall m s p h m',
    hash_internal m s p = Some (h, m') -> char_in "$" m' = false;
  kdf_method_total : forall m s p h m' p',
    hash_internal m s p = Some (h, m') -> is_Some (hash_internal m' s p');
  kdf_ascii : forall m s p h m',
    hash_internal m s p = Some (h, m') -> is_ascii_str h = true;
  kdf_default_total : forall s p, is_Some (hash_internal "scrypt" s p)
}.

Module Hasher.
Section Hasher.
Context `{Kdf}.

Definition SALT_CHARS : string :=
  "abcdefghijklmnopqrstuvwxyzABCDEFGHIJKLMNOPQRSTUVWXYZ0123456789".

(** A salt [gen_salt(length)] can return: [length] characters of
    [SALT_CHARS]. *)
Definition gen_salt_ok (length : nat) (salt : string) : bool :=
  Nat.eqb (String.length salt) length &&
  forallb (fun c => char_in c SALT_CHARS) (list_ascii_of_string salt).

(** [generate_password_hash(password)] with the defaults
    [method="scrypt"], [salt_length=16], the salt drawn being [salt]. *)
Definition generate_password_hash (salt password : string) : option string :=
  match hash_internal "scrypt" salt password with
  | Some (h, actual_method) => Some (actual_method +:+ "$" +:+ salt +:+ "$" +:+ h)
  | None => None
  end.

(** [check_password_hash(pwhash, password)]: [Some] of the answer, or
    [None] where it raises: [_hash_internal] on a method it does not
    know ([ValueError]), [compare_digest] on a stored hash that is not
    ASCII ([TypeError]); neither exception is caught. *)
Definition check_password_hash (pwhash password : string) : option bool :=
  match py_split "$" 2 pwhash with
  | [method; salt; hashval] =>
      match hash_internal method salt password with
      | Some (h, _) => compare_digest_str h hashval
      | None => None
      end
  | _ => Some false
  end.

(** [check_password_hash(pwhash, password)] for any Python value
    [password]: [None] where werkzeug raises.  A value that is not a
    string raises at [password.encode()] once the digest has its three
    parts; before that, a malformed digest gives [False]. *)
Definition check_password_hash_value (pwhash : string) (password : json) : option bool :=
  match password with
  | JStr pw => check_password_hash pwhash pw
  | _ =>
      match py_split "$" 2 pwhash with
      | [_; _; _] => None
      | _ => Some false
      end
  end.

(** ** Lemmas *)

Lemma gen_salt_ok_plain n salt : gen_salt_ok n salt = true -> char_in "$" salt = false.
Proof.
  unfold gen_salt_ok. intros [_ Hs]%andb_prop.
  induction salt as [|x salt IH]; simpl in *; [done|].
  apply andb_prop in Hs as [Hx Hs]. rewrite IH by done.
  destruct (Ascii.eqb_spec x "$") as [->|]; [done|]. done.
Qed.

Lemma generate_password_hash_fmt salt p d :
  generate_password_hash salt p = Some d ->
  exists h m, hash_internal "scrypt" salt p = Some (h, m) /\
              d = m +:+ "$" +:+ salt +:+ "$" +:+ h.
Proof.
  unfold generate_password_hash.
  destruct (hash_internal "scrypt" salt p) as [[h m]|]; [|done].
  intros [= <-]. eauto.
Qed.

Lemma py_split_digest `{!KdfLaws} n salt p h m :
  gen_salt_ok n salt = true -> hash_internal "scrypt" salt p = Some (h, m) ->
  py_split "$" 2 (m +:+ "$" +:+ salt +:+ "$" +:+ h) = [m; salt; h].
Proof.
  intros Hs Hh. apply py_split2_fmt.
  - by eapply kdf_method_plain.
  - by eapply gen_salt_ok_plain.
Qed.

Lemma check_password_hash_digest `{!KdfLaws} salt p p' h m :
  gen_salt_ok 16 salt = true -> hash_internal "scrypt" salt p = Some (h, m) ->
  check_password_hash (m +:+ "$" +:+ salt +:+ "$" +:+ h) p' =
    match hash_internal m salt p' with
    | Some (h', _) => Some (bool_decide (h' = h))
    | None => None
    end.
Proof.
  intros Hs Hh. unfold check_password_hash.
  rewrite (py_split_digest 16 salt p h m) by done.
  destruct (hash_internal m salt p') as [[h' ?]|] eqn:Hh'; [|done].
  rewrite compare_digest_str_correct; [done|by eapply kdf_ascii..].
Qed.

(** ** Properties *)

(** A password verifies against the digest [generate_password_hash]
    makes of it: with a salt [gen_salt(16)] can return, hashing succeeds
    and [check_password_hash(digest, password)] is [True]. *)
Theorem check_password_hash_generate `{!KdfLaws} salt p :
  gen_salt_ok 16 salt = true ->
  exists d, generate_password_hash salt p = Some d /\ check_password_hash d p = Some true.
Proof.
  intros Hs. destruct (kdf_default_total salt p) as [[h m] Hh].
  exists (m +:+ "$" +:+ salt +:+ "$" +:+ h). split.
  - unfold generate_password_hash. by rewrite Hh.
  - rewrite (check_password_hash_digest salt p p h m) by done.
    rewrite (kdf_reproducible _ _ _ _ _ Hh). by rewrite bool_decide_true.
Qed.

Lemma check_generated `{!KdfLaws} salt p d :
  gen_salt_ok 16 salt = true -> generate_password_hash salt p = Some d ->
  check_password_hash d p = Some true.
Proof.
  intros Hs Hd. destruct (check_password_hash_generate salt p Hs) as (d'&Hd'&Hc).
  congruence.
Qed.

(** Hashing is salted: the same password hashed with two different
    salts gives two different digests, because the salt is stored
    between the two ["$"] separators of the digest. *)
Theorem generate_password_hash_salted `{!KdfLaws} s1 s2 p d1 d2 :
  gen_salt_ok 16 s1 = true -> gen_salt_ok 16 s2 = true -> s1 <> s2 ->
  generate_password_hash s1 p = Some d1 -> generate_password_hash s2 p = Some d2 ->
  d1 <> d2.
Proof.
  intros H1 H2 Hne (h1&m1&E1&->)%generate_password_hash_fmt
    (h2&m2&E2&->)%generate_password_hash_fmt Heq.
  apply (f_equal (py_split "$" 2)) in Heq.
  rewrite (py_split_digest 16 s1 p h1 m1), (py_split_digest 16 s2 p h2 m2) in Heq by done.
  congruence.
Qed.

(** [check_password_hash] accepts only a digest of the form
    ["method$salt$hash"] whose hash is what the key-derivation function
    computes from that method, that salt and the password: a malformed
    digest (fewer than two ["$"]) or an unknown method is refused. *)
Theorem check_password_hash_sound pwhash p :
  check_password_hash pwhash p = Some true ->
  exists m salt h m',
    pwhash = m +:+ "$" +:+ salt +:+ "$" +:+ h /\ hash_internal m salt p = Some (h, m').
Proof.
  unfold check_password_hash.
  destruct (py_split "$" 2 pwhash) as [|m [|salt [|h [|]]]] eqn:E; try done.
  apply py_split2_inv in E as ->.
  destruct (hash_internal m salt p) as [[h' m']|] eqn:Hh; [|done].
  intros <-%compare_digest_str_true. eauto 6.
Qed.

Section Injective.
(** The key-derivation function is collision-free for a fixed method and
    salt (scrypt is, with overwhelming probability). *)
Hypothesis kdf_injective : forall m s p1 p2 h m1 m2,
  hash_internal m s p1 = Some (h, m1) -> hash_internal m s p2 = Some (h, m2) -> p1 = p2.

(** A wrong password does not verify: [check_password_hash]
    refuses any password other than the one the digest was made from. *)
Theorem check_password_hash_wrong `{!KdfLaws} salt p p' d :
  gen_salt_ok 16 salt = true -> p' <> p ->
  generate_password_hash salt p = Some d -> check_password_hash d p' = Some false.
Proof.
  intros Hs Hne (h&m&Hh&->)%generate_password_hash_fmt.
  rewrite (check_password_hash_digest salt p p' h m) by done.
  destruct (kdf_method_total _ _ _ _ _ p' (kdf_reproducible _ _ _ _ _ Hh)) as [[h' m'] Hh'].
  rewrite Hh'. f_equal. apply bool_decide_false. intros ->.
  apply Hne. eapply kdf_injective; [exact Hh'|]. exact (kdf_reproducible _ _ _ _ _ Hh).
Qed.
End Injective.

End Hasher.
End Hasher.

(** ** An executable key-derivation function

    A transparent stand-in for scrypt, used to evaluate the examples: the
    hexadecimal digits of [salt:password].  It satisfies [KdfLaws] and
    is injective, but has none of scrypt's one-wayness.  The method it reports is werkzeug's default
    ["scrypt:32768:8:1"]. *)
Module ToyKdf.

(** The lower-case hexadecimal digits of a character, and of a string,
    as [bytes.hex()] writes them. *)
Definition hex_nibble (n : nat) : ascii :=
  match String.get n "0123456789abcdef" with Some c => c | None => "0"%char end.

Definition hex_char (c : ascii) : string :=
  String (hex_nibble (nat_of_ascii c / 16)) (String (hex_nibble (nat_of_ascii c mod 16)) EmptyString).

Fixpoint hex_string (s : string) : string :=
  match s with
  | EmptyString => EmptyString
  | String c s' => hex_char c +:+ hex_string s'
  end.

(** Reading two hexadecimal digits back. *)
Definition unhex_nibble (c : ascii) : nat :=
  let n := nat_of_ascii c in if Nat.leb 97 n then n - 87 else n - 48.

Definition unhex_char (a b : ascii) : ascii :=
  ascii_of_nat (unhex_nibble a * 16 + unhex_nibble b).

Definition toy_hash_internal (m s p : string) : option (string * string) :=
  if String.eqb m "scrypt" || String.eqb m "scrypt:32768:8:1"
  then Some (hex_string (s +:+ ":" +:+ p), "scrypt:32768:8:1") else None.

#[export] Instance toy_kdf : Kdf := {| hash_internal := toy_hash_internal |}.

Lemma hex_char_inv c :
  match hex_char c with String a (String b EmptyString) => unhex_char a b = c | _ => False end.
Proof. destruct c as [[] [] [] [] [] [] [] []]; reflexivity. Qed.

Lemma hex_char_ascii c : is_ascii_str (hex_char c) = true.
Proof. destruct c as [[] [] [] [] [] [] [] []]; reflexivity. Qed.

Lemma hex_string_ascii s : is_ascii_str (hex_string s) = true.
Proof.
  induction s as [|c s IH]; [done|]. cbn [hex_string].
  by rewrite is_ascii_str_app, hex_char_ascii, IH.
Qed.

Lemma hex_char_shape c :
  exists a b, hex_char c = String a (String b EmptyString) /\ unhex_char a b = c.
Proof.
  pose proof (hex_char_inv c). destruct (hex_char c) as [|a [|b [|]]]; try done. eauto.
Qed.

Lemma hex_string_inj s1 s2 : hex_string s1 = hex_string s2 -> s1 = s2.
Proof.
  revert s2; induction s1 as [|c1 s1 IH]; intros [|c2 s2]; cbn [hex_string]; try done.
  destruct (hex_char_shape c1) as (a1&b1&->&<-), (hex_char_shape c2) as (a2&b2&->&<-).
  simpl. intros [= -> -> Heq]. by rewrite (IH s2 Heq).
Qed.

#[export] Instance toy_kdf_laws : KdfLaws.
Proof.
  split; unfold hash_internal; simpl; unfold toy_hash_internal.
  - intros m s p h m'. destruct (_ || _); [|done]. by intros [= <- <-].
  - intros m s p h m'. destruct (_ || _); [|done]. by intros [= <- <-].
  - intros m s p h m' p'. destruct (_ || _); [|done]. intros [= <- <-]. by eexists.
  - intros m s p h m'. destruct (_ || _); [|done]. intros [= <- <-].
    apply hex_string_ascii.
  - intros s p. by eexists.
Qed.

Lemma toy_kdf_injective m s p1 p2 h m1 m2 :
  hash_internal m s p1 = Some (h, m1) -> hash_internal m s p2 = Some (h, m2) -> p1 = p2.
Proof.
  unfold hash_internal; simpl; unfold toy_hash_internal.
  destruct (_ || _); [|done]. intros [= <- _] [= Heq%hex_string_inj _].
  apply str_app_inv_l in Heq. congruence.
Qed.

End ToyKdf.

(** ** Examples on the executable stand-in *)
Module HasherExamples.
Import Hasher ToyKdf.

Definition salt1 : string := "abcdefghij012345".
Definition salt2 : string := "ZYXWVUTSRQ987654".
Definition digest1 : string := "scrypt:32768:8:1$abcdefghij012345$6162636465666768696a3031323334353a7077313233".

Example generate_example : generate_password_hash salt1 "pw123" = Some digest1.
Proof. reflexivity. Qed.

Lemma check_password_hash_generate_witness :
  gen_salt_ok 16 salt1 = true /\
  exists d, generate_password_hash salt1 "pw123" = Some d /\ check_password_hash d "pw123" = Some true.
Proof. split; [reflexivity|]. apply check_password_hash_generate. reflexivity. Defined.

Definition digest2 : string := "scrypt:32768:8:1$ZYXWVUTSRQ987654$5a5958575655545352513938373635343a7077313233".

Lemma generate_password_hash_salted_witness : digest1 <> digest2.
Proof.
  apply (generate_password_hash_salted salt1 salt2 "pw123");
    [reflexivity | reflexivity | discriminate | reflexivity | reflexivity].
Defined.

Lemma check_password_hash_sound_witness :
  exists m salt h m',
    digest1 = m +:+ "$" +:+ salt +:+ "$" +:+ h /\ hash_internal m salt "pw123" = Some (h, m').
Proof. apply check_password_hash_sound. reflexivity. Defined.

Lemma check_password_hash_wrong_witness :
  check_password_hash digest1 "wrong" = Some false.
Proof.
  apply (check_password_hash_wrong toy_kdf_injective salt1 "pw123" "wrong");
    [reflexivity | discriminate | reflexivity].
Defined.

End HasherExamples.
