(* ===== verification/Store.v ===== *)
(** * Credential store: the [users] table

    database.py's [get_db] opens ["users.db"] and runs
    [CREATE TABLE IF NOT EXISTS users(id INTEGER PRIMARY KEY
    AUTOINCREMENT, username TEXT UNIQUE, password TEXT)]; app.py runs one
    [INSERT] (register) and one [SELECT ... WHERE username=?] (login) on
    it.  The file's contents are the state: [None] before the table
    exists, then the rows in rowid order and the AUTOINCREMENT counter
    ([sqlite_sequence]).  The SQLite semantics the code relies on is
    written out: a UNIQUE column admits any number of NULLs, [x = NULL]
    is never true, a TEXT column stores a bound integer as its decimal
    text, and AUTOINCREMENT fails with SQLITE_FULL once the largest
    rowid reached is [2^63 - 1]. *)

From S2P Require Import Prelude Json.
From Stdlib Require Import Sorted.

Module Store.

(** The exceptions of [sqlite3] the two statements can raise. *)
Inductive sql_error : Type :=
  | IntegrityError   (** UNIQUE constraint failed: users.username *)
  | DatabaseFull     (** SQLITE_FULL: no rowid left for AUTOINCREMENT *)
  | BindError        (** a parameter of a type sqlite3 cannot bind *)
  | OverflowError.   (** an integer parameter outside SQLite's 64 bits *)

(** A row [(id, username, password)]; [None] is SQL NULL. *)
Record row : Type := mk_row {
  row_id : Z;
  row_username : option string;
  row_password : option string
}.

Record users_table : Type := mk_table {
  rows : list row;   (** in rowid order *)
  seq : Z            (** largest rowid ever used (sqlite_sequence) *)
}.

(** The database file: [None] until the [users] table is created. *)
Definition db : Type := option users_table.

Definition MAX_ROWID : Z := (2 ^ 63 - 1)%Z.

Definition empty_table : users_table := mk_table [] 0.

(** [get_db()]: the table, created empty if the file has none. *)
Definition get_db (d : db) : users_table :=
  match d with
  | Some t => t
  | None => empty_table
  end.

(** A Python value bound to a parameter compared with, or stored in, the
    TEXT column [username]: [None] is NULL, a string is itself, an
    integer or a boolean becomes its decimal text (column affinity), an
    integer outside [[-2^63, 2^63)] raises [OverflowError] when it is
    bound, and a list or a dict cannot be bound. *)
Definition bind_text (v : json) : result sql_error (option string) :=
  match v with
  | JNull => Ok None
  | JStr s => Ok (Some s)
  | JInt z =>
      if Z.leb (- 2 ^ 63) z && Z.ltb z (2 ^ 63) then Ok (Some (py_str_of_int z))
      else Err OverflowError
  | JBool b => Ok (Some (if b then "1" else "0"))
  | JArr _ | JObj _ => Err BindError
  end.

Definition max_rowid (rs : list row) : Z :=
  fold_right (fun r m => Z.max (row_id r) m) 0%Z rs.

(** Whether a row has [username = u]; NULL equals nothing. *)
Definition has_username (u : string) (r : row) : bool :=
  bool_decide (row_username r = Some u).

Definition username_taken (u : string) (rs : list row) : bool :=
  existsb (has_username u) rs.

(** [INSERT INTO users(username, password) VALUES (?, ?)]: a new rowid
    one above the largest used, then the UNIQUE check on a non-NULL
    username; a failing statement changes nothing. *)
Definition insert_user (username password : option string) (t : users_table)
    : result sql_error users_table :=
  let largest := Z.max (seq t) (max_rowid (rows t)) in
  if Z.leb MAX_ROWID largest then Err DatabaseFull
  else
    let ok := Ok (mk_table (rows t ++ [mk_row (largest + 1) username password])
                           (largest + 1)) in
    match username with
    | Some u => if username_taken u (rows t) then Err IntegrityError else ok
    | None => ok
    end.

(** [SELECT * FROM users WHERE username=?] and [fetchone()]: the first
    row, in rowid order, whose username equals the parameter. *)
Definition select_by_username (username : option string) (t : users_table) : option row :=
  match username with
  | None => None
  | Some u => List.find (has_username u) (rows t)
  end.

(** ** Well-formedness of the table

    Non-NULL usernames are pairwise distinct, rowids increase along the
    table and none exceeds the counter. *)
Definition table_wf (t : users_table) : Prop :=
  NoDup (omap row_username (rows t)) /\
  StronglySorted Z.lt (map row_id (rows t)) /\
  Forall (fun r => (row_id r <= seq t)%Z) (rows t) /\
  (0 <= seq t)%Z.

Definition db_wf (d : db) : Prop :=
  match d with
  | Some t => table_wf t
  | None => True
  end.

(** ** Lemmas *)

Lemma max_rowid_le rs m :
  Forall (fun r => (row_id r <= m)%Z) rs -> (0 <= m)%Z -> (max_rowid rs <= m)%Z.
Proof. induction 1; simpl; lia. Qed.

Lemma StronglySorted_snoc {A} (R : A -> A -> Prop) l x :
  StronglySorted R l -> Forall (fun y => R y x) l -> StronglySorted R (l ++ [x]).
Proof.
  induction 1 as [|y l Hl IH Hy]; intros Hx; simpl.
  - repeat constructor.
  - inv_clear Hx. constructor; [auto|]. apply Forall_app. auto.
Qed.

Lemma username_taken_spec u rs :
  username_taken u rs = false <-> u ∉ omap row_username rs.
Proof.
  unfold username_taken. rewrite <- not_true_iff_false, existsb_exists.
  rewrite list_elem_of_omap. unfold has_username.
  split.
  - intros H [r [Hr Hu]]. apply H. exists r. rewrite list_elem_of_In in Hr.
    split; [done|]. by apply bool_decide_eq_true_2.
  - intros H [r [Hr Hu%bool_decide_eq_true_1]]. apply H. exists r.
    by rewrite list_elem_of_In.
Qed.

(** The shape of a successful insert. *)
Lemma insert_user_ok u p t t' :
  insert_user u p t = Ok t' ->
  let id := (Z.max (seq t) (max_rowid (rows t)) + 1)%Z in
  t' = mk_table (rows t ++ [mk_row id u p]) id /\ (id <= MAX_ROWID)%Z /\
  (forall x, u = Some x -> username_taken x (rows t) = false).
Proof.
  unfold insert_user. destruct (Z.leb_spec MAX_ROWID (Z.max (seq t) (max_rowid (rows t))));
    [done|].
  destruct u as [x|].
  - destruct (username_taken x (rows t)) eqn:Ht; [done|].
    intros [= <-]. split_and!; [done|lia|]. by intros ? [= <-].
  - intros [= <-]. split_and!; [done|lia|done].
Qed.

Lemma find_app_none {A} (f : A -> bool) l1 l2 :
  List.find f l1 = None -> List.find f (l1 ++ l2) = List.find f l2.
Proof. induction l1 as [|x l1 IH]; simpl; [done|]. by destruct (f x). Qed.

Lemma find_app_some {A} (f : A -> bool) l1 l2 x :
  List.find f l1 = Some x -> List.find f (l1 ++ l2) = Some x.
Proof. induction l1 as [|y l1 IH]; simpl; [done|]. by destruct (f y). Qed.

Lemma find_none_taken u rs :
  username_taken u rs = false -> List.find (has_username u) rs = None.
Proof.
  unfold username_taken. induction rs as [|r rs IH]; simpl; [done|].
  intros [-> ?]%orb_false_iff. auto.
Qed.

Lemma select_taken u t r :
  select_by_username (Some u) t = Some r -> username_taken u (rows t) = true.
Proof.
  intros Hsel. destruct (username_taken u (rows t)) eqn:Ht; [done|].
  apply find_none_taken in Ht. simpl in Hsel. congruence.
Qed.

Lemma select_by_username_sound u t r :
  select_by_username u t = Some r -> row_username r = u /\ In r (rows t).
Proof.
  destruct u as [x|]; simpl; [|done].
  intros [Hin Hr]%find_some. unfold has_username in Hr.
  apply bool_decide_eq_true_1 in Hr. done.
Qed.

Lemma table_wf_max t : table_wf t -> (max_rowid (rows t) <= seq t)%Z.
Proof. intros (_&_&Hids&Hseq). by apply max_rowid_le. Qed.

Lemma empty_table_wf : table_wf empty_table.
Proof. split_and!; repeat constructor; simpl; lia. Qed.

Lemma get_db_wf d : db_wf d -> table_wf (get_db d).
Proof. destruct d; simpl; [done|]. intros _. apply empty_table_wf. Qed.

(** A free username is inserted while rowids remain. *)
Lemma insert_user_fresh u p t :
  table_wf t -> (seq t < MAX_ROWID)%Z -> username_taken u (rows t) = false ->
  exists t', insert_user (Some u) p t = Ok t' /\
    rows t' = rows t ++ [mk_row (seq t + 1) (Some u) p].
Proof.
  intros Hwf Hlt Hfree. pose proof (table_wf_max t Hwf) as Hmax.
  unfold insert_user. rewrite Z.max_l by done.
  destruct (Z.leb_spec MAX_ROWID (seq t)); [lia|]. rewrite Hfree. by eexists.
Qed.

#[export] Hint Resolve empty_table_wf get_db_wf : auth.

(** ** Properties *)

(** (C34) Every successful [INSERT] keeps the table well formed: the
    non-NULL usernames stay pairwise distinct (the UNIQUE constraint),
    rowids keep increasing and stay below the AUTOINCREMENT counter. *)
Theorem insert_user_wf u p t t' :
  table_wf t -> insert_user u p t = Ok t' -> table_wf t'.
Proof.
  intros Hwf Hins. pose proof (table_wf_max t Hwf) as Hmax.
  destruct Hwf as (Hnd&Hsort&Hids&Hseq).
  apply insert_user_ok in Hins as (->&_&Hfresh). unfold table_wf.
  cbn -[omap max_rowid Z.max]. split_and!.
  - rewrite omap_app. apply NoDup_app. split_and!; [done| |].
    + intros x Hx. destruct u as [y|]; simpl; [|set_solver].
      rewrite list_elem_of_singleton. intros <-.
      exact (proj1 (username_taken_spec x (rows t)) (Hfresh x eq_refl) Hx).
    + destruct u; simpl; repeat constructor; set_solver.
  - rewrite map_app. apply StronglySorted_snoc; [done|].
    apply Forall_map. eapply Forall_impl; [exact Hids|]. simpl. lia.
  - apply Forall_app. split; [|repeat constructor; simpl; lia].
    eapply Forall_impl; [exact Hids|]. simpl. lia.
  - lia.
Qed.

(** Inserting a username already in the table fails: the statement
    raises and, the result being an error, the table is unchanged.  If
    the rowid space is not exhausted the error is the UNIQUE violation. *)
Theorem insert_user_duplicate u p t :
  username_taken u (rows t) = true ->
  insert_user (Some u) p t =
    if Z.leb MAX_ROWID (Z.max (seq t) (max_rowid (rows t)))
    then Err DatabaseFull else Err IntegrityError.
Proof. intros Ht. unfold insert_user. by rewrite Ht. Qed.

(** (C35) Round trip: after a successful insert of a named user, the
    [SELECT] of that name finds exactly the inserted row, with the new
    rowid and the stored password. *)
Theorem insert_select u p t t' :
  insert_user (Some u) p t = Ok t' ->
  select_by_username (Some u) t' = Some (mk_row (seq t') (Some u) p).
Proof.
  intros Hins. apply insert_user_ok in Hins as (->&_&Hfresh). simpl.
  rewrite find_app_none by (apply find_none_taken; auto).
  simpl. unfold has_username. simpl. by rewrite bool_decide_true.
Qed.

(** Inserting one user does not change what [SELECT] finds for another
    name. *)
Lemma insert_select_other u u' p t t' :
  insert_user u p t = Ok t' -> u' <> u ->
  select_by_username u' t' = select_by_username u' t.
Proof.
  intros Hins Hne. apply insert_user_ok in Hins as (->&_&_).
  destruct u' as [x|]; simpl; [|done].
  destruct (List.find (has_username x) (rows t)) eqn:E.
  - by apply find_app_some.
  - rewrite find_app_none by done. simpl. unfold has_username. simpl.
    rewrite bool_decide_false; [done|]. congruence.
Qed.

(** (C36) Overflow of the rowid: on a well-formed table an [INSERT] fails
    with SQLITE_FULL exactly when the counter has reached
    [2^63 - 1], whatever the row. *)
Theorem insert_user_full u p t :
  table_wf t ->
  (insert_user u p t = Err DatabaseFull <-> (MAX_ROWID <= seq t)%Z).
Proof.
  intros Hwf. pose proof (table_wf_max t Hwf) as Hmax.
  unfold insert_user. rewrite Z.max_l by done.
  destruct (Z.leb_spec MAX_ROWID (seq t)); [done|].
  split; [|lia]. destruct u as [x|]; [destruct (username_taken x (rows t))|]; done.
Qed.

(** NULL usernames never collide: while rowids remain, inserting a
    row with no username always succeeds, however many such rows the
    table already holds. *)
Theorem insert_user_null u_p t :
  table_wf t -> (seq t < MAX_ROWID)%Z ->
  exists t', insert_user None u_p t = Ok t' /\ rows t' = rows t ++ [mk_row (seq t + 1) None u_p].
Proof.
  intros Hwf Hlt. pose proof (table_wf_max t Hwf) as Hmax.
  unfold insert_user. rewrite Z.max_l by done.
  destruct (Z.leb_spec MAX_ROWID (seq t)); [lia|]. by eexists.
Qed.

End Store.

(** ** Examples *)
Module StoreExamples.
Import Store.

Definition t_alice : users_table := mk_table [mk_row 1 (Some "alice") (Some "h1")] 1.

Lemma insert_user_wf_witness : table_wf t_alice.
Proof.
  apply (insert_user_wf (Some "alice") (Some "h1") empty_table);
    [apply empty_table_wf | reflexivity].
Defined.

Lemma insert_user_duplicate_witness :
  insert_user (Some "alice") (Some "h2") t_alice = Err IntegrityError.
Proof. apply (insert_user_duplicate "alice" (Some "h2") t_alice). reflexivity. Defined.

Lemma insert_select_witness :
  select_by_username (Some "alice") t_alice = Some (mk_row 1 (Some "alice") (Some "h1")).
Proof. apply (insert_select "alice" (Some "h1") empty_table t_alice). reflexivity. Defined.

Lemma insert_user_full_witness :
  insert_user (Some "bob") None (mk_table [] MAX_ROWID) = Err DatabaseFull.
Proof.
  apply (insert_user_full (Some "bob") None (mk_table [] MAX_ROWID)).
  - split_and!; repeat constructor; unfold MAX_ROWID; simpl; lia.
  - simpl. lia.
Defined.

Lemma insert_user_null_witness :
  exists t', insert_user None (Some "h") t_alice = Ok t' /\
             rows t' = rows t_alice ++ [mk_row 2 None (Some "h")].
Proof.
  apply (insert_user_null (Some "h") t_alice).
  - apply insert_user_wf_witness.
  - unfold MAX_ROWID; simpl; lia.
Defined.

End StoreExamples.
