(* ===== verification/Jwt.v ===== *)
(** * Token issuer and verifier: PyJWT

    [jwt.encode(payload, key)] (login) and
    [jwt.decode(token, key, algorithms=["HS256"])] (protected).  PyJWT
    is a library the repository only calls; this file follows PyJWT 2.8
    ([api_jws.PyJWS], [api_jwt.PyJWT]) and the specification's token
    contract (section 4.3).  Its three primitives are interfaces with
    the laws the token logic needs: base64url without padding
    ([Base64Url]), the JSON text of a value as UTF-8 bytes ([JsonCodec])
    and HMAC over SHA-256, SHA-384 and SHA-512 ([Hmac]).  The algorithms
    [decode] can verify are those PyJWT registers without the optional
    [cryptography] package (the repository declares no dependency):
    ["none"], ["HS256"], ["HS384"], ["HS512"].  A token is [b64(header).b64(payload).b64(mac)]
    with the compact, key-sorted header [{"alg":"HS256","typ":"JWT"}]. *)

From S2P Require Import Prelude Json Digest.
Import CompareDigest.

Class Base64Url := {
  b64_encode : list Z -> string;
  b64_decode : string -> option (list Z)
}.

Class Base64UrlLaws `{Base64Url} := {
  b64_decode_encode : forall bs, Forall is_byte bs -> b64_decode (b64_encode bs) = Some bs;
  b64_encode_no_dot : forall bs, char_in "." (b64_encode bs) = false
}.

Class JsonCodec := {
  json_dumps : json -> list Z;
  json_loads : list Z -> option json
}.

Class JsonCodecLaws `{JsonCodec} := {
  json_loads_dumps : forall j, json_loads (json_dumps j) = Some j;
  json_dumps_bytes : forall j, Forall is_byte (json_dumps j)
}.

(** [hmac.new(key, msg, h).digest()] for [h] SHA-256, SHA-384 and
    SHA-512, the hashes of PyJWT's [HMACAlgorithm]. *)
Class Hmac := {
  hmac_sha256 : list Z -> list Z -> list Z;
  hmac_sha384 : list Z -> list Z -> list Z;
  hmac_sha512 : list Z -> list Z -> list Z
}.

Class HmacLaws `{Hmac} := {
  hmac_bytes : forall k m, Forall is_byte (hmac_sha256 k m)
}.

Module Jwt.

(** The exceptions of [jwt.exceptions] that [decode] raises. *)
Inductive jwt_error : Type :=
  | DecodeError
  | InvalidAlgorithmError
  | InvalidKeyError
  | InvalidSignatureError
  | ExpiredSignatureError
  | ImmatureSignatureError
  | InvalidAudienceError
  | InvalidIssuedAtError.

Section Jwt.
Context `{Base64Url} `{JsonCodec} `{Hmac}.

(** [timegm(d.utctimetuple())] for a UTC datetime [d] given in
    microseconds since the epoch: whole seconds, rounded down. *)
Definition timegm_utctimetuple (t_us : Z) : Z := t_us / 1000000.

(** The header PyJWS.encode builds, serialised with [sort_keys=True]. *)
Definition jws_header (alg : string) : json :=
  JObj [("alg", JStr alg); ("typ", JStr "JWT")].

(** [HMACAlgorithm.sign(msg, key)] with the key [force_bytes(key)]. *)
Definition hs256_sign (key : string) (msg : string) : list Z :=
  hmac_sha256 (bytes_of_string key) (bytes_of_string msg).

(** [jwt.encode(payload, key)] with the default algorithm ["HS256"]:
    [payload] is the claims dict, its [datetime] values already
    converted to integers. *)
Definition encode (payload : list (string * json)) (key : string) : string :=
  let signing_input :=
    b64_encode (json_dumps (jws_header "HS256")) +:+ "." +:+
    b64_encode (json_dumps (JObj payload)) in
  signing_input +:+ "." +:+ b64_encode (hs256_sign key signing_input).

(** [PyJWS._load(jwt)]: the signing input, the header dict, the payload
    bytes and the signature bytes. *)
Definition jws_load (token : string)
    : result jwt_error (string * list (string * json) * list Z * list Z) :=
  match rsplit_once "." token with
  | None => Err DecodeError                         (* Not enough segments *)
  | Some (signing_input, crypto_segment) =>
  match split_once "." signing_input with
  | None => Err DecodeError                         (* Not enough segments *)
  | Some (header_segment, payload_segment) =>
  match b64_decode header_segment with
  | None => Err DecodeError                         (* Invalid header padding *)
  | Some header_data =>
  match json_loads header_data with
  | Some (JObj header) =>
      match b64_decode payload_segment with
      | None => Err DecodeError                     (* Invalid payload padding *)
      | Some payload =>
      match b64_decode crypto_segment with
      | None => Err DecodeError                     (* Invalid crypto padding *)
      | Some signature => Ok (signing_input, header, payload, signature)
      end end
  | _ => Err DecodeError                            (* Invalid header string *)
  end end end end.

(** The algorithms of PyJWT's default registry ([get_default_algorithms]
    without [cryptography]). *)
Inductive jws_algorithm : Type :=
  | AlgNone                                   (** [NoneAlgorithm] *)
  | AlgHMAC (mac : list Z -> list Z -> list Z). (** [HMACAlgorithm(hash)] *)

(** [PyJWS.get_algorithm_by_name]: [None] where it raises
    [NotImplementedError]. *)
Definition get_algorithm_by_name (alg : string) : option jws_algorithm :=
  if String.eqb alg "none" then Some AlgNone
  else if String.eqb alg "HS256" then Some (AlgHMAC hmac_sha256)
  else if String.eqb alg "HS384" then Some (AlgHMAC hmac_sha384)
  else if String.eqb alg "HS512" then Some (AlgHMAC hmac_sha512)
  else None.

(** [PyJWS._verify_signature]: the header's ["alg"] must be present,
    non-empty and one of [algorithms] ([InvalidAlgorithmError]), and
    registered ([NotImplementedError], re-raised as
    [InvalidAlgorithmError]); [NoneAlgorithm.prepare_key] refuses any key
    but [""] ([InvalidKeyError]) and its [verify] is [False]; for HMAC
    the signature must be the HMAC of the signing input under the key
    ([hmac.compare_digest]). *)
Definition verify_signature (signing_input : string) (header : list (string * json))
    (signature : list Z) (key : string) (algorithms : list string) : result jwt_error unit :=
  match dict_get "alg" header with
  | Some (JStr alg) =>
      if negb (String.eqb alg "") && bool_decide (alg ∈ algorithms) then
        match get_algorithm_by_name alg with
        | None => Err InvalidAlgorithmError
        | Some AlgNone => if String.eqb key "" then Err InvalidSignatureError else Err InvalidKeyError
        | Some (AlgHMAC mac) =>
            if compare_digest signature (mac (bytes_of_string key) (bytes_of_string signing_input))
            then Ok tt else Err InvalidSignatureError
        end
      else Err InvalidAlgorithmError
  | _ => Err InvalidAlgorithmError
  end.

(** [PyJWT._validate_claims] with the defaults of [jwt.decode] (leeway
    0, no audience, no issuer, no required claims), at the time [now]
    in whole seconds. *)
Definition validate_iat (payload : list (string * json)) (now : Z) : result jwt_error unit :=
  match dict_get "iat" payload with
  | None => Ok tt
  | Some v =>
      match py_int v with
      | None => Err InvalidIssuedAtError
      | Some iat => if Z.ltb now iat then Err ImmatureSignatureError else Ok tt
      end
  end.

Definition validate_nbf (payload : list (string * json)) (now : Z) : result jwt_error unit :=
  match dict_get "nbf" payload with
  | None => Ok tt
  | Some v =>
      match py_int v with
      | None => Err DecodeError
      | Some nbf => if Z.ltb now nbf then Err ImmatureSignatureError else Ok tt
      end
  end.

Definition validate_exp (payload : list (string * json)) (now : Z) : result jwt_error unit :=
  match dict_get "exp" payload with
  | None => Ok tt
  | Some v =>
      match py_int v with
      | None => Err DecodeError
      | Some exp => if Z.leb exp now then Err ExpiredSignatureError else Ok tt
      end
  end.

Definition validate_aud (payload : list (string * json)) : result jwt_error unit :=
  match dict_get "aud" payload with
  | Some v => if json_truthy v then Err InvalidAudienceError else Ok tt
  | None => Ok tt
  end.

Definition validate_claims (payload : list (string * json)) (now : Z) : result jwt_error unit :=
  let* _ := validate_iat payload now in
  let* _ := validate_nbf payload now in
  let* _ := validate_exp payload now in
  validate_aud payload.

(** [jwt.decode(token, key, algorithms)] at the UTC time [now_us]
    (microseconds): the claims dict, or the exception raised. *)
Definition decode (token : string) (key : string) (algorithms : list string) (now_us : Z)
    : result jwt_error (list (string * json)) :=
  let* '(signing_input, header, payload, signature) := jws_load token in
  match dict_get "b64" header with
  | Some (JBool false) => Err DecodeError          (* detached payload required *)
  | _ =>
    let* _ := verify_signature signing_input header signature key algorithms in
    match json_loads payload with
    | Some (JObj claims) =>
        let* _ := validate_claims claims (timegm_utctimetuple now_us) in
        Ok claims
    | _ => Err DecodeError                         (* Invalid payload string *)
    end
  end.

(** ** Lemmas *)

Lemma hs256_sign_bytes `{!HmacLaws} key msg : Forall is_byte (hs256_sign key msg).
Proof. apply hmac_bytes. Qed.

Lemma verify_signature_hs256 signing_input header signature key :
  dict_get "alg" header = Some (JStr "HS256") ->
  verify_signature signing_input header signature key ["HS256"] =
    if bool_decide (signature = hs256_sign key signing_input) then Ok tt
    else Err InvalidSignatureError.
Proof.
  intros Halg. unfold verify_signature. rewrite Halg.
  rewrite bool_decide_true by set_solver. simpl.
  by rewrite compare_digest_correct.
Qed.

(** With [algorithms=["HS256"]], a signature verifies only under a
    header announcing HS256, and only if it is the HMAC-SHA256 of the
    signing input. *)
Lemma verify_signature_ok signing_input header signature key u :
  verify_signature signing_input header signature key ["HS256"] = Ok u ->
  dict_get "alg" header = Some (JStr "HS256") /\ signature = hs256_sign key signing_input.
Proof.
  unfold verify_signature.
  destruct (dict_get "alg" header) as [[| | |alg| |]|]; try done.
  destruct (bool_decide (alg ∈ ["HS256"])) eqn:Hin; rewrite ?andb_false_r; [|done].
  apply bool_decide_eq_true_1, list_elem_of_singleton in Hin as ->. cbn.
  rewrite compare_digest_correct. by case_bool_decide.
Qed.

(** The segments of a token [encode] built are loaded back. *)
Lemma jws_load_encode `{!Base64UrlLaws} `{!JsonCodecLaws} `{!HmacLaws} payload key :
  let signing_input :=
    b64_encode (json_dumps (jws_header "HS256")) +:+ "." +:+
    b64_encode (json_dumps (JObj payload)) in
  jws_load (encode payload key) =
    Ok (signing_input, [("alg", JStr "HS256"); ("typ", JStr "JWT")],
        json_dumps (JObj payload), hs256_sign key signing_input).
Proof.
  intros si. unfold jws_load, encode. fold si. rewrite !str_app_single.
  rewrite rsplit_once_app by apply b64_encode_no_dot.
  unfold si. rewrite !str_app_single, split_once_app by apply b64_encode_no_dot.
  rewrite !b64_decode_encode by auto using json_dumps_bytes, hs256_sign_bytes.
  by rewrite json_loads_dumps.
Qed.

(** [decode] of a token [encode] built with the same key is exactly the
    validation of its claims. *)
Lemma decode_encode `{!Base64UrlLaws} `{!JsonCodecLaws} `{!HmacLaws} payload key now_us :
  decode (encode payload key) key ["HS256"] now_us =
    (let* _ := validate_claims payload (timegm_utctimetuple now_us) in Ok payload).
Proof.
  unfold decode. rewrite jws_load_encode. simpl.
  rewrite verify_signature_hs256 by reflexivity.
  rewrite bool_decide_true by done. simpl.
  by rewrite json_loads_dumps.
Qed.

(** What [decode] establishes of a token it accepts: three segments, the
    first decoding to a JSON header announcing HS256, the second to the
    JSON claims, which pass validation at [now], the third to the HMAC of
    the first two under the key. *)
Lemma decode_ok_inv token key now_us claims :
  decode token key ["HS256"] now_us = Ok claims ->
  exists hseg pseg sseg hd header pl,
    token = hseg +:+ "." +:+ pseg +:+ "." +:+ sseg /\
    char_in "." hseg = false /\ char_in "." sseg = false /\
    b64_decode hseg = Some hd /\ json_loads hd = Some (JObj header) /\
    dict_get "alg" header = Some (JStr "HS256") /\
    b64_decode pseg = Some pl /\ json_loads pl = Some (JObj claims) /\
    b64_decode sseg = Some (hs256_sign key (hseg +:+ "." +:+ pseg)) /\
    validate_claims claims (timegm_utctimetuple now_us) = Ok tt.
Proof.
  unfold decode, jws_load.
  destruct (rsplit_once "." token) as [[si sseg]|] eqn:Hr; [|done].
  apply rsplit_once_spec in Hr as [-> Hsdot].
  destruct (split_once "." si) as [[hseg pseg]|] eqn:Hs; [|done].
  apply split_once_spec in Hs as [-> Hhdot].
  destruct (b64_decode hseg) as [hd|] eqn:Hhd; [|done].
  destruct (json_loads hd) as [[| | | | |header]|] eqn:Hh; try done.
  destruct (b64_decode pseg) as [pl|] eqn:Hpl; [|done].
  destruct (b64_decode sseg) as [sig|] eqn:Hsig; [|done]. simpl.
  destruct (dict_get "b64" header) as [[| [] | | | |]|]; try done;
  (destruct (verify_signature _ _ _ _ _) as [[]|] eqn:Hvs; [|done]);
  apply verify_signature_ok in Hvs as [Halg ->];
  simpl; (destruct (json_loads pl) as [[| | | | |cl]|] eqn:Hpl'; try done);
  (destruct (validate_claims cl _) as [[]|] eqn:Hv; [|done]); intros [= <-];
  exists hseg, pseg, sseg, hd, header, pl;
  (split_and!; [by autorewrite with auth_rw|..]); done.
Qed.

End Jwt.
End Jwt.
