(* ===== verification/Sha2.v ===== *)
(** * The SHA-2 hashes and HMAC

    The hashes PyJWT signs HS256, HS384 and HS512 tokens with
    ([hmac.new(key, msg, hashlib.sha256)] and its 384 and 512 variants
    in [HMACAlgorithm]) and that werkzeug's scrypt and PBKDF2 derive
    keys with.  The code is OpenSSL's, reached through CPython's
    [hashlib] and [hmac]; it is modelled from FIPS 180-4 and RFC 2104 as
    those modules implement them.

    Words are unsigned integers of 32 (SHA-256) or 64 (SHA-384, SHA-512)
    bits kept as [Z], every sum wrapped with [Z.land _ (Z.ones w)];
    bytes are [list Z] as in the Prelude.  [Module Sha2] holds the
    family's algorithm once, over a record [sha2_params] of the word
    size, the constants, the rotation amounts and the digest length
    (FIPS 180-4 sections 4 to 6), and its three members; [Module
    HmacSha2] holds HMAC over any of them, and [hmac_sha2_impl], the
    instance of the class [Hmac] of Jwt.v, whose laws are proved here.
    Known-answer tests (FIPS 180-2 and RFC 4231) are evaluated by
    [vm_compute] at the end. *)

From S2P Require Import Prelude Jwt.

Module Sha2.
Local Open Scope Z_scope.

(** ** Parameters of a member of the family *)
Record sha2_params := mk_sha2_params {
  wbits : Z;                   (** the word size: 32 or 64 *)
  kconst : list Z;             (** the round constants *)
  iv : list Z;                 (** the initial hash value *)
  nrounds : nat;               (** 64 or 80 *)
  rS0 : Z * Z * Z;             (** the rotations of [Sigma0] *)
  rS1 : Z * Z * Z;             (** the rotations of [Sigma1] *)
  rs0 : Z * Z * Z;             (** two rotations and a shift: [sigma0] *)
  rs1 : Z * Z * Z;             (** two rotations and a shift: [sigma1] *)
  lenbytes : nat;              (** the bytes of the length field: 8 or 16 *)
  outlen : nat                 (** the bytes of the digest *)
}.

(** Words written in hexadecimal and separated by spaces, as FIPS 180-4
    prints its tables. *)
Definition hex_nibble_value (c : ascii) : Z :=
  let n := Z.of_nat (nat_of_ascii c) in if n <=? 57 then n - 48 else n - 87.

Fixpoint hex_words (s : string) (acc : Z) (started : bool) : list Z :=
  match s with
  | EmptyString => if started then [acc] else []
  | String c s' =>
      if Ascii.eqb c " " then
        if started then acc :: hex_words s' 0 false else hex_words s' 0 false
      else hex_words s' (acc * 16 + hex_nibble_value c) true
  end.

(** ** Bytes and words, big-endian *)

Definition be_word (bs : list Z) : Z := fold_left (fun acc b => acc * 256 + b) bs 0.

Fixpoint be_bytes (n : nat) (x : Z) : list Z :=
  match n with
  | O => []
  | S n' => be_bytes n' (Z.shiftr x 8) ++ [Z.land x 255]
  end.

(** [l] cut into pieces of [n] elements, the last one possibly
    shorter; [fuel] is the number of pieces allowed. *)
Fixpoint chunks (fuel n : nat) (l : list Z) : list (list Z) :=
  match fuel, l with
  | O, _ | _, [] => []
  | S f, _ => take n l :: chunks f n (drop n l)
  end.

Section Sha2.
Variable P : sha2_params.

Definition wbytes : nat := Z.to_nat (wbits P / 8).
Definition block_bytes : nat := 16 * wbytes.

(** ** Words of [wbits P] bits *)
Definition wmask (x : Z) : Z := Z.land x (Z.ones (wbits P)).
Definition addw (a b : Z) : Z := wmask (a + b).
Definition rotr (x n : Z) : Z := Z.lor (Z.shiftr x n) (wmask (Z.shiftl x (wbits P - n))).

(** The six logical functions (sections 4.1.2 and 4.1.3). *)
Definition Ch (x y z : Z) : Z := Z.lxor (Z.land x y) (Z.land (Z.lxor x (Z.ones (wbits P))) z).
Definition Maj (x y z : Z) : Z := Z.lxor (Z.lxor (Z.land x y) (Z.land x z)) (Z.land y z).
Definition Sigma (r : Z * Z * Z) (x : Z) : Z :=
  let '(a, b, c) := r in Z.lxor (Z.lxor (rotr x a) (rotr x b)) (rotr x c).
Definition sigma (r : Z * Z * Z) (x : Z) : Z :=
  let '(a, b, c) := r in Z.lxor (Z.lxor (rotr x a) (rotr x b)) (Z.shiftr x c).

Definition to_words (block : list Z) : list Z := map be_word (chunks (length block) wbytes block).

(** ** Padding (section 5.1): the message, the byte [0x80], zeros, and
    the length in bits on [lenbytes P] bytes, to a whole number of
    blocks. *)
Definition pad_zeros (l : nat) : nat :=
  Z.to_nat ((Z.of_nat block_bytes - Z.of_nat (lenbytes P) - 1 - Z.of_nat l) mod Z.of_nat block_bytes).

Definition pad (m : list Z) : list Z :=
  m ++ [0x80] ++ replicate (pad_zeros (length m)) 0 ++ be_bytes (lenbytes P) (8 * Z.of_nat (length m)).

(** ** The message schedule (section 6.2.2 / 6.4.2, step 1)

    [win] holds the last sixteen words [W(t-16) .. W(t-1)]; each step
    emits [W(t-16)] and appends [W(t)]. *)
Fixpoint schedule (n : nat) (win : list Z) : list Z :=
  match n, win with
  | S n', w0 :: (w1 :: _) as rest =>
      let wt := addw (addw (sigma (rs1 P) (nth 14 win 0)) (nth 9 win 0)) (addw (sigma (rs0 P) w1) w0) in
      w0 :: schedule n' (rest ++ [wt])
  | _, _ => win
  end.

(** ** The compression function (steps 2 to 4) *)
Record hstate := mk_hstate { ha : Z; hb : Z; hc : Z; hd : Z; he : Z; hf : Z; hg : Z; hh : Z }.

Definition round (s : hstate) (kw : Z * Z) : hstate :=
  let '(k, w) := kw in
  let T1 := addw (addw (addw (hh s) (Sigma (rS1 P) (he s))) (addw (Ch (he s) (hf s) (hg s)) k)) w in
  let T2 := addw (Sigma (rS0 P) (ha s)) (Maj (ha s) (hb s) (hc s)) in
  mk_hstate (addw T1 T2) (ha s) (hb s) (hc s) (addw (hd s) T1) (he s) (hf s) (hg s).

Definition of_list (H : list Z) : hstate :=
  match H with
  | [a; b; c; d; e; f; g; h] => mk_hstate a b c d e f g h
  | _ => mk_hstate 0 0 0 0 0 0 0 0
  end.

Definition to_list (s : hstate) : list Z := [ha s; hb s; hc s; hd s; he s; hf s; hg s; hh s].

Definition compress (H : list Z) (block : list Z) : list Z :=
  let s := fold_left round (combine (kconst P) (schedule (nrounds P - 16) (to_words block))) (of_list H) in
  zip_with addw H (to_list s).

(** The digest: the final hash value, big-endian, cut to [outlen P]
    bytes (SHA-384 keeps six of SHA-512's eight words). *)
Definition hash (m : list Z) : list Z :=
  let p := pad m in
  take (outlen P) (flat_map (be_bytes wbytes) (fold_left compress (chunks (length p) block_bytes p) (iv P))).

End Sha2.

(** ** The members of the family (sections 5.3 and 4.2) *)
Definition K256 : list Z := Eval vm_compute in hex_words
  ("428a2f98 71374491 b5c0fbcf e9b5dba5 3956c25b 59f111f1 923f82a4 ab1c5ed5 " +:+
   "d807aa98 12835b01 243185be 550c7dc3 72be5d74 80deb1fe 9bdc06a7 c19bf174 " +:+
   "e49b69c1 efbe4786 0fc19dc6 240ca1cc 2de92c6f 4a7484aa 5cb0a9dc 76f988da " +:+
   "983e5152 a831c66d b00327c8 bf597fc7 c6e00bf3 d5a79147 06ca6351 14292967 " +:+
   "27b70a85 2e1b2138 4d2c6dfc 53380d13 650a7354 766a0abb 81c2c92e 92722c85 " +:+
   "a2bfe8a1 a81a664b c24b8b70 c76c51a3 d192e819 d6990624 f40e3585 106aa070 " +:+
   "19a4c116 1e376c08 2748774c 34b0bcb5 391c0cb3 4ed8aa4a 5b9cca4f 682e6ff3 " +:+
   "748f82ee 78a5636f 84c87814 8cc70208 90befffa a4506ceb bef9a3f7 c67178f2") 0 false.

Definition IV256 : list Z := Eval vm_compute in hex_words
  "6a09e667 bb67ae85 3c6ef372 a54ff53a 510e527f 9b05688c 1f83d9ab 5be0cd19" 0 false.

Definition K512 : list Z := Eval vm_compute in hex_words
  (
   "428a2f98d728ae22 7137449123ef65cd b5c0fbcfec4d3b2f e9b5dba58189dbbc " +:+
   "3956c25bf348b538 59f111f1b605d019 923f82a4af194f9b ab1c5ed5da6d8118 " +:+
   "d807aa98a3030242 12835b0145706fbe 243185be4ee4b28c 550c7dc3d5ffb4e2 " +:+
   "72be5d74f27b896f 80deb1fe3b1696b1 9bdc06a725c71235 c19bf174cf692694 " +:+
   "e49b69c19ef14ad2 efbe4786384f25e3 0fc19dc68b8cd5b5 240ca1cc77ac9c65 " +:+
   "2de92c6f592b0275 4a7484aa6ea6e483 5cb0a9dcbd41fbd4 76f988da831153b5 " +:+
   "983e5152ee66dfab a831c66d2db43210 b00327c898fb213f bf597fc7beef0ee4 " +:+
   "c6e00bf33da88fc2 d5a79147930aa725 06ca6351e003826f 142929670a0e6e70 " +:+
   "27b70a8546d22ffc 2e1b21385c26c926 4d2c6dfc5ac42aed 53380d139d95b3df " +:+
   "650a73548baf63de 766a0abb3c77b2a8 81c2c92e47edaee6 92722c851482353b " +:+
   "a2bfe8a14cf10364 a81a664bbc423001 c24b8b70d0f89791 c76c51a30654be30 " +:+
   "d192e819d6ef5218 d69906245565a910 f40e35855771202a 106aa07032bbd1b8 " +:+
   "19a4c116b8d2d0c8 1e376c085141ab53 2748774cdf8eeb99 34b0bcb5e19b48a8 " +:+
   "391c0cb3c5c95a63 4ed8aa4ae3418acb 5b9cca4f7763e373 682e6ff3d6b2b8a3 " +:+
   "748f82ee5defb2fc 78a5636f43172f60 84c87814a1f0ab72 8cc702081a6439ec " +:+
   "90befffa23631e28 a4506cebde82bde9 bef9a3f7b2c67915 c67178f2e372532b " +:+
   "ca273eceea26619c d186b8c721c0c207 eada7dd6cde0eb1e f57d4f7fee6ed178 " +:+
   "06f067aa72176fba 0a637dc5a2c898a6 113f9804bef90dae 1b710b35131c471b " +:+
   "28db77f523047d84 32caab7b40c72493 3c9ebe0a15c9bebc 431d67c49c100d4c " +:+
   "4cc5d4becb3e42b6 597f299cfc657e2a 5fcb6fab3ad6faec 6c44198c4a475817") 0 false.

Definition IV512 : list Z := Eval vm_compute in hex_words
  ("6a09e667f3bcc908 bb67ae8584caa73b 3c6ef372fe94f82b a54ff53a5f1d36f1 " +:+
   "510e527fade682d1 9b05688c2b3e6c1f 1f83d9abfb41bd6b 5be0cd19137e2179") 0 false.

Definition IV384 : list Z := Eval vm_compute in hex_words
  ("cbbb9d5dc1059ed8 629a292a367cd507 9159015a3070dd17 152fecd8f70e5939 " +:+
   "67332667ffc00b31 8eb44a8768581511 db0c2e0d64f98fa7 47b5481dbefa4fa4") 0 false.

Definition SHA256 : sha2_params :=
  mk_sha2_params 32 K256 IV256 64 (2, 13, 22) (6, 11, 25) (7, 18, 3) (17, 19, 10) 8 32.
Definition SHA512 : sha2_params :=
  mk_sha2_params 64 K512 IV512 80 (28, 34, 39) (14, 18, 41) (1, 8, 7) (19, 61, 6) 16 64.
Definition SHA384 : sha2_params :=
  mk_sha2_params 64 K512 IV384 80 (28, 34, 39) (14, 18, 41) (1, 8, 7) (19, 61, 6) 16 48.

Definition sha256 : list Z -> list Z := hash SHA256.
Definition sha384 : list Z -> list Z := hash SHA384.
Definition sha512 : list Z -> list Z := hash SHA512.

(** ** Lemmas *)

Lemma land_255_byte x : is_byte (Z.land x 255).
Proof.
  change 255 with (Z.ones 8). rewrite Z.land_ones by lia.
  unfold is_byte. pose proof (Z.mod_pos_bound x (2 ^ 8)). lia.
Qed.

Local Open Scope nat_scope.

Lemma length_be_bytes n x : length (be_bytes n x) = n.
Proof.
  revert x; induction n as [|n IH]; intros x; [done|].
  simpl. rewrite length_app, IH. simpl. lia.
Qed.

Lemma be_bytes_bytes n x : Forall is_byte (be_bytes n x).
Proof.
  revert x; induction n as [|n IH]; intros x; simpl; [done|].
  apply Forall_app. split; [apply IH|]. constructor; [apply land_255_byte|done].
Qed.

Lemma length_flat_map_be_bytes n ws : length (flat_map (be_bytes n) ws) = n * length ws.
Proof.
  induction ws as [|w ws IH]; simpl; [lia|].
  rewrite length_app, length_be_bytes, IH. lia.
Qed.

Section Lemmas.
Variable P : sha2_params.

Lemma compress_length H b : length H = 8 -> length (compress P H b) = 8.
Proof. intros HL. unfold compress. rewrite length_zip_with, HL. done. Qed.

Lemma fold_compress_length bs H : length H = 8 -> length (fold_left (compress P) bs H) = 8.
Proof.
  revert H; induction bs as [|b bs IH]; intros H HL; simpl; [done|].
  by apply IH, compress_length.
Qed.

(** A digest is [outlen P] bytes when the eight words hold that many. *)
Lemma hash_length m :
  length (iv P) = 8 -> outlen P <= 8 * wbytes P -> length (hash P m) = outlen P.
Proof.
  intros Hiv Hout. unfold hash. rewrite length_take, length_flat_map_be_bytes, fold_compress_length by done.
  lia.
Qed.

Lemma hash_bytes m : Forall is_byte (hash P m).
Proof.
  unfold hash. apply Forall_take, Forall_flat_map. intros w. apply be_bytes_bytes.
Qed.

(** The padded message is a whole number of blocks, longer than the
    message by the length field and at least one byte. *)
Lemma pad_length m :
  0 < block_bytes P -> lenbytes P < block_bytes P ->
  length (pad P m) mod block_bytes P = 0 /\
  length m + lenbytes P + 1 <= length (pad P m) <= length m + lenbytes P + block_bytes P.
Proof.
  intros HB HL. unfold pad, pad_zeros. rewrite !length_app, length_replicate, length_be_bytes. cbn [length].
  set (B := block_bytes P) in *. set (L := lenbytes P) in *. set (l := length m).
  set (X := (Z.of_nat B - Z.of_nat L - 1 - Z.of_nat l)%Z).
  assert (EX : X = (Z.of_nat B - Z.of_nat L - 1 - Z.of_nat l)%Z) by reflexivity. clearbody X.
  pose proof (Z.mod_pos_bound X (Z.of_nat B) ltac:(lia)).
  pose proof (Z.div_mod X (Z.of_nat B) ltac:(lia)).
  assert (Hq : (X / Z.of_nat B < 1)%Z) by (apply Z.div_lt_upper_bound; lia).
  split; [|lia]. apply Nat.Lcm0.mod_divide.
  exists (Z.to_nat (1 - X / Z.of_nat B)).
  apply Nat2Z.inj. rewrite Nat2Z.inj_mul, !Nat2Z.inj_add, !Z2Nat.id by lia.
  generalize dependent (X mod Z.of_nat B)%Z. generalize dependent (X / Z.of_nat B)%Z. intros. nia.
Qed.

End Lemmas.

Lemma sha256_length m : length (sha256 m) = 32.
Proof. apply hash_length; [reflexivity|apply Nat.leb_le; reflexivity]. Qed.

Lemma sha384_length m : length (sha384 m) = 48.
Proof. apply hash_length; [reflexivity|apply Nat.leb_le; reflexivity]. Qed.

Lemma sha512_length m : length (sha512 m) = 64.
Proof. apply hash_length; [reflexivity|apply Nat.leb_le; reflexivity]. Qed.

Lemma sha256_bytes m : Forall is_byte (sha256 m).
Proof. apply hash_bytes. Qed.

End Sha2.

(** * HMAC (RFC 2104, CPython's [hmac] module) *)
Module HmacSha2.
Import Sha2.

(** The key block of [B] bytes: a key longer than a block is replaced
    by its digest, and the result is padded with zero bytes
    ([key.ljust(blocksize, b"\0")]). *)
Definition hmac_key (H : list Z -> list Z) (B : nat) (key : list Z) : list Z :=
  let k := if Nat.ltb B (length key) then H key else key in
  k ++ replicate (B - length k) 0%Z.

(** [hmac.new(key, msg, digestmod).digest()]: the inner hash of [key XOR
    0x36...] and the message, then the outer hash of [key XOR 0x5c...]
    and the inner digest. *)
Definition hmac (H : list Z -> list Z) (B : nat) (key msg : list Z) : list Z :=
  let kb := hmac_key H B key in
  H (map (Z.lxor 0x5c) kb ++ H (map (Z.lxor 0x36) kb ++ msg)).

(** SHA-256 has 64-byte blocks, SHA-384 and SHA-512 128-byte blocks. *)
Definition hmac_digest : list Z -> list Z -> list Z := hmac sha256 64.
Definition hmac_sha384_digest : list Z -> list Z -> list Z := hmac sha384 128.
Definition hmac_sha512_digest : list Z -> list Z -> list Z := hmac sha512 128.

(** ** Lemmas *)

Lemma hmac_key_length H B key :
  (forall m, length (H m) <= B)%nat -> length (hmac_key H B key) = B.
Proof.
  intros HL. unfold hmac_key. destruct (Nat.ltb_spec B (length key)).
  - rewrite length_app, length_replicate. specialize (HL key). lia.
  - rewrite length_app, length_replicate. lia.
Qed.

(** A key of at most [B] bytes is used as it is, padded with zeros;
    a longer key is replaced by its digest. *)
Lemma hmac_key_short H B key :
  (length key <= B)%nat -> hmac_key H B key = key ++ replicate (B - length key) 0%Z.
Proof. intros Hle. unfold hmac_key. destruct (Nat.ltb_spec B (length key)); [lia|done]. Qed.

Lemma hmac_key_long H B key :
  (B < length key)%nat -> hmac_key H B key = H key ++ replicate (B - length (H key)) 0%Z.
Proof. intros Hlt. unfold hmac_key. destruct (Nat.ltb_spec B (length key)); [|lia]. done. Qed.

Lemma hmac_digest_length key msg : length (hmac_digest key msg) = 32%nat.
Proof. apply sha256_length. Qed.

#[export] Instance hmac_sha2_impl : Hmac := {|
  hmac_sha256 := hmac_digest;
  hmac_sha384 := hmac_sha384_digest;
  hmac_sha512 := hmac_sha512_digest
|}.

#[export] Instance hmac_sha2_laws : HmacLaws.
Proof. split. intros k m. apply sha256_bytes. Qed.

End HmacSha2.

(** ** Known-answer tests *)
Module Sha2Examples.
Import Sha2 HmacSha2.

(** FIPS 180-2, appendices B and C: one block, the empty message, two
    blocks. *)
Example sha256_abc :
  bytes_hex (sha256 (bytes_of_string "abc")) =
  "ba7816bf8f01cfea414140de5dae2223b00361a396177a9cb410ff61f20015ad".
Proof. vm_compute. reflexivity. Qed.

Example sha256_empty :
  bytes_hex (sha256 []) = "e3b0c44298fc1c149afbf4c8996fb92427ae41e4649b934ca495991b7852b855".
Proof. vm_compute. reflexivity. Qed.

Example sha256_two_blocks :
  bytes_hex (sha256 (bytes_of_string "abcdbcdecdefdefgefghfghighijhijkijkljklmklmnlmnomnopnopq")) =
  "248d6a61d20638b8e5c026930c3e6039a33ce45964ff2167f6ecedd419db06c1".
Proof. vm_compute. reflexivity. Qed.

Example sha512_abc :
  bytes_hex (sha512 (bytes_of_string "abc")) =
  "ddaf35a193617abacc417349ae20413112e6fa4e89a97ea20a9eeee64b55d39a2192992a274fc1a836ba3c23a3feebbd454d4423643ce80e2a9ac94fa54ca49f".
Proof. vm_compute. reflexivity. Qed.

Example sha512_two_blocks :
  bytes_hex (sha512 (bytes_of_string "abcdefghbcdefghicdefghijdefghijkefghijklfghijklmghijklmnhijklmnoijklmnopjklmnopqklmnopqrlmnopqrsmnopqrstnopqrstu")) =
  "8e959b75dae313da8cf4f72814fc143f8f7779c6eb9f7fa17299aeadb6889018501d289e4900f7e4331b99dec4b5433ac7d329eeb6dd26545e96e55b874be909".
Proof. vm_compute. reflexivity. Qed.

Example sha384_abc :
  bytes_hex (sha384 (bytes_of_string "abc")) =
  "cb00753f45a35e8bb5a03d699ac65007272c32ab0eded1631a8b605a43ff5bed8086072ba1e7cc2358baeca134c825a7".
Proof. vm_compute. reflexivity. Qed.

(** RFC 4231, test cases 2 (a short key) and 6 (a 131-byte key, hashed
    first), for the three hashes. *)
Example hmac_rfc4231_2 :
  bytes_hex (hmac_digest (bytes_of_string "Jefe") (bytes_of_string "what do ya want for nothing?")) =
  "5bdcc146bf60754e6a042426089575c75a003f089d2739839dec58b964ec3843" /\
  bytes_hex (hmac_sha384_digest (bytes_of_string "Jefe") (bytes_of_string "what do ya want for nothing?")) =
  "af45d2e376484031617f78d2b58a6b1b9c7ef464f5a01b47e42ec3736322445e8e2240ca5e69e2c78b3239ecfab21649" /\
  bytes_hex (hmac_sha512_digest (bytes_of_string "Jefe") (bytes_of_string "what do ya want for nothing?")) =
  "164b7a7bfcf819e2e395fbe73b56e0a387bd64222e831fd610270cd7ea2505549758bf75c05a994a6d034f65f8f0e6fdcaeab1a34d4a6b4b636e070a38bce737".
Proof. vm_compute. repeat split. Qed.

Example hmac_rfc4231_6 :
  bytes_hex (hmac_digest (replicate 131 0xaa%Z)
               (bytes_of_string "Test Using Larger Than Block-Size Key - Hash Key First")) =
  "60e431591ee0b67f0d8a26aacbf5b77f8e0bc6213728c5140546040f0ee37f54" /\
  bytes_hex (hmac_sha512_digest (replicate 131 0xaa%Z)
               (bytes_of_string "Test Using Larger Than Block-Size Key - Hash Key First")) =
  "80b24263c7c1a3ebb71493c1dd7be8b49b46d1f41b4aeec1121b013783f8f3526b56d037e05f2598bd0fd2215d6a1e5295e64f73f63f0aec8b915a985d786598".
Proof. vm_compute. repeat split. Qed.

End Sha2Examples.
