(* ===== verification/Scrypt.v ===== *)
(** * werkzeug's key derivation: PBKDF2, scrypt and [_hash_internal]

    [generate_password_hash] and [check_password_hash] (Hasher.v) call
    werkzeug's [_hash_internal(method, salt, password)], which parses the
    method string and calls [hashlib.scrypt] (the default,
    ["scrypt:32768:8:1"]) or [hashlib.pbkdf2_hmac].  Both are OpenSSL's,
    reached through CPython's [_hashopenssl.c]; they are modelled here
    from RFC 8018 (PBKDF2) and RFC 7914 (Salsa20/8, BlockMix, ROMix,
    scrypt) over the HMAC-SHA256 of Sha2.v, together with the argument
    checks CPython and OpenSSL 3 make before deriving a key, where
    werkzeug's [maxmem = 132 * n * r * p] matters.

    [werkzeug_kdf] is the instance of the class [Kdf] of Hasher.v and
    [werkzeug_kdf_laws] proves its laws, so that every theorem of the
    development stated over [KdfLaws] holds of werkzeug's hasher.  The
    tests at the end are RFC 7914's vectors and digests computed by
    CPython 3.11 with OpenSSL 3.0. *)

From S2P Require Import Prelude Digest Jwt Hasher Sha2.

Module Pbkdf2.
Import Sha2 HmacSha2.
Local Open Scope Z_scope.

(** ** PBKDF2-HMAC-SHA256 (RFC 8018, section 5.2) *)

(** [U_2 .. U_c] folded into [T] by exclusive or. *)
Fixpoint pbkdf2_iter (c : nat) (P U T : list Z) {struct c} : list Z :=
  match c with
  | O => T
  | S c' => let U' := hmac_digest P U in pbkdf2_iter c' P U' (zip_with Z.lxor T U')
  end.

(** [T_i = U_1 xor .. xor U_c] with [U_1 = PRF(P, S || INT(i))]. *)
Definition pbkdf2_block (P S : list Z) (c : nat) (i : Z) : list Z :=
  let U1 := hmac_digest P (S ++ be_bytes 4 i) in
  pbkdf2_iter (c - 1) P U1 U1.

Definition pbkdf2_hmac_sha256 (P S : list Z) (c dklen : Z) : list Z :=
  let l := Z.to_nat ((dklen + 31) / 32) in
  take (Z.to_nat dklen)
    (flat_map (fun i => pbkdf2_block P S (Z.to_nat c) (Z.of_nat i)) (List.seq 1 l)).

(** [INT_MAX] of the C compilers CPython is built with. *)
Definition INT_MAX : Z := 2 ^ 31 - 1.

(** [hashlib.pbkdf2_hmac(hash_name, password, salt, iterations)]:
    [None] where it raises, i.e. an iteration count below 1 ([ValueError])
    or above [INT_MAX] ([OverflowError]).  The key is as long as the
    digest.  Of the digests OpenSSL offers, SHA-256 is modelled; the
    model answers [None] for every other name. *)
Definition hashlib_pbkdf2_hmac (hash_name : string) (password salt : list Z) (iterations : Z)
    : option (list Z) :=
  if String.eqb hash_name "sha256" && (1 <=? iterations) && (iterations <=? INT_MAX)
  then Some (pbkdf2_hmac_sha256 password salt iterations 32) else None.

(** ** Lemmas *)

Lemma lxor_byte a b : is_byte a -> is_byte b -> is_byte (Z.lxor a b).
Proof.
  unfold is_byte. intros Ha Hb.
  assert (E : Z.shiftr (Z.lxor a b) 8 = 0).
  { rewrite Z.shiftr_lxor, !Z.shiftr_div_pow2, !Z.div_small by lia. done. }
  rewrite Z.shiftr_div_pow2 in E by lia. apply Z.div_small_iff in E; [|lia].
  pose proof (Z.lxor_nonneg a b). lia.
Qed.

Lemma Forall_zip_with_lxor T U :
  Forall is_byte T -> Forall is_byte U -> Forall is_byte (zip_with Z.lxor T U).
Proof.
  intros HT. revert U. induction HT as [|t T Ht HT IH]; intros [|u U] HU; cbn; [done..|].
  inversion HU; subst. constructor; [by apply lxor_byte|by apply IH].
Qed.

Lemma pbkdf2_iter_bytes c P U T :
  Forall is_byte T -> Forall is_byte (pbkdf2_iter c P U T).
Proof.
  revert U T; induction c as [|c IH]; intros U T HT; cbn; [done|].
  apply IH, Forall_zip_with_lxor; [done|apply sha256_bytes].
Qed.

Lemma pbkdf2_bytes P S c dklen : Forall is_byte (pbkdf2_hmac_sha256 P S c dklen).
Proof.
  apply Forall_take, Forall_flat_map. intros i. apply pbkdf2_iter_bytes, sha256_bytes.
Qed.

Lemma pbkdf2_iter_length c P U T :
  length T = 32%nat -> length U = 32%nat -> length (pbkdf2_iter c P U T) = 32%nat.
Proof.
  revert U T; induction c as [|c IH]; intros U T HT HU; cbn [pbkdf2_iter]; [done|].
  apply IH; [|apply hmac_digest_length]. rewrite length_zip_with, HT, hmac_digest_length. done.
Qed.

(** The derived key is [dklen] bytes. *)
Lemma pbkdf2_length P S c dklen :
  0 <= dklen -> length (pbkdf2_hmac_sha256 P S c dklen) = Z.to_nat dklen.
Proof.
  intros Hd. unfold pbkdf2_hmac_sha256. rewrite length_take.
  assert (E : forall l, length (flat_map (fun i => pbkdf2_block P S (Z.to_nat c) (Z.of_nat i)) l)
                        = (32 * length l)%nat).
  { induction l as [|i l IH]; cbn [flat_map]; [done|].
    rewrite length_app, IH. unfold pbkdf2_block.
    rewrite pbkdf2_iter_length by apply hmac_digest_length. cbn [length]. lia. }
  rewrite E, length_seq. apply Nat.min_l.
  pose proof (Z.div_mod (dklen + 31) 32 ltac:(lia)). pose proof (Z.mod_pos_bound (dklen + 31) 32 ltac:(lia)).
  lia.
Qed.

Lemma hashlib_pbkdf2_hmac_Some h pw s it d :
  hashlib_pbkdf2_hmac h pw s it = Some d ->
  h = "sha256" /\ (1 <= it <= INT_MAX) /\ d = pbkdf2_hmac_sha256 pw s it 32.
Proof.
  unfold hashlib_pbkdf2_hmac. destruct (String.eqb_spec h "sha256"); [|done].
  destruct (Z.leb_spec 1 it), (Z.leb_spec it INT_MAX); cbn; intros; simplify_eq; auto.
Qed.

End Pbkdf2.

Module Scrypt.
Import Sha2 Pbkdf2.
Local Open Scope Z_scope.

(** ** Little-endian words (RFC 7914 works on them) *)

Definition le_word (bs : list Z) : Z := fold_right (fun b acc => b + 256 * acc) 0 bs.

Definition le_bytes (w : Z) : list Z :=
  [Z.land w 255; Z.land (Z.shiftr w 8) 255; Z.land (Z.shiftr w 16) 255; Z.land (Z.shiftr w 24) 255].

Definition words_of_bytes (bs : list Z) : list Z := map le_word (chunks (length bs) 4 bs).
Definition bytes_of_words (ws : list Z) : list Z := flat_map le_bytes ws.

(** Salsa20 works on 32-bit words: sums wrap modulo [2^32]. *)
Definition w32 (x : Z) : Z := Z.land x (Z.ones 32).
Definition add32 (a b : Z) : Z := w32 (a + b).

Definition rotl (x n : Z) : Z := w32 (Z.lor (Z.shiftl x n) (Z.shiftr x (32 - n))).

(** ** Salsa20/8 core (RFC 7914, section 3) *)

(** [x[b] ^= R(x[a] + x[d], 7); x[c] ^= R(x[b] + x[a], 9);
     x[d] ^= R(x[c] + x[b], 13); x[a] ^= R(x[d] + x[c], 18)],
    each update seeing the previous ones. *)
Definition quarter (x : list Z) (a b c d : nat) : list Z :=
  let xa := nth a x 0 in let xd := nth d x 0 in
  let xb := Z.lxor (nth b x 0) (rotl (add32 xa xd) 7) in
  let xc := Z.lxor (nth c x 0) (rotl (add32 xb xa) 9) in
  let xd' := Z.lxor xd (rotl (add32 xc xb) 13) in
  let xa' := Z.lxor xa (rotl (add32 xd' xc) 18) in
  <[a := xa']> (<[d := xd']> (<[c := xc]> (<[b := xb]> x))).

(** A column round then a row round. *)
Definition double_round (x : list Z) : list Z :=
  let x := quarter x 0 4 8 12 in
  let x := quarter x 5 9 13 1 in
  let x := quarter x 10 14 2 6 in
  let x := quarter x 15 3 7 11 in
  let x := quarter x 0 1 2 3 in
  let x := quarter x 5 6 7 4 in
  let x := quarter x 10 11 8 9 in
  quarter x 15 12 13 14.

Definition salsa20_8 (B : list Z) : list Z :=
  zip_with add32 (Nat.iter 4 double_round B) B.

(** ** scryptBlockMix (section 4), on [2 r] blocks of 16 words *)

Fixpoint blockmix_go (X : list Z) (Bs : list (list Z)) {struct Bs} : list (list Z) :=
  match Bs with
  | [] => []
  | B :: Bs' => let X' := salsa20_8 (zip_with Z.lxor X B) in X' :: blockmix_go X' Bs'
  end.

Fixpoint evens {A} (l : list A) : list A :=
  match l with
  | a :: _ :: l' => a :: evens l'
  | l' => l'
  end.

Definition odds {A} (l : list A) : list A := evens (List.tl l).

(** [Y_0, Y_2, .., Y_{2r-2}, Y_1, Y_3, .., Y_{2r-1}]. *)
Definition blockmix (B : list Z) : list Z :=
  let Bs := chunks (length B) 16 B in
  let Y := blockmix_go (List.last Bs []) Bs in
  List.concat (evens Y) ++ List.concat (odds Y).

(** ** scryptROMix (section 5) *)

(** The last block read as a little-endian integer. *)
Definition integerify (X : list Z) : Z :=
  fold_right (fun w acc => w + 2 ^ 32 * acc) 0 (drop (length X - 16) X).

(** Step 2: [V_i = X; X = BlockMix(X)], [n] times; [V] in reverse. *)
Fixpoint romix_fill (n : nat) (X : list Z) (V : list (list Z)) {struct n} : list Z * list (list Z) :=
  match n with
  | O => (X, V)
  | S n' => romix_fill n' (blockmix X) (X :: V)
  end.

(** Step 3: [j = Integerify(X) mod N; X = BlockMix(X xor V_j)], [n]
    times. *)
Fixpoint romix_mix (n : nat) (N : Z) (V : list (list Z)) (X : list Z) {struct n} : list Z :=
  match n with
  | O => X
  | S n' =>
      let j := Z.to_nat (integerify X mod N) in
      romix_mix n' N V (blockmix (zip_with Z.lxor X (nth j V [])))
  end.

Definition romix (N : Z) (B : list Z) : list Z :=
  let '(X, V) := romix_fill (Z.to_nat N) B [] in
  romix_mix (Z.to_nat N) N (rev V) X.

(** ** scrypt (section 6) *)
Definition scrypt (P S : list Z) (N r p dklen : Z) : list Z :=
  let B := pbkdf2_hmac_sha256 P S 1 (p * 128 * r) in
  let Bs := chunks (Z.to_nat p) (Z.to_nat (128 * r)) B in
  let B' := flat_map (fun b => bytes_of_words (romix N (words_of_bytes b))) Bs in
  pbkdf2_hmac_sha256 P B' 1 dklen.

(** ** The checks before a derivation

    CPython's [_hashlib.scrypt] ([_hashopenssl.c]): [n] a power of two
    at least 2, [r] and [p] unsigned longs, [maxmem] and [dklen] in
    [[0, INT_MAX]] and [[1, INT_MAX]]; then OpenSSL 3's
    [EVP_PBE_scrypt_ex] and [scrypt_alg]: [r, p <= UINT32_MAX], both
    positive, [p * r < 2^30], [N < 2^(16 r)], and the memory the
    derivation allocates, [128 r p + 128 r (N + 2)] bytes, within
    [maxmem] (32 MiB when [maxmem] is 0). *)
Definition UINT32_MAX : Z := 2 ^ 32 - 1.
Definition UINT64_MAX : Z := 2 ^ 64 - 1.
Definition SCRYPT_PR_MAX : Z := 2 ^ 30 - 1.
Definition SCRYPT_MAX_MEM : Z := 1024 * 1024 * 32.

Definition is_pow2 (n : Z) : bool := (2 <=? n) && (Z.land n (n - 1) =? 0).

Definition hashlib_scrypt_args_ok (n r p maxmem dklen : Z) : bool :=
  (n <=? UINT64_MAX) && is_pow2 n &&
  (0 <=? r) && (r <=? UINT64_MAX) && (0 <=? p) && (p <=? UINT64_MAX) &&
  (0 <=? maxmem) && (maxmem <=? INT_MAX) && (1 <=? dklen) && (dklen <=? INT_MAX).

Definition openssl_scrypt_ok (N r p maxmem : Z) : bool :=
  let maxmem := if maxmem =? 0 then SCRYPT_MAX_MEM else maxmem in
  let Blen := p * 128 * r in
  let Vlen := 32 * r * (N + 2) * 4 in
  (r <=? UINT32_MAX) && (p <=? UINT32_MAX) && (1 <=? r) && (1 <=? p) &&
  (p <=? SCRYPT_PR_MAX / r) &&
  (if 16 * r <=? 63 then N <? 2 ^ (16 * r) else true) &&
  (Blen <=? INT_MAX) && (N + 2 <=? UINT64_MAX / 128 / r) &&
  (Blen <=? UINT64_MAX - Vlen) && (Blen + Vlen <=? maxmem).

(** [hashlib.scrypt(password, salt=salt, n=n, r=r, p=p, maxmem=maxmem,
    dklen=dklen)]: [None] where it raises [ValueError]. *)
Definition hashlib_scrypt (password salt : list Z) (n r p maxmem dklen : Z) : option (list Z) :=
  if hashlib_scrypt_args_ok n r p maxmem dklen && openssl_scrypt_ok n r p maxmem
  then Some (scrypt password salt n r p dklen) else None.

End Scrypt.

(** * werkzeug's [_hash_internal] *)
Module Werkzeug.
Import Sha2 Pbkdf2 Scrypt.
Local Open Scope Z_scope.

(** werkzeug 3.1's default PBKDF2 iteration count. *)
Definition DEFAULT_PBKDF2_ITERATIONS : Z := 1000000.

(** The key-derivation functions a method string can name, with their
    parameters. *)
Inductive kdf_params : Type :=
  | KScrypt (n r p : Z)
  | KPbkdf2 (hash_name : string) (iterations : Z).

(** [method, *args = method.split(":")] and the branches on [method]
    and [len(args)]: [None] where werkzeug raises [ValueError] (an
    unknown method, a wrong number of arguments, an argument [int]
    rejects). *)
Definition parse_method (method : string) : option kdf_params :=
  match py_split ":" (String.length method) method with
  | m :: args =>
      if String.eqb m "scrypt" then
        match args with
        | [] => Some (KScrypt (2 ^ 15) 8 1)
        | [a; b; c] =>
            match py_int_of_str a, py_int_of_str b, py_int_of_str c with
            | Some n, Some r, Some p => Some (KScrypt n r p)
            | _, _, _ => None
            end
        | _ => None
        end
      else if String.eqb m "pbkdf2" then
        match args with
        | [] => Some (KPbkdf2 "sha256" DEFAULT_PBKDF2_ITERATIONS)
        | [h] => Some (KPbkdf2 h DEFAULT_PBKDF2_ITERATIONS)
        | [h; it] => option_map (KPbkdf2 h) (py_int_of_str it)
        | _ => None
        end
      else None
  | [] => None
  end.

(** The derivation: [hashlib.scrypt(password_bytes, salt=salt_bytes,
    n=n, r=r, p=p, maxmem=132 * n * r * p)] (64 bytes), or
    [hashlib.pbkdf2_hmac(hash_name, password_bytes, salt_bytes,
    iterations)]. *)
Definition derive (k : kdf_params) (salt password : list Z) : option (list Z) :=
  match k with
  | KScrypt n r p => hashlib_scrypt password salt n r p (132 * n * r * p) 64
  | KPbkdf2 h it => hashlib_pbkdf2_hmac h password salt it
  end.

(** The method string returned with the digest:
    [f"scrypt:{n}:{r}:{p}"] or [f"pbkdf2:{hash_name}:{iterations}"]. *)
Definition method_of (k : kdf_params) : string :=
  match k with
  | KScrypt n r p => "scrypt:" +:+ py_str_of_int n +:+ ":" +:+ py_str_of_int r +:+ ":" +:+ py_str_of_int p
  | KPbkdf2 h it => "pbkdf2:" +:+ h +:+ ":" +:+ py_str_of_int it
  end.

(** [_hash_internal(method, salt, password)]: the hex digest and the
    method, or [None] where it raises. *)
Definition werkzeug_hash_internal (method salt password : string) : option (string * string) :=
  match parse_method method with
  | Some k =>
      match derive k (bytes_of_string salt) (bytes_of_string password) with
      | Some h => Some (bytes_hex h, method_of k)
      | None => None
      end
  | None => None
  end.

#[export] Instance werkzeug_kdf : Kdf := {| hash_internal := werkzeug_hash_internal |}.

(** ** Lemmas *)

(** Whether a derivation succeeds depends on its parameters only. *)
Definition kdf_ok (k : kdf_params) : bool :=
  match k with
  | KScrypt n r p =>
      hashlib_scrypt_args_ok n r p (132 * n * r * p) 64 && openssl_scrypt_ok n r p (132 * n * r * p)
  | KPbkdf2 h it => String.eqb h "sha256" && (1 <=? it) && (it <=? INT_MAX)
  end.

Lemma derive_Some k s p d : derive k s p = Some d -> kdf_ok k = true /\ Forall is_byte d.
Proof.
  destruct k as [n r p'|h it]; cbn [derive kdf_ok].
  - unfold hashlib_scrypt. destruct (_ && _); intros; simplify_eq. split; [done|apply pbkdf2_bytes].
  - unfold hashlib_pbkdf2_hmac. destruct (_ && _ && _); intros; simplify_eq. split; [done|apply pbkdf2_bytes].
Qed.

Lemma derive_ok k s p : kdf_ok k = true -> is_Some (derive k s p).
Proof.
  destruct k; cbn [derive kdf_ok]; intros Hk;
    [unfold hashlib_scrypt|unfold hashlib_pbkdf2_hmac]; rewrite Hk; eauto.
Qed.

Lemma hex_digit_ascii n : 0 <= n < 16 -> (nat_of_ascii (hex_digit n) < 128)%nat.
Proof.
  intros Hn. unfold hex_digit. rewrite nat_ascii_embedding; destruct (Z.ltb_spec n 10); lia.
Qed.

Lemma bytes_hex_ascii bs : Forall is_byte bs -> CompareDigest.is_ascii_str (bytes_hex bs) = true.
Proof.
  unfold CompareDigest.is_ascii_str, bytes_hex. rewrite list_ascii_of_string_of_list_ascii.
  induction 1 as [|b bs Hb _ IH]; [done|]. unfold is_byte in Hb. cbn [flat_map forallb app].
  rewrite IH, !(proj2 (Nat.ltb_lt _ _)); [done| |];
    apply hex_digit_ascii; [apply Z.mod_pos_bound|split; [apply Z.div_pos|apply Z.div_lt_upper_bound]]; lia.
Qed.

(** [method.split(":")] of a method with three and four fields. *)
Lemma split_colon3 a b c k :
  char_in ":" a = false -> char_in ":" b = false -> char_in ":" c = false -> (2 <= k)%nat ->
  py_split ":" k (a +:+ String ":" (b +:+ String ":" c)) = [a; b; c].
Proof.
  intros Ha Hb Hc Hk. destruct k as [|[|k]]; [lia..|].
  rewrite !py_split_cons by done. by rewrite py_split_single.
Qed.

Lemma split_colon4 a b c d k :
  char_in ":" a = false -> char_in ":" b = false -> char_in ":" c = false ->
  char_in ":" d = false -> (3 <= k)%nat ->
  py_split ":" k (a +:+ String ":" (b +:+ String ":" (c +:+ String ":" d))) = [a; b; c; d].
Proof.
  intros Ha Hb Hc Hd Hk. destruct k as [|[|[|k]]]; [lia..|].
  rewrite !py_split_cons by done. by rewrite py_split_single.
Qed.

Lemma str_of_int_no_colon z : char_in ":" (py_str_of_int z) = false.
Proof. by apply char_in_str_of_int. Qed.

Lemma str_of_int_no_dollar z : char_in "$" (py_str_of_int z) = false.
Proof. by apply char_in_str_of_int. Qed.

(** The method string werkzeug returns parses back to the parameters it
    was derived with. *)
Lemma parse_method_of k : kdf_ok k = true -> parse_method (method_of k) = Some k.
Proof.
  destruct k as [n r p|h it]; cbn [kdf_ok method_of]; intros Hk; unfold parse_method.
  - change ("scrypt:" +:+ ?x) with ("scrypt" +:+ String ":" x).
    rewrite !str_app_single.
    rewrite (split_colon4 "scrypt") by (auto using str_of_int_no_colon; cbn; lia).
    cbn [String.eqb Ascii.eqb Bool.eqb]. by rewrite !py_int_of_str_of_int.
  - destruct (String.eqb_spec h "sha256") as [->|]; [|done].
    change ("pbkdf2:" +:+ ?x) with ("pbkdf2" +:+ String ":" x).
    rewrite !str_app_single.
    rewrite (split_colon3 "pbkdf2") by (auto using str_of_int_no_colon; cbn; lia).
    cbn. by rewrite py_int_of_str_of_int.
Qed.

Lemma scrypt_method_plain n r p : char_in "$" (method_of (KScrypt n r p)) = false.
Proof. cbn [method_of]. autorewrite with auth_rw. cbn. by rewrite !str_of_int_no_dollar. Qed.

Lemma method_of_plain k : kdf_ok k = true -> char_in "$" (method_of k) = false.
Proof.
  destruct k as [n r p|h it]; intros Hk; [apply scrypt_method_plain|].
  cbn [kdf_ok method_of] in *. autorewrite with auth_rw.
  destruct (String.eqb_spec h "sha256") as [->|]; [|done]. cbn. by rewrite str_of_int_no_dollar.
Qed.

Lemma werkzeug_hash_internal_Some m s p h m' :
  werkzeug_hash_internal m s p = Some (h, m') ->
  exists k d, parse_method m = Some k /\ derive k (bytes_of_string s) (bytes_of_string p) = Some d /\
              h = bytes_hex d /\ m' = method_of k.
Proof.
  unfold werkzeug_hash_internal.
  destruct (parse_method m) as [k|]; [|done].
  destruct (derive k _ _) as [d|] eqn:Hd; [|done]. intros [= <- <-]. eauto 10.
Qed.

Lemma derive_None k s p : kdf_ok k = false -> derive k s p = None.
Proof.
  destruct k; cbn [derive kdf_ok]; intros Hk;
    [unfold hashlib_scrypt|unfold hashlib_pbkdf2_hmac]; by rewrite Hk.
Qed.

Lemma parse_scrypt_method n r p : parse_method (method_of (KScrypt n r p)) = Some (KScrypt n r p).
Proof.
  unfold parse_method, method_of.
  change ("scrypt:" +:+ ?x) with ("scrypt" +:+ String ":" x). rewrite !str_app_single.
  rewrite (split_colon4 "scrypt") by (auto using str_of_int_no_colon; cbn; lia).
  cbn [String.eqb Ascii.eqb Bool.eqb]. by rewrite !py_int_of_str_of_int.
Qed.

(** No power of two lies in [[96, 128)]. *)
Lemma is_pow2_gap n : 96 <= n < 128 -> is_pow2 n = false.
Proof.
  intros Hn.
  assert (Hall : forallb (fun k => negb (is_pow2 (96 + Z.of_nat k))) (List.seq 0 32) = true)
    by (vm_compute; reflexivity).
  rewrite forallb_forall in Hall. specialize (Hall (Z.to_nat (n - 96))).
  rewrite Z2Nat.id in Hall by lia. replace (96 + (n - 96)) with n in Hall by lia.
  apply negb_true_iff, Hall, in_seq. lia.
Qed.

(** werkzeug's [maxmem = 132 n r p] against OpenSSL's bounds: with
    [r = p = 1] and [n] a power of two, scrypt accepts [n] exactly in
    [[128, 2^16)]: below, the [128 (n + 3)] bytes OpenSSL allocates
    exceed [132 n]; from [2^16 = 2^(16 r)] on, [n] is too large for
    [r = 1]. *)
Lemma kdf_ok_scrypt_r1p1 n :
  is_pow2 n = true -> kdf_ok (KScrypt n 1 1) = (128 <=? n) && (n <? 65536).
Proof.
  intros Hp. assert (H2 : 2 <= n) by (apply andb_prop in Hp as [H _]; by apply Z.leb_le).
  cbn [kdf_ok]. unfold hashlib_scrypt_args_ok, openssl_scrypt_ok. rewrite Hp, !Z.mul_1_r.
  rewrite (proj2 (Z.eqb_neq (132 * n) 0)) by lia.
  change (16 <=? 63) with true. change (2 ^ 16) with 65536. cbv iota beta.
  unfold UINT64_MAX, UINT32_MAX, INT_MAX, SCRYPT_PR_MAX.
  change (2 ^ 64 - 1) with 18446744073709551615. change (2 ^ 32 - 1) with 4294967295.
  change (2 ^ 31 - 1) with 2147483647. change (2 ^ 30 - 1) with 1073741823.
  change (18446744073709551615 / 128 / 1) with 144115188075855871.
  change (1073741823 / 1) with 1073741823.
  apply eq_true_iff_eq. rewrite !andb_true_iff, !Z.leb_le, !Z.ltb_lt. split.
  - intros Hc. split; [|lia].
    destruct (Z.lt_ge_cases n 128) as [Hlt|]; [|done].
    rewrite is_pow2_gap in Hp by lia. done.
  - intros [Hlo Hhi]. repeat split; lia.
Qed.

(** Lower-case hexadecimal text, as [bytes.hex()] writes it. *)
Definition is_lower_hex (s : string) : bool :=
  forallb (fun c => char_in c "0123456789abcdef") (list_ascii_of_string s).

Lemma length_string_of_list_ascii l : String.length (string_of_list_ascii l) = length l.
Proof. induction l as [|c l IH]; cbn; [done|]. by rewrite IH. Qed.

Lemma bytes_hex_length bs : String.length (bytes_hex bs) = (2 * length bs)%nat.
Proof.
  unfold bytes_hex. rewrite length_string_of_list_ascii.
  induction bs as [|b bs IH]; cbn [flat_map length app]; [done|]. rewrite IH. lia.
Qed.

Lemma hex_digit_lower n : 0 <= n < 16 -> char_in (hex_digit n) "0123456789abcdef" = true.
Proof.
  intros Hn.
  assert (Hall : forallb (fun k => char_in (hex_digit (Z.of_nat k)) "0123456789abcdef") (List.seq 0 16) = true)
    by (vm_compute; reflexivity).
  rewrite forallb_forall in Hall. specialize (Hall (Z.to_nat n)).
  rewrite Z2Nat.id in Hall by lia. apply Hall, in_seq. lia.
Qed.

Lemma bytes_hex_lower bs : Forall is_byte bs -> is_lower_hex (bytes_hex bs) = true.
Proof.
  unfold is_lower_hex, bytes_hex. rewrite list_ascii_of_string_of_list_ascii.
  induction 1 as [|b bs Hb _ IH]; [done|]. unfold is_byte in Hb. cbn [flat_map forallb app].
  rewrite IH, !hex_digit_lower; [done| |];
    [apply Z.mod_pos_bound|split; [apply Z.div_pos|apply Z.div_lt_upper_bound]]; lia.
Qed.

(** werkzeug's default method, ["scrypt"]: the parameters
    [n = 2^15, r = 8, p = 1] pass every check, and the digest is the
    128 hexadecimal digits of a 64-byte key, reported with the method
    ["scrypt:32768:8:1"]. *)
Lemma werkzeug_default_hash salt p :
  exists h, werkzeug_hash_internal "scrypt" salt p = Some (h, "scrypt:32768:8:1") /\
            String.length h = 128%nat /\ is_lower_hex h = true.
Proof.
  assert (Hk : kdf_ok (KScrypt (2 ^ 15) 8 1) = true) by (vm_compute; reflexivity).
  unfold werkzeug_hash_internal.
  change (parse_method "scrypt") with (Some (KScrypt (2 ^ 15) 8 1)).
  destruct (derive_ok _ (bytes_of_string salt) (bytes_of_string p) Hk) as [d Hd]. rewrite Hd.
  destruct (derive_Some _ _ _ _ Hd) as [_ Hb].
  assert (Hl : length d = 64%nat).
  { cbn [derive] in Hd. unfold hashlib_scrypt in Hd. cbn [kdf_ok] in Hk. rewrite Hk in Hd.
    injection Hd as <-. unfold scrypt. by rewrite pbkdf2_length. }
  exists (bytes_hex d). split_and!; [done|by rewrite bytes_hex_length, Hl|by apply bytes_hex_lower].
Qed.

(** ** werkzeug's hasher satisfies the laws of [Kdf] *)

#[export] Instance werkzeug_kdf_laws : KdfLaws.
Proof.
  split; cbn [hash_internal werkzeug_kdf].
  - intros m s p h m' (k&d&_&Hd&->&->)%werkzeug_hash_internal_Some.
    unfold werkzeug_hash_internal. rewrite parse_method_of by apply (derive_Some _ _ _ _ Hd).
    by rewrite Hd.
  - intros m s p h m' (k&d&_&Hd&->&->)%werkzeug_hash_internal_Some.
    apply method_of_plain, (derive_Some _ _ _ _ Hd).
  - intros m s p h m' p' (k&d&_&Hd&->&->)%werkzeug_hash_internal_Some.
    destruct (derive_Some _ _ _ _ Hd) as [Hk _]. unfold werkzeug_hash_internal.
    rewrite parse_method_of by done.
    destruct (derive_ok k (bytes_of_string s) (bytes_of_string p') Hk) as [d' ->]. eauto.
  - intros m s p h m' (k&d&_&Hd&->&->)%werkzeug_hash_internal_Some.
    apply bytes_hex_ascii, (derive_Some _ _ _ _ Hd).
  - intros s p. unfold werkzeug_hash_internal.
    assert (Hk : kdf_ok (KScrypt (2 ^ 15) 8 1) = true) by (vm_compute; reflexivity).
    change (parse_method "scrypt") with (Some (KScrypt (2 ^ 15) 8 1)).
    destruct (derive_ok _ (bytes_of_string s) (bytes_of_string p) Hk) as [d ->]. eauto.
Qed.

End Werkzeug.

(** ** Known-answer tests *)
Module ScryptExamples.
Import Pbkdf2 Scrypt Werkzeug.

(** RFC 7914, section 11 (PBKDF2-HMAC-SHA256) and section 12 (scrypt
    with [N = 16], [r = p = 1]). *)
Example pbkdf2_rfc7914 :
  bytes_hex (pbkdf2_hmac_sha256 (bytes_of_string "passwd") (bytes_of_string "salt") 1 64) =
  "55ac046e56e3089fec1691c22544b605f94185216dde0465e68b9d57c20dacbc49ca9cccf179b645991664b39d77ef317c71b845b1e30bd509112041d3a19783".
Proof. vm_compute. reflexivity. Qed.

Example scrypt_rfc7914 :
  bytes_hex (scrypt [] [] 16 1 1 64) =
  "77d6576238657b203b19ca42c18a0497f16b4844e3074ae8dfdffa3fede21442fcd0069ded0948f8326a753a0fc81f17e8d3e0fb2e0d3628cf35e20c38d18906".
Proof. vm_compute. reflexivity. Qed.

(** [_hash_internal("scrypt:128:1:1", salt, "pw123")] as CPython 3.11
    with OpenSSL 3.0 computes it, and two methods it refuses: [n = 64]
    needs more memory than [maxmem = 132 n r p] allows, and [n = 2^16]
    is not below [2^(16 r)]. *)
Example werkzeug_scrypt_128 :
  werkzeug_hash_internal "scrypt:128:1:1" "abcdefghij012345" "pw123" =
  Some ("61a59dd9ee2fc2eed39b27e9bb4bcc7fa343cc66d506e4e784da7292b2c3897a79ba78f47ce6d82322fa4b7a0ba96f2e06e2915b16e4dac2ea258e8988401c17",
        "scrypt:128:1:1").
Proof. vm_compute. reflexivity. Qed.

Example werkzeug_scrypt_refused :
  werkzeug_hash_internal "scrypt:64:1:1" "abcdefghij012345" "pw123" = None /\
  werkzeug_hash_internal "scrypt:65536:1:1" "abcdefghij012345" "pw123" = None /\
  werkzeug_hash_internal "scrypt:100:1:1" "abcdefghij012345" "pw123" = None /\
  werkzeug_hash_internal "argon2" "abcdefghij012345" "pw123" = None.
Proof. vm_compute. repeat split. Qed.

End ScryptExamples.
