(* ===== verification/App.v ===== *)
(** * The Flask application: app.py

    The three routes [register], [login] and [protected], translated
    line by line.  A handler is a function of the request, of the
    inputs the environment supplies (the salt [gen_salt] draws, the
    clock [utcnow] reads) and of the database file, returning the HTTP
    response and the new database file.  A Python exception that the
    handler does not catch becomes Flask's [500 Internal Server Error];
    [except:] clauses catch every exception. *)

From S2P Require Import Prelude Json Digest Hasher Store Jwt.

Module App.
Import Store Jwt Hasher.

(** [app.config["SECRET_KEY"]], hard-coded in app.py. *)
Definition SECRET_KEY : string :=
  "c91f8e3a4d7b1f2c9eb72a94f5bd13eaa6c4d2f8b73c91e4f0a6b1d29cf84e31".

(** [datetime.timedelta(hours=2)], in microseconds. *)
Definition TOKEN_LIFETIME_US : Z := 2 * 3600 * 1000000.

(** The messages of the JSON responses. *)
Definition MSG_USER_CREATED : string := "Usuário criado!".
Definition ERR_USER_EXISTS : string := "Usuário já existe".
Definition ERR_BAD_CREDENTIALS : string := "Credenciais inválidas".
Definition ERR_TOKEN_MISSING : string := "Token ausente".
Definition MSG_ACCESS_GRANTED : string := "Acesso permitido!".
Definition ERR_TOKEN_INVALID : string := "Token inválido".

(** The body of a request as [request.json] sees it. *)
Inductive body : Type :=
  | JsonBody (data : json)   (** a JSON document *)
  | NotJson                  (** not declared as JSON: 415 *)
  | BadJson.                 (** declared as JSON but malformed: 400 *)

(** A response: its status and its JSON body; [None] is the HTML page
    Flask sends for an error it raises itself. *)
Record response : Type := mk_response {
  status : Z;
  resp_body : option json
}.

(** [jsonify({key: text})] with an optional status. *)
Definition jsonify (code : Z) (key text : string) : response :=
  mk_response code (Some (JObj [(key, JStr text)])).

Definition internal_server_error : response := mk_response 500 None.

(** [request.json] *)
Definition request_json (b : body) : result response json :=
  match b with
  | JsonBody data => Ok data
  | NotJson => Err (mk_response 415 None)
  | BadJson => Err (mk_response 400 None)
  end.

(** [data.get(k)]: [None] (JSON null) when absent; an [AttributeError]
    (500) when the document is not a dict. *)
Definition data_get (data : json) (k : string) : result response json :=
  match data with
  | JObj fields => Ok (default JNull (dict_get k fields))
  | _ => Err internal_server_error
  end.

(** Go through the branches of a handler: unfold the steps of the
    handlers (hint database [handlers]) and split every [match]. *)
Create HintDb handlers.
Ltac handler_cases :=
  autounfold with handlers in *; unfold request_json, data_get, result_bind in *;
  repeat (case_match; simplify_eq/=).

Section Handlers.
Context `{Kdf} `{Base64Url} `{JsonCodec} `{Hmac}.

(** [register()], lines 15-17: the request's username, and the digest
    of its password, [salt] being what [gen_salt(16)] draws.  Hashing a
    value that is not a string raises (500). *)
Definition register_input (salt : string) (b : body) : result response (json * string) :=
  let* data := request_json b in
  let* username := data_get data "username" in
  let* password := data_get data "password" in
  match password with
  | JStr pw =>
      match generate_password_hash salt pw with
      | Some password_hash => Ok (username, password_hash)
      | None => Err internal_server_error
      end
  | _ => Err internal_server_error
  end.

(** [register()], lines 19-26: [get_db()] creates the table; any
    exception of the INSERT is reported as a duplicate username; the
    commit makes the row permanent. *)
Definition register_store (username : json) (password_hash : string) (d : db) : response * db :=
  let t := get_db d in
  match bind_text username with
  | Err _ => (jsonify 400 "error" ERR_USER_EXISTS, Some t)
  | Ok u =>
      match insert_user u (Some password_hash) t with
      | Ok t' => (jsonify 200 "message" MSG_USER_CREATED, Some t')
      | Err _ => (jsonify 400 "error" ERR_USER_EXISTS, Some t)
      end
  end.

Definition register (salt : string) (b : body) (d : db) : response * db :=
  match register_input salt b with
  | Err resp => (resp, d)
  | Ok (username, password_hash) => register_store username password_hash d
  end.

(** [login()], lines 34-36: the username and the password sent. *)
Definition login_input (b : body) : result response (json * json) :=
  let* data := request_json b in
  let* username := data_get data "username" in
  let* password := data_get data "password" in
  Ok (username, password).

(** [login()], line 39: the row [SELECT ... fetchone()] returns; a
    username sqlite3 cannot bind raises (500). *)
Definition login_lookup (username : json) (t : users_table) : result response (option row) :=
  match bind_text username with
  | Err _ => Err internal_server_error
  | Ok u => Ok (select_by_username u t)
  end.

(** [login()], line 41: [user and check_password_hash(user[2],
    password)]; [check_password_hash] on a stored NULL ([None.split])
    or on a password that is not a string raises (500). *)
Definition login_authenticated (user : option row) (password : json) : result response bool :=
  match user with
  | None => Ok false
  | Some r =>
      match row_password r with
      | None => Err internal_server_error
      | Some digest =>
          match check_password_hash_value digest password with
          | Some ok => Ok ok
          | None => Err internal_server_error
          end
      end
  end.

(** The claims [login] signs (lines 44-47): the username as sent and the
    expiry two hours after [utcnow()], as PyJWT converts it. *)
Definition login_claims (username : json) (now_us : Z) : list (string * json) :=
  [("user", username); ("exp", JInt (timegm_utctimetuple (now_us + TOKEN_LIFETIME_US)))].

(** [login()], lines 44-49: the signed token. *)
Definition login_token (username : json) (now_us : Z) : response :=
  jsonify 200 "token" (Jwt.encode (login_claims username now_us) SECRET_KEY).

(** [login()] at the time [now_us]; [get_db()] creates the table. *)
Definition login (now_us : Z) (b : body) (d : db) : response * db :=
  match login_input b with
  | Err resp => (resp, d)
  | Ok (username, password) =>
      let t := get_db d in
      match login_lookup username t with
      | Err resp => (resp, Some t)
      | Ok user =>
          match login_authenticated user password with
          | Err resp => (resp, Some t)
          | Ok false => (jsonify 401 "error" ERR_BAD_CREDENTIALS, Some t)
          | Ok true => (login_token username now_us, Some t)
          end
      end
  end.

(** [protected()], lines 57-60: the [Authorization] header, unless it is
    missing or empty. *)
Definition authorization_token (authorization : option string) : option string :=
  match authorization with
  | None | Some EmptyString => None
  | Some token => Some token
  end.

(** [protected()], lines 62-66: [jwt.decode] at the time [now_us]; any
    exception is answered 403. *)
Definition verify_token (token : string) (now_us : Z) : response :=
  match Jwt.decode token SECRET_KEY ["HS256"] now_us with
  | Ok _ => jsonify 200 "message" MSG_ACCESS_GRANTED
  | Err _ => jsonify 403 "error" ERR_TOKEN_INVALID
  end.

(** [protected()] at the time [now_us], [authorization] being the
    [Authorization] header if sent. *)
Definition protected (now_us : Z) (authorization : option string) (d : db) : response * db :=
  match authorization_token authorization with
  | None => (jsonify 401 "error" ERR_TOKEN_MISSING, d)
  | Some token => (verify_token token now_us, d)
  end.

(** A request to one of the three routes, with the environment's input. *)
Inductive request : Type :=
  | PostRegister (b : body) (salt : string)
  | PostLogin (b : body) (now_us : Z)
  | GetProtected (authorization : option string) (now_us : Z).

(** The routing of [@app.post("/register")], [@app.post("/login")] and
    [@app.get("/protected")]. *)
Definition handle (r : request) (d : db) : response * db :=
  match r with
  | PostRegister b salt => register salt b d
  | PostLogin b now_us => login now_us b d
  | GetProtected auth now_us => protected now_us auth d
  end.

(** Serving a sequence of requests, one after the other, from [d]. *)
Fixpoint run (rs : list request) (d : db) : list response * db :=
  match rs with
  | [] => ([], d)
  | r :: rs' =>
      let '(resp, d1) := handle r d in
      let '(resps, d2) := run rs' d1 in
      (resp :: resps, d2)
  end.

(** The database files the server can reach from a fresh install. *)
Inductive reachable : db -> Prop :=
  | reachable_init : reachable None
  | reachable_step r d : reachable d -> reachable (snd (handle r d)).

(** The body [{"username": u, "password": p}]. *)
Definition credentials (u p : string) : body :=
  JsonBody (JObj [("username", JStr u); ("password", JStr p)]).

(** Whether a request is a registration. *)
Definition is_register (r : request) : bool :=
  match r with
  | PostRegister _ _ => true
  | _ => false
  end.

(** ** Lemmas *)

(** The steps [handler_cases] unfolds, for the proofs of this section. *)
#[local] Hint Unfold register register_input register_store login login_input login_lookup
  login_authenticated login_token protected authorization_token verify_token : handlers.

Lemma register_db_wf salt b d : db_wf d -> db_wf (snd (register salt b d)).
Proof.
  intros Hwf. handler_cases; eauto using insert_user_wf with auth.
Qed.

(** [login] creates the table if needed and changes nothing else. *)
Lemma login_db now_us b d :
  snd (login now_us b d) = d \/ snd (login now_us b d) = Some (get_db d).
Proof. handler_cases; auto. Qed.

Lemma protected_db now_us auth d : snd (protected now_us auth d) = d.
Proof. unfold protected. by case_match. Qed.

Lemma handle_db_wf r d : db_wf d -> db_wf (snd (handle r d)).
Proof.
  intros Hwf. destruct r as [b salt|b now_us|auth now_us]; simpl.
  - by apply register_db_wf.
  - destruct (login_db now_us b d) as [->| ->]; [done | simpl; auto with auth].
  - by rewrite protected_db.
Qed.

(** A request raises the AUTOINCREMENT counter by at most one. *)
Lemma handle_seq r d :
  db_wf d -> (seq (get_db (snd (handle r d))) <= seq (get_db d) + 1)%Z.
Proof.
  intros Hwf. pose proof (table_wf_max _ (get_db_wf d Hwf)) as Hmax.
  destruct r as [b salt|b now_us|auth now_us]; simpl.
  - unfold register. handler_cases; try lia.
    match goal with H : insert_user _ _ _ = Ok _ |- _ =>
      apply insert_user_ok in H as (->&_&_) end. simpl. lia.
  - destruct (login_db now_us b d) as [->| ->]; simpl; lia.
  - rewrite protected_db. lia.
Qed.

Lemma timegm_lifetime t0 :
  timegm_utctimetuple (t0 + TOKEN_LIFETIME_US) = (timegm_utctimetuple t0 + 7200)%Z.
Proof.
  unfold timegm_utctimetuple, TOKEN_LIFETIME_US.
  replace (2 * 3600 * 1000000)%Z with (7200 * 1000000)%Z by lia.
  by rewrite Z.div_add.
Qed.

Lemma encode_nonempty payload key : Jwt.encode payload key <> EmptyString.
Proof.
  unfold Jwt.encode. generalize (b64_encode (json_dumps (jws_header "HS256"))).
  intros s. destruct s; simpl; done.
Qed.

(** PyJWT's claim checks on the claims of [login], issued at [t0],
    at the second [now]: expired once [now] reaches the second of [t0]
    plus 7200. *)
Lemma validate_login_claims v t0 now :
  validate_claims (login_claims v t0) now =
    if Z.leb (timegm_utctimetuple t0 + 7200) now then Err ExpiredSignatureError else Ok tt.
Proof.
  unfold validate_claims, validate_iat, validate_nbf, validate_exp, validate_aud.
  simpl. rewrite timegm_lifetime. by destruct (Z.leb _ _).
Qed.

(** What [jwt.decode] makes of a token [login] issued at [t0], at [t1]:
    the claims while the second of [t1] is before the expiry, the
    expiry error from then on. *)
Lemma decode_login_token `{!Base64UrlLaws} `{!JsonCodecLaws} `{!HmacLaws} v t0 t1 :
  Jwt.decode (Jwt.encode (login_claims v t0) SECRET_KEY) SECRET_KEY ["HS256"] t1 =
    if Z.leb (timegm_utctimetuple t0 + 7200) (timegm_utctimetuple t1)
    then Err ExpiredSignatureError else Ok (login_claims v t0).
Proof.
  rewrite decode_encode, validate_login_claims. by destruct (Z.leb _ _).
Qed.

(** A non-empty [Authorization] header is decoded. *)
Lemma protected_token now_us token d :
  token <> EmptyString -> protected now_us (Some token) d = (verify_token token now_us, d).
Proof. unfold protected, authorization_token. by destruct token. Qed.

(** What [jwt.decode] accepting a token [h.p.s] says of its segments. *)
Lemma decode_segments now_us h p s claims :
  char_in "." h = false -> char_in "." s = false ->
  Jwt.decode (h +:+ "." +:+ p +:+ "." +:+ s) SECRET_KEY ["HS256"] now_us = Ok claims ->
  exists hd header, b64_decode h = Some hd /\ json_loads hd = Some (JObj header) /\
    dict_get "alg" header = Some (JStr "HS256") /\
    b64_decode s = Some (hs256_sign SECRET_KEY (h +:+ "." +:+ p)).
Proof.
  intros Hh Hs Hdec.
  apply decode_ok_inv in Hdec as (h'&p'&s'&hd&header&_&Heq&Hh'&Hs'&Hhd&Hhdr&Halg&_&_&Hsig&_).
  destruct (split3_unique "." h p s h' p' s' Hh Hs Hh' Hs' Heq) as (<-&<-&<-). eauto 6.
Qed.

(** [/protected] on a token signed with [SECRET_KEY]: accepted exactly
    when its claims pass PyJWT's checks at the second of the request. *)
Lemma protected_encode `{!Base64UrlLaws} `{!JsonCodecLaws} `{!HmacLaws} now_us p d :
  protected now_us (Some (Jwt.encode p SECRET_KEY)) d =
    (match validate_claims p (timegm_utctimetuple now_us) with
     | Ok _ => jsonify 200 "message" MSG_ACCESS_GRANTED
     | Err _ => jsonify 403 "error" ERR_TOKEN_INVALID
     end, d).
Proof.
  rewrite protected_token by apply encode_nonempty. unfold verify_token.
  rewrite decode_encode. by destruct (validate_claims _ _).
Qed.

Lemma register_input_credentials salt u p :
  register_input salt (credentials u p) =
    match generate_password_hash salt p with
    | Some h => Ok (JStr u, h)
    | None => Err internal_server_error
    end.
Proof. unfold register_input. simpl. by destruct (generate_password_hash salt p). Qed.

Lemma login_input_credentials u p : login_input (credentials u p) = Ok (JStr u, JStr p).
Proof. reflexivity. Qed.

Lemma generate_password_hash_total `{!KdfLaws} salt p :
  exists h, generate_password_hash salt p = Some h.
Proof.
  destruct (kdf_default_total salt p) as [[h m] Hh].
  unfold generate_password_hash. rewrite Hh. eauto.
Qed.

Lemma register_fresh `{!KdfLaws} salt u p d :
  gen_salt_ok 16 salt = true -> db_wf d ->
  username_taken u (rows (get_db d)) = false -> (seq (get_db d) < MAX_ROWID)%Z ->
  exists digest t', generate_password_hash salt p = Some digest /\
    insert_user (Some u) (Some digest) (get_db d) = Ok t' /\
    register salt (credentials u p) d = (jsonify 200 "message" MSG_USER_CREATED, Some t').
Proof.
  intros Hs Hwf Hfree Hlt. destruct (generate_password_hash_total salt p) as [digest Hg].
  destruct (insert_user_fresh u (Some digest) (get_db d)) as (t'&Hins&_); auto with auth.
  exists digest, t'. split_and!; [done|done|].
  unfold register. rewrite register_input_credentials, Hg.
  unfold register_store. cbn -[insert_user get_db]. by rewrite Hins.
Qed.

(** A registration that answers 200 stored the digest of the password
    under the username. *)
Lemma register_ok_inv salt u p d resp d1 :
  register salt (credentials u p) d = (resp, d1) -> status resp = 200%Z ->
  exists digest t', generate_password_hash salt p = Some digest /\
    insert_user (Some u) (Some digest) (get_db d) = Ok t' /\ d1 = Some t' /\
    resp = jsonify 200 "message" MSG_USER_CREATED.
Proof.
  unfold register. rewrite register_input_credentials.
  destruct (generate_password_hash salt p) as [digest|]; [|by intros [= <- _]].
  unfold register_store. cbn -[insert_user get_db].
  destruct (insert_user (Some u) (Some digest) (get_db d)) as [t'|e] eqn:Hins;
    intros [= <- <-]; [|done]. intros _. eauto 6.
Qed.

Lemma timegm_le t1 t0 k :
  (t1 <= t0 + k * 1000000)%Z -> (timegm_utctimetuple t1 <= timegm_utctimetuple t0 + k)%Z.
Proof.
  intros Hle. unfold timegm_utctimetuple. rewrite <- Z.div_add by lia.
  by apply Z.div_le_mono.
Qed.

Lemma timegm_ge t1 t0 k :
  (t0 + k * 1000000 <= t1)%Z -> (timegm_utctimetuple t0 + k <= timegm_utctimetuple t1)%Z.
Proof.
  intros Hle. unfold timegm_utctimetuple. rewrite <- Z.div_add by lia.
  by apply Z.div_le_mono.
Qed.

Lemma login_found now_us u p d r digest :
  select_by_username (Some u) (get_db d) = Some r -> row_password r = Some digest ->
  login now_us (credentials u p) d =
    (match check_password_hash digest p with
     | Some true => jsonify 200 "token" (Jwt.encode (login_claims (JStr u) now_us) SECRET_KEY)
     | Some false => jsonify 401 "error" ERR_BAD_CREDENTIALS
     | None => internal_server_error
     end, Some (get_db d)).
Proof.
  intros Hsel Hpw. unfold login. rewrite login_input_credentials.
  unfold login_lookup, login_authenticated. cbn -[select_by_username get_db check_password_hash].
  rewrite Hsel, Hpw. simpl.
  by destruct (check_password_hash digest p) as [[]|].
Qed.

Lemma login_not_found now_us u p d :
  select_by_username (Some u) (get_db d) = None ->
  login now_us (credentials u p) d = (jsonify 401 "error" ERR_BAD_CREDENTIALS, Some (get_db d)).
Proof.
  intros Hsel. unfold login. rewrite login_input_credentials.
  unfold login_lookup. cbn -[select_by_username get_db]. by rewrite Hsel.
Qed.

(** ** Properties *)

(** (C1) Invariant of the server: in every database file reachable from
    a fresh install by any sequence of requests, the non-NULL usernames
    of [users] are pairwise distinct, rowids increase and stay below
    the AUTOINCREMENT counter. *)
Theorem reachable_db_wf d : reachable d -> db_wf d.
Proof. induction 1; [done|]. by apply handle_db_wf. Qed.

(** (C6) End to end, the specification's scenario: registering a fresh
    username succeeds, logging in with the same password returns a
    token, and [/protected] accepts that token at any time up to 7199
    seconds after the login. *)
Theorem register_login_protected `{!KdfLaws} `{!Base64UrlLaws} `{!JsonCodecLaws} `{!HmacLaws}
    salt u p d t0 t1 :
  gen_salt_ok 16 salt = true -> db_wf d ->
  username_taken u (rows (get_db d)) = false -> (seq (get_db d) < MAX_ROWID)%Z ->
  (t1 <= t0 + 7199 * 1000000)%Z ->
  exists d1 token,
    register salt (credentials u p) d = (jsonify 200 "message" MSG_USER_CREATED, d1) /\
    login t0 (credentials u p) d1 = (jsonify 200 "token" token, d1) /\
    protected t1 (Some token) d1 = (jsonify 200 "message" MSG_ACCESS_GRANTED, d1).
Proof.
  intros Hs Hwf Hfree Hlt Ht.
  destruct (register_fresh salt u p d Hs Hwf Hfree Hlt) as (digest&t'&Hg&Hins&Hreg).
  exists (Some t'), (Jwt.encode (login_claims (JStr u) t0) SECRET_KEY).
  split_and!; [done| |].
  - rewrite (login_found t0 u p (Some t') _ digest (insert_select _ _ _ _ Hins)) by done.
    by rewrite (check_generated salt p digest Hs Hg).
  - rewrite protected_encode, validate_login_claims. apply timegm_le in Ht.
    by destruct (Z.leb_spec (timegm_utctimetuple t0 + 7200) (timegm_utctimetuple t1)); [lia|].
Qed.

(** (C7) The validity window of a token, exactly: [/protected] accepts
    the token [login] issued at [t0] when the whole second of the
    request is before [exp], the second of [t0] plus 7200, and answers
    403 from then on; the database is untouched either way. *)
Theorem protected_login_token `{!Base64UrlLaws} `{!JsonCodecLaws} `{!HmacLaws} v t0 t1 d :
  protected t1 (Some (Jwt.encode (login_claims v t0) SECRET_KEY)) d =
    (if Z.ltb (t1 / 1000000) (t0 / 1000000 + 7200)
     then jsonify 200 "message" MSG_ACCESS_GRANTED
     else jsonify 403 "error" ERR_TOKEN_INVALID, d).
Proof.
  rewrite protected_encode, validate_login_claims. unfold timegm_utctimetuple.
  by destruct (Z.leb_spec (t0 / 1000000 + 7200) (t1 / 1000000));
    destruct (Z.ltb_spec (t1 / 1000000) (t0 / 1000000 + 7200)); try lia.
Qed.

(** (C20) Lifetime bounds of a token: it is accepted for at least 7199
    seconds after it was issued and rejected from 7200 seconds on (the
    expiry is computed from the whole second of issue). *)
Theorem login_token_lifetime `{!Base64UrlLaws} `{!JsonCodecLaws} `{!HmacLaws} v t0 t1 d :
  ((t1 <= t0 + 7199 * 1000000)%Z ->
   status (fst (protected t1 (Some (Jwt.encode (login_claims v t0) SECRET_KEY)) d)) = 200%Z) /\
  ((t0 + 7200 * 1000000 <= t1)%Z ->
   status (fst (protected t1 (Some (Jwt.encode (login_claims v t0) SECRET_KEY)) d)) = 403%Z).
Proof.
  rewrite protected_login_token. split; intros Ht.
  - apply timegm_le in Ht. unfold timegm_utctimetuple in Ht.
    by destruct (Z.ltb_spec (t1 / 1000000) (t0 / 1000000 + 7200)); [|lia].
  - apply timegm_ge in Ht. unfold timegm_utctimetuple in Ht.
    by destruct (Z.ltb_spec (t1 / 1000000) (t0 / 1000000 + 7200)); [lia|].
Qed.

(** (C14) Duplicate registration: registering a username already in the
    table answers 400 ["Usuário já existe"] and leaves the database file
    as it was. *)
Theorem register_duplicate `{!KdfLaws} salt u p t :
  username_taken u (rows t) = true ->
  register salt (credentials u p) (Some t) = (jsonify 400 "error" ERR_USER_EXISTS, Some t).
Proof.
  intros Ht. destruct (generate_password_hash_total salt p) as [h Hg].
  unfold register. rewrite register_input_credentials, Hg.
  unfold register_store. cbn -[insert_user].
  rewrite insert_user_duplicate by done. by destruct (Z.leb _ _).
Qed.

Section WrongPassword.
Hypothesis kdf_injective : forall m s p1 p2 h m1 m2,
  hash_internal m s p1 = Some (h, m1) -> hash_internal m s p2 = Some (h, m2) -> p1 = p2.

(** (C12) A wrong password is refused: once [u] registered with [p],
    logging in as [u] with any other password answers 401
    ["Credenciais inválidas"], the same response as for an unknown
    username ([login_unknown_user]), so the two cannot be told apart. *)
Theorem login_wrong_password `{!KdfLaws} salt u p p' d d1 resp now_us :
  gen_salt_ok 16 salt = true -> p' <> p ->
  register salt (credentials u p) d = (resp, d1) -> status resp = 200%Z ->
  login now_us (credentials u p') d1 = (jsonify 401 "error" ERR_BAD_CREDENTIALS, d1).
Proof.
  intros Hs Hne Hreg Hst.
  destruct (register_ok_inv salt u p d resp d1 Hreg Hst) as (digest&t'&Hg&Hins&->&_).
  rewrite (login_found now_us u p' (Some t') _ digest (insert_select _ _ _ _ Hins)) by done.
  by rewrite (check_password_hash_wrong kdf_injective salt p p' digest).
Qed.
End WrongPassword.

(** (C13) An unknown username is refused with 401 ["Credenciais
    inválidas"], whatever the password, and logging in only creates the
    table if it was missing. *)
Theorem login_unknown_user now_us u p d :
  username_taken u (rows (get_db d)) = false ->
  login now_us (credentials u p) d = (jsonify 401 "error" ERR_BAD_CREDENTIALS, Some (get_db d)).
Proof. intros Hfree. by apply login_not_found, find_none_taken. Qed.

(** (C9) Only signed tokens are accepted: when [/protected] answers 200,
    the token is three base64url segments, the first a JSON header
    whose ["alg"] is ["HS256"], the second the JSON claims, valid at the
    time of the request, and the third the HMAC-SHA256 of the first two
    under [SECRET_KEY].  A token with no signature, or signed with
    another algorithm or key, is refused. *)
Theorem protected_accepts_only_signed now_us token d :
  fst (protected now_us (Some token) d) = jsonify 200 "message" MSG_ACCESS_GRANTED ->
  exists hseg pseg sseg hd header pl claims,
    token = hseg +:+ "." +:+ pseg +:+ "." +:+ sseg /\
    b64_decode hseg = Some hd /\ json_loads hd = Some (JObj header) /\
    dict_get "alg" header = Some (JStr "HS256") /\
    b64_decode pseg = Some pl /\ json_loads pl = Some (JObj claims) /\
    validate_claims claims (timegm_utctimetuple now_us) = Ok tt /\
    b64_decode sseg = Some (hs256_sign SECRET_KEY (hseg +:+ "." +:+ pseg)).
Proof.
  unfold protected, authorization_token, verify_token. destruct token as [|c token']; [done|].
  destruct (Jwt.decode _ _ _ _) as [claims|] eqn:Hdec; [|done]. intros _.
  apply decode_ok_inv in Hdec as (hseg&pseg&sseg&hd&header&pl&?&_&_&?&?&?&?&?&?&?).
  exists hseg, pseg, sseg, hd, header, pl, claims. done.
Qed.

(** (C10) A tampered token is refused: a token [h.p.s] whose signature
    segment does not decode to the HMAC of [h.p] under [SECRET_KEY]
    gets 403 ["Token inválido"], however valid its claims. *)
Theorem protected_tampered now_us h p s d :
  char_in "." h = false -> char_in "." s = false ->
  b64_decode s <> Some (hs256_sign SECRET_KEY (h +:+ "." +:+ p)) ->
  protected now_us (Some (h +:+ "." +:+ p +:+ "." +:+ s)) d =
    (jsonify 403 "error" ERR_TOKEN_INVALID, d).
Proof.
  intros Hh Hs Hsig. rewrite protected_token by (by destruct h). unfold verify_token.
  destruct (Jwt.decode _ _ _ _) as [claims|] eqn:Hdec; [|done].
  by apply decode_segments in Hdec as (?&?&_&_&_&?).
Qed.

(** (C11) The header's algorithm is enforced: a token whose header
    decodes to a JSON object with an ["alg"] other than ["HS256"]
    (["none"], ["HS384"], ["HS512"], a missing or non-string value)
    gets 403, whatever its signature.  PyJWT's registry accepts all of
    these but the last; it is the list [algorithms=["HS256"]] of
    app.py line 63 that PyJWT checks the header against first. *)
Theorem protected_rejects_other_alg now_us h p s d hd header :
  char_in "." h = false -> char_in "." s = false ->
  b64_decode h = Some hd -> json_loads hd = Some (JObj header) ->
  dict_get "alg" header <> Some (JStr "HS256") ->
  protected now_us (Some (h +:+ "." +:+ p +:+ "." +:+ s)) d =
    (jsonify 403 "error" ERR_TOKEN_INVALID, d).
Proof.
  intros Hh Hs Hhd Hhdr Halg. rewrite protected_token by (by destruct h). unfold verify_token.
  destruct (Jwt.decode _ _ _ _) as [claims|] eqn:Hdec; [|done].
  apply decode_segments in Hdec as (hd'&header'&?&?&?&_); [congruence|done|done].
Qed.

(** A request without a token is refused before any decoding: no
    [Authorization] header, or an empty one, answers 401 ["Token
    ausente"]; a non-empty header is never answered 401. *)
Theorem protected_missing_token now_us auth d :
  status (fst (protected now_us auth d)) = 401%Z <-> auth = None \/ auth = Some EmptyString.
Proof.
  unfold protected, authorization_token, verify_token. split.
  - destruct auth as [[|c tok]|]; auto.
    destruct (Jwt.decode _ _ _ _); simpl; done.
  - by intros [-> | ->].
Qed.

(** (C31) A registration without a username succeeds: with no
    ["username"] member the INSERT stores a NULL username, which the
    UNIQUE constraint never rejects, so every such request adds a row
    that no login can ever select. *)
Theorem register_without_username `{!KdfLaws} salt p t :
  gen_salt_ok 16 salt = true -> table_wf t -> (seq t < MAX_ROWID)%Z ->
  exists digest t',
    register salt (JsonBody (JObj [("password", JStr p)])) (Some t) =
      (jsonify 200 "message" MSG_USER_CREATED, Some t') /\
    rows t' = rows t ++ [mk_row (seq t + 1) None (Some digest)] /\
    check_password_hash digest p = Some true /\
    forall u r, select_by_username u t' = Some r -> row_username r <> None.
Proof.
  intros Hs Hwf Hlt. destruct (generate_password_hash_total salt p) as [digest Hg].
  destruct (insert_user_null (Some digest) t Hwf Hlt) as (t'&Hins&Hrows).
  exists digest, t'. split_and!; [|done|by eapply check_generated|].
  - unfold register, register_input. cbn -[generate_password_hash register_store].
    rewrite Hg. unfold register_store. cbn -[insert_user]. by rewrite Hins.
  - intros [u|] r Hsel; [|done].
    apply select_by_username_sound in Hsel as [Hu _]. congruence.
Qed.

(** (C28) When the rowids are exhausted, a registration under a free
    username is answered 400 ["Usuário já existe"]: the bare [except:]
    reports the SQLITE_FULL error as a duplicate username. *)
Theorem register_full_reported_as_duplicate `{!KdfLaws} salt u p t :
  table_wf t -> (MAX_ROWID <= seq t)%Z -> username_taken u (rows t) = false ->
  register salt (credentials u p) (Some t) = (jsonify 400 "error" ERR_USER_EXISTS, Some t).
Proof.
  intros Hwf Hfull Hfree. destruct (generate_password_hash_total salt p) as [h Hg].
  unfold register. rewrite register_input_credentials, Hg.
  unfold register_store. cbn -[insert_user].
  by rewrite (proj2 (insert_user_full (Some u) _ t Hwf) Hfull).
Qed.

(** (C32) An integer username is its decimal text: registering
    [{"username": 5, ...}] has exactly the effect of registering
    [{"username": "5", ...}], through the TEXT affinity of the column,
    so the two are one account; this holds for every integer sqlite3
    can bind, i.e. in [[-2^63, 2^63)]. *)
Theorem register_int_username salt z pw d :
  (- 2 ^ 63 <= z < 2 ^ 63)%Z ->
  register salt (JsonBody (JObj [("username", JInt z); ("password", pw)])) d =
  register salt (JsonBody (JObj [("username", JStr (py_str_of_int z)); ("password", pw)])) d.
Proof.
  intros Hz. unfold register, register_input. simpl. destruct pw; try reflexivity.
  destruct (generate_password_hash salt s); [|done]. unfold register_store, bind_text.
  replace (Z.leb _ z && Z.ltb z _) with true; [done|].
  symmetry. apply andb_true_intro. rewrite Z.leb_le, Z.ltb_lt. lia.
Qed.

(** Accounts are append-only: a request adds at most one row to
    [users], only a registration adds one, and no request modifies or
    deletes a row (a stored digest never changes). *)
Theorem handle_append_only r d :
  exists new, rows (get_db (snd (handle r d))) = rows (get_db d) ++ new /\
    length new <= 1 /\ (is_register r = false -> new = []).
Proof.
  destruct r as [b salt|b now_us|auth now_us]; simpl.
  - unfold register. handler_cases;
      try (exists []; rewrite app_nil_r; auto with lia; fail).
    match goal with H : insert_user _ _ _ = Ok _ |- _ =>
      apply insert_user_ok in H as (->&_&_) end.
    eexists; split_and!; [done|simpl; lia|discriminate].
  - exists []. rewrite app_nil_r. split_and!; [|simpl; lia|done].
    by destruct (login_db now_us b d) as [->| ->].
  - exists []. rewrite protected_db, app_nil_r. split_and!; [done|simpl; lia|done].
Qed.

(** (C33) Over any sequence of requests the rows of the table only
    grow: the rows before are a prefix of the rows after, and the
    number of rows added is at most the number of registrations. *)
Theorem run_append_only rs d :
  exists new, rows (get_db (snd (run rs d))) = rows (get_db d) ++ new /\
    length new <= length (filter (fun r => is_register r = true) rs).
Proof.
  revert d; induction rs as [|r rs IH]; intros d; simpl.
  - exists []. by rewrite app_nil_r.
  - destruct (handle r d) as [resp d1] eqn:Hh.
    destruct (run rs d1) as [resps d2] eqn:Hr. simpl.
    destruct (handle_append_only r d) as (n1&E1&L1&R1). rewrite Hh in E1. simpl in E1.
    destruct (IH d1) as (n2&E2&L2). rewrite Hr in E2. simpl in E2.
    exists (n1 ++ n2). rewrite E2, E1, app_assoc. split; [done|].
    rewrite length_app. destruct (is_register r) eqn:Hreg; simpl.
    + rewrite filter_cons_True by done. simpl. lia.
    + rewrite filter_cons_False by (rewrite Hreg; done). rewrite R1 by done. simpl. lia.
Qed.

(** (C8) A token is issued only to an authenticated user, and it is
    the token of that user: when [login] answers 200 with a token, the
    request's username selects a row of the table whose stored digest
    checks against the password sent, and the token decodes under
    [SECRET_KEY], at any time up to 7199 seconds after the login, to
    the claims [login] signs for that username. *)
Theorem login_token_roundtrip `{!Base64UrlLaws} `{!JsonCodecLaws} `{!HmacLaws}
    now_us t1 b d token d' :
  login now_us b d = (jsonify 200 "token" token, d') ->
  (t1 <= now_us + 7199 * 1000000)%Z ->
  exists username password u r digest,
    login_input b = Ok (username, password) /\
    bind_text username = Ok u /\
    select_by_username u (get_db d) = Some r /\
    row_password r = Some digest /\
    check_password_hash_value digest password = Some true /\
    Jwt.decode token SECRET_KEY ["HS256"] t1 = Ok (login_claims username now_us).
Proof.
  intros Hlogin Ht. revert Hlogin. unfold login.
  destruct (login_input b) as [[username password]|resp] eqn:Hin.
  2:{ intros [= -> _]. unfold login_input, request_json, data_get, result_bind in Hin.
      repeat case_match; simplify_eq/=. }
  destruct (bind_text username) as [u|e] eqn:Hb; unfold login_lookup; rewrite Hb;
    [|intros Heq; inversion Heq].
  destruct (select_by_username u (get_db d)) as [r|] eqn:Hsel; unfold login_authenticated;
    intros Heq; [|inversion Heq].
  destruct (row_password r) as [digest|] eqn:Hp; [|inversion Heq].
  destruct (check_password_hash_value digest password) as [[]|] eqn:Hc; inversion Heq.
  subst token.
  exists username, password, u, r, digest. split_and!; try done.
  rewrite decode_login_token. apply timegm_le in Ht.
  by destruct (Z.leb_spec (timegm_utctimetuple now_us + 7200)
                          (timegm_utctimetuple t1)); [lia|].
Qed.

(** (C15) A failed registration changes nothing: whenever [register]
    answers anything but 200 (a duplicate, a body that is not JSON or
    not a dict, a password that is not a string, a full table), the
    table after it is the table before it (at most created empty). *)
Theorem register_failure_atomic salt b d resp d' :
  register salt b d = (resp, d') -> status resp <> 200%Z -> get_db d' = get_db d.
Proof. intros Hreg Hst. handler_cases; done. Qed.

(** (C23) Every token signed with [SECRET_KEY] whose claims pass PyJWT's
    checks at the time of the request is accepted, whoever made it: the
    key in app.py is all a client needs to mint a token [/protected]
    accepts. *)
Theorem protected_accepts_signed `{!Base64UrlLaws} `{!JsonCodecLaws} `{!HmacLaws} now_us p d :
  validate_claims p (timegm_utctimetuple now_us) = Ok tt ->
  protected now_us (Some (Jwt.encode p SECRET_KEY)) d =
    (jsonify 200 "message" MSG_ACCESS_GRANTED, d).
Proof. intros Hv. by rewrite protected_encode, Hv. Qed.

(** (C24) A signed token without an ["exp"] claim never expires:
    [/protected] accepts [{"user": v}] signed with [SECRET_KEY] at every
    time. *)
Theorem protected_token_without_exp `{!Base64UrlLaws} `{!JsonCodecLaws} `{!HmacLaws} v now_us d :
  protected now_us (Some (Jwt.encode [("user", v)] SECRET_KEY)) d =
    (jsonify 200 "message" MSG_ACCESS_GRANTED, d).
Proof. by rewrite protected_encode. Qed.

(** (C25) A login without a password tells registered usernames from
    unknown ones: for a username whose stored digest has its three
    parts, [check_password_hash] raises on the missing password and the
    answer is 500, while an unknown username gets 401. *)
Theorem login_without_password_reveals_user now_us u u' r digest m s h d :
  select_by_username (Some u) (get_db d) = Some r -> row_password r = Some digest ->
  py_split "$" 2 digest = [m; s; h] -> username_taken u' (rows (get_db d)) = false ->
  fst (login now_us (JsonBody (JObj [("username", JStr u)])) d) = internal_server_error /\
  fst (login now_us (JsonBody (JObj [("username", JStr u')])) d) =
    jsonify 401 "error" ERR_BAD_CREDENTIALS.
Proof.
  intros Hsel Hpw Hsplit Hfree%find_none_taken.
  assert (Hsel' : select_by_username (Some u') (get_db d) = None) by exact Hfree.
  unfold login, login_input, login_lookup.
  cbn -[select_by_username get_db check_password_hash_value].
  rewrite Hsel, Hsel'. split; [|done]. unfold login_authenticated.
  rewrite Hpw. cbn -[py_split]. by rewrite Hsplit.
Qed.

(** Expiry is terminal: once [/protected] rejects the token of a
    login, it rejects it at every later time; a token goes from valid
    to expired and never back. *)
Theorem login_token_expiry_terminal `{!Base64UrlLaws} `{!JsonCodecLaws} `{!HmacLaws}
    v t0 t1 t2 d :
  (t1 <= t2)%Z ->
  status (fst (protected t1 (Some (Jwt.encode (login_claims v t0) SECRET_KEY)) d)) <> 200%Z ->
  protected t2 (Some (Jwt.encode (login_claims v t0) SECRET_KEY)) d =
    (jsonify 403 "error" ERR_TOKEN_INVALID, d).
Proof.
  intros Hle. rewrite !protected_encode, !validate_login_claims.
  pose proof (Z.div_le_mono t1 t2 1000000 ltac:(lia) Hle). unfold timegm_utctimetuple in *.
  destruct (Z.leb_spec (t0 / 1000000 + 7200) (t1 / 1000000)); [|done].
  intros _. by destruct (Z.leb_spec (t0 / 1000000 + 7200) (t2 / 1000000)); [|lia].
Qed.

(** (C16) Registrations are salted: two users registered with the same
    password under two different salts get two different stored
    digests, so equal passwords cannot be spotted in the table. *)
Theorem register_salted `{!KdfLaws} salt1 salt2 u1 u2 p d resp1 d1 resp2 d2 r1 r2 :
  gen_salt_ok 16 salt1 = true -> gen_salt_ok 16 salt2 = true -> salt1 <> salt2 ->
  register salt1 (credentials u1 p) d = (resp1, d1) -> status resp1 = 200%Z ->
  register salt2 (credentials u2 p) d1 = (resp2, d2) -> status resp2 = 200%Z ->
  select_by_username (Some u1) (get_db d2) = Some r1 ->
  select_by_username (Some u2) (get_db d2) = Some r2 ->
  row_password r1 <> row_password r2.
Proof.
  intros Hs1 Hs2 Hne R1 S1 R2 S2 Hsel1 Hsel2.
  destruct (register_ok_inv _ _ _ _ _ _ R1 S1) as (dg1&t1&G1&I1&->&_).
  destruct (register_ok_inv _ _ _ _ _ _ R2 S2) as (dg2&t2&G2&I2&->&_).
  pose proof (insert_select _ _ _ _ I1) as Sel1.
  assert (u1 <> u2) as Hu.
  { intros <-. apply insert_user_ok in I2 as (_&_&Hfree).
    specialize (Hfree u1 eq_refl). simpl in Hfree.
    by rewrite (select_taken _ _ _ Sel1) in Hfree. }
  cbn [get_db] in Hsel1, Hsel2.
  rewrite (insert_select_other _ _ _ _ _ I2) in Hsel1 by congruence.
  rewrite (insert_select _ _ _ _ I2) in Hsel2.
  cbn [get_db] in Hsel1. rewrite Sel1 in Hsel1. simplify_eq/=.
  intros [= Heq]. by apply (generate_password_hash_salted salt1 salt2 p dg1 dg2).
Qed.

(** (C30) An integer username too large for SQLite is reported as a
    duplicate: binding it raises [OverflowError], which the bare
    [except:] answers with 400 ["Usuário já existe"]; the table is only
    created. *)
Theorem register_overflow_username `{!KdfLaws} salt z p d :
  (z < - 2 ^ 63 \/ 2 ^ 63 <= z)%Z ->
  register salt (JsonBody (JObj [("username", JInt z); ("password", JStr p)])) d =
    (jsonify 400 "error" ERR_USER_EXISTS, Some (get_db d)).
Proof.
  intros Hz. destruct (generate_password_hash_total salt p) as [h Hg].
  unfold register, register_input. cbn -[generate_password_hash register_store].
  rewrite Hg. unfold register_store, bind_text.
  replace (Z.leb _ z && Z.ltb z _) with false; [done|].
  symmetry. apply andb_false_iff. rewrite Z.leb_gt, Z.ltb_ge. lia.
Qed.

(** (C27) A stored digest whose method werkzeug does not know makes
    [login] fail with 500 instead of refusing the password:
    [check_password_hash] lets the [ValueError] of [_hash_internal]
    propagate. *)
Theorem login_unknown_method now_us u p d r digest m salt h :
  select_by_username (Some u) (get_db d) = Some r -> row_password r = Some digest ->
  py_split "$" 2 digest = [m; salt; h] -> hash_internal m salt p = None ->
  login now_us (credentials u p) d = (internal_server_error, Some (get_db d)).
Proof.
  intros Hsel Hpw Hsplit Hm. rewrite (login_found now_us u p d r digest Hsel Hpw).
  unfold check_password_hash. by rewrite Hsplit, Hm.
Qed.

(** (C21) An expired token is told apart by PyJWT and not by the
    application: from 7200 seconds after a login, [jwt.decode] raises
    [ExpiredSignatureError] on its token, and [protected] answers it
    with the same 403 ["Token inválido"] as a forged one. *)
Theorem login_token_expired_error `{!Base64UrlLaws} `{!JsonCodecLaws} `{!HmacLaws} v t0 t1 :
  (t0 + 7200 * 1000000 <= t1)%Z ->
  Jwt.decode (Jwt.encode (login_claims v t0) SECRET_KEY) SECRET_KEY ["HS256"] t1 =
    Err ExpiredSignatureError /\
  verify_token (Jwt.encode (login_claims v t0) SECRET_KEY) t1 =
    jsonify 403 "error" ERR_TOKEN_INVALID.
Proof.
  intros Ht. apply timegm_ge in Ht. unfold verify_token. rewrite decode_login_token.
  by destruct (Z.leb_spec (timegm_utctimetuple t0 + 7200) (timegm_utctimetuple t1)); [|lia].
Qed.

End Handlers.

#[export] Hint Unfold register register_input register_store login login_input login_lookup
  login_authenticated login_token protected authorization_token verify_token : handlers.
End App.
