(* ===== verification/Routing.v ===== *)
(** * URL routing: [app = Flask(__name__)] and its four rules

    app.py line 6 creates the application, and [Flask.__init__] adds
    the rule ["/static/<path:filename>"] for [GET] serving the folder
    [static] beside app.py, which the repository does not have; the
    decorators on lines 13, 32 and 55 add one URL rule each:
    ["/register"] for [POST], ["/login"] for [POST], ["/protected"] for
    [GET].  Flask completes
    every rule's methods as werkzeug and [add_url_rule] do: a rule that
    accepts [GET] also accepts [HEAD], and every rule accepts [OPTIONS],
    which Flask answers itself ([make_default_options_response]).  A
    path no rule has is answered 404, a method its rule does not accept
    405, both with Flask's HTML error page.  A [HEAD] request runs the
    [GET] view and the body is dropped.  [serve] is the whole server on
    one request; the view functions are the handlers of App.v.  Not
    modelled: werkzeug's [merge_slashes], which answers a path with
    ["//"] by a 308 redirect to the path with single slashes, and
    [strict_slashes] redirects, which no rule here triggers (no rule
    path ends in a slash). *)

From S2P Require Import Prelude Json Digest Hasher Store Jwt App.

Module Routing.
Import Store App.

(** An HTTP request: the method as the client sent it, the path, the
    [Authorization] header if sent, and the body [request.json] would
    parse. *)
Record http_request : Type := mk_http_request {
  req_method : string;
  req_path : string;
  req_authorization : option string;
  req_body : body
}.

(** The view functions: those of app.py and the one serving the
    static folder, which [Flask(__name__)] registers under the endpoint
    ["static"]. *)
Inductive endpoint : Type := EpStatic | EpRegister | EpLogin | EpProtected.

#[export] Instance endpoint_eq_dec : EqDecision endpoint.
Proof. solve_decision. Defined.

(** A rule's path: a constant path, or a constant prefix followed by a
    [<path:...>] variable. *)
Inductive rule_path : Type :=
  | RExact (p : string)
  | RPathVar (prefix : string).

(** The rest of [s] after [pre], if [s] starts with it. *)
Fixpoint strip_prefix (pre s : string) : option string :=
  match pre, s with
  | EmptyString, _ => Some s
  | String c pre', String c' s' => if Ascii.eqb c c' then strip_prefix pre' s' else None
  | _, _ => None
  end.

(** What werkzeug's [PathConverter] accepts, its regex being
    ["[^/].*?"]: a non-empty text not starting with a slash. *)
Definition path_converter_ok (s : string) : bool :=
  match s with
  | EmptyString => false
  | String c _ => negb (Ascii.eqb c "/")
  end.

Definition rule_matches (rp : rule_path) (path : string) : bool :=
  match rp with
  | RExact p => String.eqb p path
  | RPathVar pre =>
      match strip_prefix pre path with
      | Some rest => path_converter_ok rest
      | None => false
      end
  end.

(** The rules in the order they are added: ["/static/<path:filename>"]
    by [Flask.__init__] (its [methods] default to [GET]), then
    [@app.post("/register")], [@app.post("/login")],
    [@app.get("/protected")]. *)
Definition url_map : list (rule_path * endpoint * list string) :=
  [(RPathVar "/static/", EpStatic, ["GET"]);
   (RExact "/register", EpRegister, ["POST"]);
   (RExact "/login", EpLogin, ["POST"]);
   (RExact "/protected", EpProtected, ["GET"])].

(** The paths the static rule matches. *)
Definition is_static_path (path : string) : bool := rule_matches (RPathVar "/static/") path.

(** The methods werkzeug's [Rule] accepts: [HEAD] added where [GET] is,
    and [OPTIONS] added by Flask's automatic options. *)
Definition rule_methods (ms : list string) : list string :=
  (if bool_decide ("GET" ∈ ms) then ms ++ ["HEAD"] else ms) ++ ["OPTIONS"].

(** What [MapAdapter.match] finds for a method and a path. *)
Inductive route_result : Type :=
  | RouteNotFound                       (** [NotFound]: 404 *)
  | RouteMethodNotAllowed               (** [MethodNotAllowed]: 405 *)
  | RouteTo (ep : endpoint).

#[export] Instance route_result_eq_dec : EqDecision route_result.
Proof. solve_decision. Defined.

Fixpoint match_rules (rules : list (rule_path * endpoint * list string))
    (method path : string) : route_result :=
  match rules with
  | [] => RouteNotFound
  | (p, ep, ms) :: rest =>
      if rule_matches p path then
        if bool_decide (method ∈ rule_methods ms) then RouteTo ep
        else
          match match_rules rest method path with
          | RouteTo ep' => RouteTo ep'
          | _ => RouteMethodNotAllowed
          end
      else match_rules rest method path
  end.

Definition route (method path : string) : route_result := match_rules url_map method path.

(** [str.upper()] on ASCII text: werkzeug's [Request.method] is
    [environ["REQUEST_METHOD"].upper()]. *)
Definition ascii_upper (c : ascii) : ascii :=
  let n := nat_of_ascii c in
  if Nat.leb 97 n && Nat.leb n 122 then ascii_of_nat (n - 32) else c.

Definition py_upper (s : string) : string :=
  string_of_list_ascii (map ascii_upper (list_ascii_of_string s)).

(** The response to a [HEAD] request: the status of the [GET] view,
    without its body. *)
Definition strip_body (r : response) : response := mk_response (status r) None.

Section Serve.
Context `{Kdf} `{Base64Url} `{JsonCodec} `{Hmac}.

(** Flask's [full_dispatch_request] on one request, [salt] being what
    [gen_salt] draws and [now_us] the clock. *)
Definition serve (salt : string) (now_us : Z) (r : http_request) (d : db) : response * db :=
  let method := py_upper (req_method r) in
  match route method (req_path r) with
  | RouteNotFound => (mk_response 404 None, d)
  | RouteMethodNotAllowed => (mk_response 405 None, d)
  | RouteTo ep =>
      if String.eqb method "OPTIONS" then (mk_response 200 None, d)
      else
        let '(resp, d') :=
          match ep with
          | EpStatic => (mk_response 404 None, d)
          | EpRegister => register salt (req_body r) d
          | EpLogin => login now_us (req_body r) d
          | EpProtected => protected now_us (req_authorization r) d
          end in
        (if String.eqb method "HEAD" then strip_body resp else resp, d')
  end.

End Serve.

(** ** Lemmas *)

(** The static rule on the paths ["/static/"] followed by a file name. *)
Lemma is_static_path_app f : is_static_path ("/static/" +:+ f) = path_converter_ok f.
Proof. reflexivity. Qed.

(** The rules of app.py and Flask's static rule, rule by rule: the
    paths of the decorators are not static paths, so no two rules
    overlap. *)
Lemma route_spec method path :
  route method path =
    if is_static_path path then
      if bool_decide (method ∈ ["GET"; "HEAD"; "OPTIONS"]) then RouteTo EpStatic
      else RouteMethodNotAllowed
    else if String.eqb "/register" path then
      if bool_decide (method ∈ ["POST"; "OPTIONS"]) then RouteTo EpRegister
      else RouteMethodNotAllowed
    else if String.eqb "/login" path then
      if bool_decide (method ∈ ["POST"; "OPTIONS"]) then RouteTo EpLogin
      else RouteMethodNotAllowed
    else if String.eqb "/protected" path then
      if bool_decide (method ∈ ["GET"; "HEAD"; "OPTIONS"]) then RouteTo EpProtected
      else RouteMethodNotAllowed
    else RouteNotFound.
Proof.
  assert (E1 : rule_methods ["POST"] = ["POST"; "OPTIONS"]) by reflexivity.
  assert (E2 : rule_methods ["GET"] = ["GET"; "HEAD"; "OPTIONS"]) by reflexivity.
  unfold route, url_map. cbn [match_rules]. rewrite E1, E2.
  change (rule_matches (RPathVar "/static/") path) with (is_static_path path). cbn [rule_matches].
  destruct (String.eqb "/register" path) eqn:H1;
    [apply String.eqb_eq in H1 as <-; cbn; by destruct (bool_decide _)|].
  destruct (String.eqb "/login" path) eqn:H2;
    [apply String.eqb_eq in H2 as <-; cbn; by destruct (bool_decide _)|].
  destruct (String.eqb "/protected" path) eqn:H3;
    [apply String.eqb_eq in H3 as <-; cbn; by destruct (bool_decide _)|].
  cbn. by destruct (is_static_path path), (bool_decide _).
Qed.

(** ** Properties *)

Section Properties.
Context `{Kdf} `{Base64Url} `{JsonCodec} `{Hmac}.

(** (C5) The three decorators route to the handlers: a [POST] (in any
    letter case) to ["/register"] or ["/login"] and a [GET] to
    ["/protected"] run the view function, and a [HEAD] to
    ["/protected"] runs it too and answers its status without a body. *)
Theorem serve_dispatch salt now_us m auth b d :
  (py_upper m = "POST" ->
     serve salt now_us (mk_http_request m "/register" auth b) d = handle (PostRegister b salt) d) /\
  (py_upper m = "POST" ->
     serve salt now_us (mk_http_request m "/login" auth b) d = handle (PostLogin b now_us) d) /\
  (py_upper m = "GET" ->
     serve salt now_us (mk_http_request m "/protected" auth b) d =
       handle (GetProtected auth now_us) d) /\
  (py_upper m = "HEAD" ->
     serve salt now_us (mk_http_request m "/protected" auth b) d =
       (strip_body (fst (protected now_us auth d)), d)).
Proof.
  unfold serve. cbn [req_method req_path req_body req_authorization].
  pose proof (protected_db now_us auth d) as Hd.
  split_and!; intros ->; rewrite route_spec; cbn -[bool_decide];
    rewrite bool_decide_eq_true_2 by set_solver; cbn;
    [destruct (register _ _ _)|destruct (login _ _ _)|destruct (protected _ _ _)..];
    by subst.
Qed.

(** (C22) Requests no view function of app.py serves: a path of no
    rule gets 404; a method the rule does not accept gets 405, on the
    rules of app.py and on Flask's ["/static/<path:filename>"] alike;
    [OPTIONS] on any rule gets Flask's automatic 200; a [GET] or [HEAD]
    of a static file gets 404, the repository having no [static]
    folder.  None of them touches the file or reaches the handlers. *)
Theorem serve_without_view salt now_us r d :
  (is_static_path (req_path r) = false -> req_path r ∉ ["/register"; "/login"; "/protected"] ->
     serve salt now_us r d = (mk_response 404 None, d)) /\
  (req_path r ∈ ["/register"; "/login"] -> py_upper (req_method r) ∉ ["POST"; "OPTIONS"] ->
     serve salt now_us r d = (mk_response 405 None, d)) /\
  (req_path r = "/protected" -> py_upper (req_method r) ∉ ["GET"; "HEAD"; "OPTIONS"] ->
     serve salt now_us r d = (mk_response 405 None, d)) /\
  (forall f, req_path r = "/static/" +:+ f -> path_converter_ok f = true ->
     (py_upper (req_method r) ∉ ["GET"; "HEAD"; "OPTIONS"] ->
        serve salt now_us r d = (mk_response 405 None, d)) /\
     (py_upper (req_method r) ∈ ["GET"; "HEAD"] ->
        serve salt now_us r d = (mk_response 404 None, d))) /\
  ((req_path r ∈ ["/register"; "/login"; "/protected"] \/ is_static_path (req_path r) = true) ->
     py_upper (req_method r) = "OPTIONS" -> serve salt now_us r d = (mk_response 200 None, d)).
Proof.
  unfold serve. rewrite route_spec.
  destruct r as [m p auth b]; cbn [req_method req_path req_body req_authorization].
  split_and!.
  - intros Hs Hp. rewrite Hs.
    destruct (String.eqb_spec "/register" p); [subst; set_solver|].
    destruct (String.eqb_spec "/login" p); [subst; set_solver|].
    destruct (String.eqb_spec "/protected" p); [subst; set_solver|]. done.
  - intros Hp Hm.
    destruct (decide (p = "/register")) as [->|?];
      [|assert (p = "/login") as -> by set_solver];
      cbn -[bool_decide]; by rewrite bool_decide_eq_false_2.
  - intros -> Hm. cbn -[bool_decide]. by rewrite bool_decide_eq_false_2.
  - intros f -> Hf. rewrite is_static_path_app, Hf. split.
    + intros Hm. by rewrite bool_decide_eq_false_2.
    + intros Hm. rewrite bool_decide_eq_true_2 by set_solver.
      destruct (decide (py_upper m = "GET")) as [->|?];
        [|assert (py_upper m = "HEAD") as -> by set_solver]; done.
  - intros [Hp|Hs] ->.
    + destruct (decide (p = "/register")) as [->|?]; [done|].
      destruct (decide (p = "/login")) as [->|?]; [done|].
      assert (p = "/protected") as -> by set_solver. done.
    + by rewrite Hs.
Qed.

End Properties.

End Routing.
