(* ===== verification/Concurrent.v ===== *)
(** * Concurrent registrations

    Flask serves requests on several threads, each [register] with its
    own [sqlite3] connection to users.db.  A registration touches the
    file in two statements (app.py lines 21-23): the [INSERT], which in
    Python's default transaction mode opens a transaction and takes
    SQLite's single write lock, and the [commit()], which publishes the
    row and releases the lock.  While one connection holds the lock,
    another's [INSERT] waits; if the lock is not released within the
    connection's timeout it raises [OperationalError: database is
    locked], which the bare [except:] answers with 400.  A failed
    statement, and the end of the handler, leave nothing behind.

    [cstate] is the file (the committed table and the holder of the
    write lock) with the registrations in flight, each past lines 15-19
    ([register_input] and [get_db] done, the table existing); [cstep]
    is one statement of one of them, in any order.  The theorems:
    the table stays well formed and no username is registered twice
    under every interleaving, no interleaving gets stuck, every request
    can be answered without any lock timeout ([cstep_unlocked]: while a
    transaction holds the lock, its own commit comes next), and a
    registration running alone behaves as [App.register_store]. *)

From stdpp Require Import relations.
From S2P Require Import Prelude Json Digest Hasher Store Jwt App.

Module Concurrent.
Import Store App.

(** A registration in flight. *)
Inductive reg_thread : Type :=
  | RReady (username : json) (password_hash : string)  (** at line 21 *)
  | RInserted (username : json) (t' : users_table)     (** at line 23: the INSERT done, uncommitted *)
  | RDone (username : json) (resp : response).         (** answered *)

Record cstate : Type := mk_cstate {
  committed : users_table;   (** the table as the file holds it *)
  writer : option nat;       (** the request whose transaction holds the write lock *)
  threads : list reg_thread
}.

Definition duplicate_response : response := jsonify 400 "error" ERR_USER_EXISTS.
Definition created_response : response := jsonify 200 "message" MSG_USER_CREATED.

(** One statement of request [i]. *)
Inductive cstep : cstate -> cstate -> Prop :=
  (** binding the username raises before any lock is taken *)
  | cstep_bind_error s i u h e :
      threads s !! i = Some (RReady u h) -> bind_text u = Err e ->
      cstep s (mk_cstate (committed s) (writer s)
                 (<[i := RDone u duplicate_response]> (threads s)))
  (** the INSERT succeeds and takes the write lock *)
  | cstep_insert s i u u' h t' :
      threads s !! i = Some (RReady u h) -> bind_text u = Ok u' -> writer s = None ->
      insert_user u' (Some h) (committed s) = Ok t' ->
      cstep s (mk_cstate (committed s) (Some i) (<[i := RInserted u t']> (threads s)))
  (** the INSERT fails (UNIQUE, SQLITE_FULL) and changes nothing *)
  | cstep_insert_error s i u u' h e :
      threads s !! i = Some (RReady u h) -> bind_text u = Ok u' -> writer s = None ->
      insert_user u' (Some h) (committed s) = Err e ->
      cstep s (mk_cstate (committed s) None (<[i := RDone u duplicate_response]> (threads s)))
  (** another transaction holds the lock past the timeout: "database is locked" *)
  | cstep_locked s i j u u' h :
      threads s !! i = Some (RReady u h) -> bind_text u = Ok u' -> writer s = Some j ->
      i <> j ->
      cstep s (mk_cstate (committed s) (writer s)
                 (<[i := RDone u duplicate_response]> (threads s)))
  (** [commit()] publishes the row and releases the lock *)
  | cstep_commit s i u t' :
      threads s !! i = Some (RInserted u t') ->
      cstep s (mk_cstate t' None (<[i := RDone u created_response]> (threads s))).

(** The requests [jobs] (username, digest) arriving at the table [t]. *)
Definition cinit (t : users_table) (jobs : list (json * string)) : cstate :=
  mk_cstate t None ((fun '(u, h) => RReady u h) <$> jobs).

Definition creachable (t : users_table) (jobs : list (json * string)) : cstate -> Prop :=
  rtc cstep (cinit t jobs).

(** Request [i] was answered 200 for the username [x]. *)
Definition succeeded (s : cstate) (x : string) (i : nat) : Prop :=
  exists u, threads s !! i = Some (RDone u created_response) /\ bind_text u = Ok (Some x).

(** Every request is answered. *)
Definition is_done (th : reg_thread) : bool :=
  match th with RDone _ _ => true | _ => false end.

Definition all_done (s : cstate) : Prop := Forall (fun th => is_done th = true) (threads s).

(** The statements request [i] still has to run: 2, 1 or 0. *)
Definition pending (th : reg_thread) : nat :=
  match th with
  | RReady _ _ => 2
  | RInserted _ _ => 1
  | RDone _ _ => 0
  end.

Definition cmeasure (s : cstate) : nat := sum_list (map pending (threads s)).

(** A step that makes no request wait for the write lock: while a
    transaction holds it, only that request moves (its [commit()]). *)
Definition cstep_unlocked (s s' : cstate) : Prop :=
  cstep s s' /\
  match writer s with
  | Some j => threads s' !! j <> threads s !! j
  | None => True
  end.

(** The invariant of the file under concurrent registrations. *)
Record cinv (t0 : users_table) (s : cstate) : Prop := {
  cinv_wf : table_wf (committed s);
  cinv_prefix : exists new, rows (committed s) = rows t0 ++ new;
  cinv_writer : forall i, writer s = Some i ->
    exists u u' p t', threads s !! i = Some (RInserted u t') /\ bind_text u = Ok u' /\
      insert_user u' p (committed s) = Ok t';
  cinv_inserted : forall i u t', threads s !! i = Some (RInserted u t') -> writer s = Some i;
  cinv_taken : forall x i, succeeded s x i ->
    username_taken x (rows (committed s)) = true /\ username_taken x (rows t0) = false;
  cinv_unique : forall x i j, succeeded s x i -> succeeded s x j -> i = j
}.

(** ** Lemmas *)

Lemma username_taken_app x rs1 rs2 :
  username_taken x (rs1 ++ rs2) = username_taken x rs1 || username_taken x rs2.
Proof. apply existsb_app. Qed.

Lemma duplicate_not_created : duplicate_response <> created_response.
Proof. discriminate. Qed.

(** What [succeeded] says after request [i] moved to [th]. *)
Lemma succeeded_insert c w l i th x j :
  succeeded (mk_cstate c w (<[i := th]> l)) x j ->
  (i = j /\ exists u, th = RDone u created_response /\ bind_text u = Ok (Some x)) \/
  (i <> j /\ exists u, l !! j = Some (RDone u created_response) /\ bind_text u = Ok (Some x)).
Proof.
  intros (u&Hj&Hb). simpl in Hj.
  apply list_lookup_insert_Some in Hj as [(<-&->&_)|(?&?)]; [left|right]; eauto.
Qed.

Lemma succeeded_insert_other s c' w' i th x j :
  (forall u, th <> RDone u created_response) ->
  succeeded (mk_cstate c' w' (<[i := th]> (threads s))) x j -> succeeded s x j.
Proof.
  intros Hth [(_&u&->&_)|(_&u&?&?)]%succeeded_insert; [by destruct (Hth u)|].
  by exists u.
Qed.

Lemma sum_list_insert (f : reg_thread -> nat) l i x y :
  l !! i = Some y -> sum_list (map f (<[i := x]> l)) + f y = sum_list (map f l) + f x.
Proof.
  revert i; induction l as [|z l IH]; intros [|i] Hi; simplify_eq/=; [lia|].
  specialize (IH i Hi). lia.
Qed.

(** Request [i] answered 400 without touching the file. *)
Lemma cinv_answer t0 s i u h :
  cinv t0 s -> threads s !! i = Some (RReady u h) ->
  cinv t0 (mk_cstate (committed s) (writer s) (<[i := RDone u duplicate_response]> (threads s))).
Proof.
  intros [Hwf Hpre Hw Hins Htk Hun] Hi.
  assert (Hother : forall u', RDone u duplicate_response <> RDone u' created_response)
    by (intros u' [= _ ?]; by apply duplicate_not_created).
  split; simpl; [done|done| | | |].
  - intros j Hj. destruct (Hw j Hj) as (u1&u1'&p&t'&Hl&Hb&Hin).
    exists u1, u1', p, t'. split_and!; [|done|done].
    rewrite list_lookup_insert_ne; [done|]. intros ->. congruence.
  - intros j u1 t' Hj. apply list_lookup_insert_Some in Hj as [(_&[=]&_)|(_&Hj)]. eauto.
  - intros x j Hs. apply (Htk x j). by eapply succeeded_insert_other.
  - intros x j k H1 H2. eapply Hun; eapply succeeded_insert_other; eauto.
Qed.

(** Request [i]'s INSERT succeeded and it took the lock. *)
Lemma cinv_insert t0 s i u u' h t' :
  cinv t0 s -> threads s !! i = Some (RReady u h) -> bind_text u = Ok u' -> writer s = None ->
  insert_user u' (Some h) (committed s) = Ok t' ->
  cinv t0 (mk_cstate (committed s) (Some i) (<[i := RInserted u t']> (threads s))).
Proof.
  intros [Hwf Hpre Hw Hins Htk Hun] Hi Hb Hnone Hin.
  assert (Hother : forall u1, RInserted u t' <> RDone u1 created_response) by done.
  split; simpl; [done|done| | | |].
  - intros j [= <-]. exists u, u', (Some h), t'. split_and!; [|done|done].
    apply list_lookup_insert_eq. by eapply lookup_lt_Some.
  - intros j u1 t1 Hj. apply list_lookup_insert_Some in Hj as [(->&_&_)|(_&Hj)]; [done|].
    apply Hins in Hj. congruence.
  - intros x j Hs. apply (Htk x j). by eapply succeeded_insert_other.
  - intros x j k H1 H2. eapply Hun; eapply succeeded_insert_other; eauto.
Qed.

(** Request [i] committed its row and released the lock. *)
Lemma cinv_commit t0 s i u t' :
  cinv t0 s -> threads s !! i = Some (RInserted u t') ->
  cinv t0 (mk_cstate t' None (<[i := RDone u created_response]> (threads s))).
Proof.
  intros [Hwf Hpre Hw Hins Htk Hun] Hi.
  pose proof (Hins _ _ _ Hi) as Hwi.
  destruct (Hw i Hwi) as (u1&u1'&p&t1&Hi1&Hb&Hin). rewrite Hi in Hi1. injection Hi1 as <- <-.
  pose proof (insert_user_wf _ _ _ _ Hwf Hin) as Hwf'.
  apply insert_user_ok in Hin as (->&_&Hfresh). destruct Hpre as [new Hpre].
  (* the username committed now was free, in the file and in [t0] *)
  assert (Hnew : forall x, bind_text u = Ok (Some x) ->
            username_taken x (rows (committed s)) = false /\ username_taken x (rows t0) = false).
  { intros x Hx. rewrite Hb in Hx. simplify_eq. specialize (Hfresh x eq_refl).
    split; [done|]. rewrite Hpre, username_taken_app in Hfresh.
    by apply orb_false_iff in Hfresh as [-> _]. }
  split; simpl; [done| |done| | |].
  - exists (new ++ [mk_row (Z.max (seq (committed s)) (max_rowid (rows (committed s))) + 1) u1' p]).
    by rewrite Hpre, app_assoc.
  - intros j u2 t2 Hj. apply list_lookup_insert_Some in Hj as [(_&[=]&_)|(?&Hj)].
    apply Hins in Hj. congruence.
  - intros x j [(<-&u2&[= <-]&Hx)|(?&u2&Hj&Hx)]%succeeded_insert.
    + rewrite username_taken_app. split; [|by apply Hnew].
      rewrite Hb in Hx. simplify_eq. unfold username_taken, has_username. simpl.
      rewrite bool_decide_true by done. apply orb_true_r.
    + destruct (Htk x j) as [Ht Ht0]; [by exists u2|].
      by rewrite username_taken_app, Ht.
  - intros x j k [(<-&u2&[= <-]&Hx)|(?&u2&Hj&Hx)]%succeeded_insert
      [(<-&u3&[= <-]&Hx')|(?&u3&Hk&Hx')]%succeeded_insert; [done| | |].
    + destruct (Htk x k) as [Ht _]; [by exists u3|]. by rewrite (proj1 (Hnew x Hx)) in Ht.
    + destruct (Htk x j) as [Ht _]; [by exists u2|]. by rewrite (proj1 (Hnew x Hx')) in Ht.
    + eapply Hun; [exists u2|exists u3]; eauto.
Qed.

Lemma cinv_step t0 s s' : cinv t0 s -> cstep s s' -> cinv t0 s'.
Proof.
  intros Hinv Hstep. destruct Hstep as [s i u h e Hi _|s i u u' h t' Hi Hb Hw Hin|
    s i u u' h e Hi _ Hw _|s i j u u' h Hi _ _ _|s i u t' Hi].
  - by eapply cinv_answer.
  - by eapply cinv_insert.
  - rewrite <- Hw. by eapply cinv_answer.
  - by eapply cinv_answer.
  - by eapply cinv_commit.
Qed.

Lemma cinv_rtc t0 s s' : cinv t0 s -> rtc cstep s s' -> cinv t0 s'.
Proof. intros Hinv Hrtc. induction Hrtc; eauto using cinv_step. Qed.

Lemma cinit_ready t jobs i th :
  threads (cinit t jobs) !! i = Some th -> exists u h, th = RReady u h.
Proof. simpl. intros ([u h]&->&_)%list_lookup_fmap_Some. eauto. Qed.

Lemma cinv_init t jobs : table_wf t -> cinv t (cinit t jobs).
Proof.
  intros Hwf. split; [done|exists []; by rewrite app_nil_r|done| | |].
  - intros i u t' (?&?&[=])%cinit_ready.
  - intros x i (u&(?&?&[=])%cinit_ready&_).
  - intros x i j (u&(?&?&[=])%cinit_ready&_).
Qed.

Lemma cstep_measure s s' : cstep s s' -> cmeasure s' < cmeasure s.
Proof.
  unfold cmeasure. destruct 1 as [s i u h e Hi|s i u u' h t' Hi|s i u u' h e Hi|
    s i j u u' h Hi|s i u t' Hi]; simpl;
    match goal with |- context [<[i := ?x]> _] =>
      pose proof (sum_list_insert pending _ i x _ Hi) as E end; simpl in E; lia.
Qed.

(** A state where some request is unanswered can take a step. *)
Lemma cstep_progress t0 s : cinv t0 s -> ~ all_done s -> exists s', cstep s s'.
Proof.
  intros Hinv Hnd. unfold all_done in Hnd. apply not_Forall_Exists in Hnd; [|intros ?; apply _].
  apply Exists_exists in Hnd as (th&Hin&Hth). apply list_elem_of_lookup_1 in Hin as [i Hi].
  destruct th as [u h|u t'|u r]; [|by eexists; eapply cstep_commit|by destruct Hth].
  destruct (bind_text u) as [u'|e] eqn:Hb; [|by eexists; eapply cstep_bind_error].
  destruct (writer s) as [j|] eqn:Hw.
  - destruct (decide (i = j)) as [->|Hne].
    + destruct (cinv_writer _ _ Hinv j Hw) as (?&?&?&?&Hj&_). congruence.
    + eexists. by eapply cstep_locked.
  - destruct (insert_user u' (Some h) (committed s)) as [t'|e] eqn:Hin;
      eexists; [eapply cstep_insert|eapply cstep_insert_error]; eauto.
Qed.

(** The same without lock timeouts: the holder of the lock can always
    commit, and with the lock free a ready request can run its INSERT. *)
Lemma cstep_unlocked_progress t0 s : cinv t0 s -> ~ all_done s -> exists s', cstep_unlocked s s'.
Proof.
  intros Hinv Hnd. destruct (writer s) as [j|] eqn:Hw.
  - destruct (cinv_writer _ _ Hinv j Hw) as (u&u'&p&t'&Hj&_).
    eexists. split; [by eapply cstep_commit|]. rewrite Hw. cbn.
    rewrite list_lookup_insert_eq, Hj; [done|]. by eapply lookup_lt_Some.
  - unfold all_done in Hnd. apply not_Forall_Exists in Hnd; [|intros ?; apply _].
    apply Exists_exists in Hnd as (th&Hin&Hth). apply list_elem_of_lookup_1 in Hin as [i Hi].
    destruct th as [u h|u t'|u r]; [|by rewrite (cinv_inserted _ _ Hinv i u t' Hi) in Hw|by destruct Hth].
    destruct (bind_text u) as [u'|e] eqn:Hb.
    + destruct (insert_user u' (Some h) (committed s)) as [t'|e] eqn:Hins;
        eexists; (split; [|by rewrite Hw]); [eapply cstep_insert|eapply cstep_insert_error]; eauto.
    + eexists. split; [by eapply cstep_bind_error|by rewrite Hw].
Qed.

(** ** Properties *)

(** (C4) No username is registered twice, under any interleaving of
    concurrent registrations: in every state they can reach from a
    well-formed table, the table stays well formed, at most one request
    is answered 200 for a given username, and a username answered 200
    was free before and is in the table now. *)
Theorem concurrent_unique t jobs s :
  table_wf t -> creachable t jobs s ->
  table_wf (committed s) /\
  (forall x i j, succeeded s x i -> succeeded s x j -> i = j) /\
  (forall x i, succeeded s x i ->
     username_taken x (rows t) = false /\ username_taken x (rows (committed s)) = true).
Proof.
  intros Hwf Hr. pose proof (cinv_rtc _ _ _ (cinv_init t jobs Hwf) Hr) as Hinv.
  split_and!; [apply Hinv|apply Hinv|].
  intros x i Hs. destruct (cinv_taken _ _ Hinv x i Hs). done.
Qed.

(** (C17) Liveness without lock timeouts: from every state concurrent
    registrations can reach, every request can be answered by a
    schedule in which no request waits for SQLite's write lock: while a
    transaction holds it, its own [commit()] comes next and releases
    it, so the busy timeout is never needed. *)
Theorem concurrent_all_answered t jobs s :
  table_wf t -> creachable t jobs s -> exists s', rtc cstep_unlocked s s' /\ all_done s'.
Proof.
  intros Hwf Hr. pose proof (cinv_rtc _ _ _ (cinv_init t jobs Hwf) Hr) as Hinv.
  clear Hr. remember (cmeasure s) as n eqn:Hn. revert s Hinv Hn.
  induction n as [n IH] using lt_wf_ind. intros s Hinv ->.
  destruct (decide (all_done s)) as [|Hnd]; [by exists s|].
  destruct (cstep_unlocked_progress t s Hinv Hnd) as [s1 [Hs1 Hu]].
  destruct (IH _ (cstep_measure _ _ Hs1) s1 (cinv_step _ _ _ Hinv Hs1) eq_refl) as (s2&?&?).
  exists s2. split; [by eapply rtc_l|done].
Qed.

(** (C18) A registration that runs while no other holds the lock
    behaves as the sequential model: its INSERT and commit answer what
    [register_store] answers and leave the table [register_store]
    leaves. *)
Theorem concurrent_serial_register s i u h :
  threads s !! i = Some (RReady u h) -> writer s = None ->
  exists s', rtc cstep s s' /\ writer s' = None /\
    threads s' !! i = Some (RDone u (fst (register_store u h (Some (committed s))))) /\
    Some (committed s') = snd (register_store u h (Some (committed s))).
Proof.
  intros Hi Hw. pose proof (lookup_lt_Some _ _ _ Hi) as Hlt.
  unfold register_store. cbn [get_db].
  destruct (bind_text u) as [u'|e] eqn:Hb.
  - destruct (insert_user u' (Some h) (committed s)) as [t'|e] eqn:Hin.
    + eexists. split.
      * eapply rtc_l; [by eapply cstep_insert|].
        eapply rtc_l; [eapply cstep_commit; simpl; by apply list_lookup_insert_eq|].
        apply rtc_refl.
      * simpl. split_and!; [done| |done].
        rewrite list_insert_insert_eq. by apply list_lookup_insert_eq.
    + eexists. split; [eapply rtc_l; [by eapply cstep_insert_error|]; apply rtc_refl|].
      simpl. split_and!; [done| |done]. by apply list_lookup_insert_eq.
  - eexists. split; [eapply rtc_l; [by eapply cstep_bind_error|]; apply rtc_refl|].
    simpl. split_and!; [done| |done]. by apply list_lookup_insert_eq.
Qed.

(** (C29) A registration that loses the race for the write lock is
    told its username exists: with two concurrent registrations of two
    different free usernames, the second can time out while the first
    holds the lock, and is answered 400 ["Usuário já existe"] although
    its username is in no row of the table when every request has been
    answered. *)
Theorem concurrent_locked_reported_duplicate t a b h1 h2 :
  table_wf t -> (seq t < MAX_ROWID)%Z -> a <> b ->
  username_taken a (rows t) = false -> username_taken b (rows t) = false ->
  exists s, creachable t [(JStr a, h1); (JStr b, h2)] s /\ all_done s /\
    threads s !! 1 = Some (RDone (JStr b) duplicate_response) /\
    username_taken b (rows (committed s)) = false.
Proof.
  intros Hwf Hlt Hab Ha Hb.
  destruct (insert_user_fresh a (Some h1) t Hwf Hlt Ha) as (t'&Hins&Hrows).
  exists (mk_cstate t' None [RDone (JStr a) created_response; RDone (JStr b) duplicate_response]).
  split_and!.
  - eapply rtc_l; [by eapply (cstep_insert _ 0)|].
    eapply rtc_l; [by eapply (cstep_locked _ 1 0)|].
    eapply rtc_l; [by eapply (cstep_commit _ 0)|]. apply rtc_refl.
  - repeat constructor.
  - done.
  - simpl. rewrite Hrows, username_taken_app, Hb. unfold username_taken, has_username. simpl.
    rewrite bool_decide_false by congruence. done.
Qed.

End Concurrent.
