(* ===== verification/Base64.v ===== *)
(** * base64url: PyJWT's [base64url_encode] / [base64url_decode]

    [base64.urlsafe_b64encode(b).replace(b"=", b"")] and its inverse
    (the padding put back, then [urlsafe_b64decode]), as CPython's
    [binascii] computes them: the bytes of a group are shifted into an
    accumulator ([leftchar = (leftchar << 8) | byte]) and read out six
    bits at a time, and back.  Library code, modelled from the
    specification; characters outside the alphabet are rejected, where
    Python's non-strict decoder skips them.  This is the [Base64Url]
    instance the examples evaluate with, and its laws are proved here. *)

From S2P Require Import Prelude Jwt.

Module Base64.

Definition ALPHABET : string :=
  "ABCDEFGHIJKLMNOPQRSTUVWXYZabcdefghijklmnopqrstuvwxyz0123456789-_".

(** The character for the low six bits of [v]. *)
Definition b64_char (v : Z) : ascii :=
  match String.get (Z.to_nat (Z.land v 63)) ALPHABET with
  | Some c => c
  | None => "A"%char
  end.

(** The six-bit value of an alphabet character. *)
Definition b64_index (c : ascii) : option Z :=
  let n := Z.of_N (N_of_ascii c) in
  if (65 <=? n)%Z && (n <=? 90)%Z then Some (n - 65)%Z          (* A-Z *)
  else if (97 <=? n)%Z && (n <=? 122)%Z then Some (n - 71)%Z    (* a-z *)
  else if (48 <=? n)%Z && (n <=? 57)%Z then Some (n + 4)%Z      (* 0-9 *)
  else if (n =? 45)%Z then Some 62%Z                            (* - *)
  else if (n =? 95)%Z then Some 63%Z                            (* _ *)
  else None.

Fixpoint base64url_encode (bs : list Z) : string :=
  match bs with
  | a :: b :: c :: rest =>
      let n := Z.lor (Z.shiftl (Z.lor (Z.shiftl a 8) b) 8) c in
      String (b64_char (Z.shiftr n 18)) (String (b64_char (Z.shiftr n 12))
        (String (b64_char (Z.shiftr n 6)) (String (b64_char n) (base64url_encode rest))))
  | [a; b] =>
      let n := Z.lor (Z.shiftl a 8) b in
      String (b64_char (Z.shiftr n 10)) (String (b64_char (Z.shiftr n 4))
        (String (b64_char (Z.shiftl n 2)) EmptyString))
  | [a] =>
      String (b64_char (Z.shiftr a 2)) (String (b64_char (Z.shiftl a 4)) EmptyString)
  | [] => EmptyString
  end.

Fixpoint base64url_decode (s : string) : option (list Z) :=
  match s with
  | EmptyString => Some []
  | String c1 EmptyString => None          (* one character past a group *)
  | String c1 (String c2 EmptyString) =>
      i1 ← b64_index c1; i2 ← b64_index c2;
      let m := Z.lor (Z.shiftl i1 6) i2 in
      Some [Z.land (Z.shiftr m 4) 255]
  | String c1 (String c2 (String c3 EmptyString)) =>
      i1 ← b64_index c1; i2 ← b64_index c2; i3 ← b64_index c3;
      let m := Z.lor (Z.shiftl (Z.lor (Z.shiftl i1 6) i2) 6) i3 in
      Some [Z.land (Z.shiftr m 10) 255; Z.land (Z.shiftr m 2) 255]
  | String c1 (String c2 (String c3 (String c4 rest))) =>
      i1 ← b64_index c1; i2 ← b64_index c2; i3 ← b64_index c3; i4 ← b64_index c4;
      let m := Z.lor (Z.shiftl (Z.lor (Z.shiftl (Z.lor (Z.shiftl i1 6) i2) 6) i3) 6) i4 in
      tail ← base64url_decode rest;
      Some (Z.land (Z.shiftr m 16) 255 :: Z.land (Z.shiftr m 8) 255 :: Z.land m 255 :: tail)
  end.

(** ** Lemmas *)

Lemma lor_shiftl_add a k y :
  (0 <= k)%Z -> (0 <= y < 2 ^ k)%Z -> Z.lor (Z.shiftl a k) y = (a * 2 ^ k + y)%Z.
Proof.
  intros Hk Hy.
  assert (Hland : Z.land (Z.shiftl a k) y = 0%Z).
  { apply Z.bits_inj_0. intros i. rewrite Z.land_spec.
    destruct (Z.lt_ge_cases i 0) as [Hi|Hi]; [by rewrite Z.testbit_neg_r|].
    destruct (Z.lt_ge_cases i k) as [Hik|Hik].
    - by rewrite Z.shiftl_spec_low.
    - rewrite <- (Z.mod_small y (2 ^ k)) by lia.
      rewrite Z.mod_pow2_bits_high by lia. apply andb_false_r. }
  pose proof (Z.add_lor_land (Z.shiftl a k) y) as E.
  rewrite Hland, Z.add_0_r in E. rewrite E. by rewrite Z.shiftl_mul_pow2.
Qed.

Lemma land_255 x : Z.land x 255 = (x mod 256)%Z.
Proof. change 255%Z with (Z.ones 8). by rewrite Z.land_ones. Qed.

Lemma b64_char_mod v : b64_char v = b64_char (v mod 64).
Proof.
  unfold b64_char. change 63%Z with (Z.ones 6). rewrite !Z.land_ones by lia.
  by rewrite Z.mod_mod.
Qed.

Lemma b64_table_index :
  forallb (fun n => bool_decide (b64_index (b64_char (Z.of_nat n)) = Some (Z.of_nat n)))
    (seq 0 64) = true.
Proof. vm_compute. reflexivity. Qed.

Lemma b64_table_no_dot :
  forallb (fun n => negb (Ascii.eqb (b64_char (Z.of_nat n)) ".")) (seq 0 64) = true.
Proof. vm_compute. reflexivity. Qed.

Lemma mod64_seq v : In (Z.to_nat (v mod 64)) (seq 0 64) /\ Z.of_nat (Z.to_nat (v mod 64)) = (v mod 64)%Z.
Proof.
  pose proof (Z.mod_pos_bound v 64 ltac:(lia)). rewrite in_seq. lia.
Qed.

Lemma b64_index_char v : b64_index (b64_char v) = Some (v mod 64)%Z.
Proof.
  rewrite b64_char_mod. destruct (mod64_seq v) as [Hin Heq].
  pose proof (proj1 (forallb_forall _ _) b64_table_index _ Hin) as H.
  cbv beta in H. rewrite Heq in H. by apply bool_decide_eq_true_1 in H.
Qed.

Lemma b64_char_not_dot v : Ascii.eqb (b64_char v) "." = false.
Proof.
  rewrite b64_char_mod. destruct (mod64_seq v) as [Hin Heq].
  pose proof (proj1 (forallb_forall _ _) b64_table_no_dot _ Hin) as H.
  cbv beta in H. rewrite Heq in H. by apply negb_true_iff in H.
Qed.

Arguments b64_char : simpl never.
Arguments b64_index : simpl never.

(** Six-bit groups read back into the 24-bit accumulator. *)
Lemma recon24 n : (0 <= n < 2 ^ 24)%Z ->
  (((((n / 2 ^ 18) mod 64 * 2 ^ 6 + (n / 2 ^ 12) mod 64) * 2 ^ 6 + (n / 2 ^ 6) mod 64) * 2 ^ 6
   + n mod 64) = n)%Z.
Proof. intros. simpl in *. Z.div_mod_to_equations. lia. Qed.

(** The bit operations of one group, as arithmetic. *)
Ltac b64_arith :=
  repeat rewrite lor_shiftl_add by (simpl; Z.div_mod_to_equations; lia);
  rewrite ?land_255, ?Z.shiftr_div_pow2, ?Z.shiftl_mul_pow2 by lia;
  rewrite ?recon24 by (simpl; lia); simpl;
  Z.div_mod_to_equations; lia.

Lemma decode_encode_group a b c rest :
  is_byte a -> is_byte b -> is_byte c ->
  base64url_decode (base64url_encode (a :: b :: c :: rest)) =
    (base64url_decode (base64url_encode rest) ≫= fun tail => Some (a :: b :: c :: tail)).
Proof.
  unfold is_byte. intros. cbn [base64url_encode base64url_decode].
  rewrite !b64_index_char. simpl.
  destruct (base64url_decode (base64url_encode rest)); [|done]. simpl.
  do 2 f_equal; [|f_equal; [|f_equal]]; b64_arith.
Qed.

(** Decoding inverts encoding on byte strings. *)
Theorem base64url_decode_encode bs :
  Forall is_byte bs -> base64url_decode (base64url_encode bs) = Some bs.
Proof.
  induction bs as [bs IH] using (induction_ltof1 _ (@length Z)); unfold ltof in IH.
  intros Hb. destruct bs as [|a [|b [|c rest]]]; [done| | |].
  - apply Forall_cons in Hb as [Ha _]. unfold is_byte in *.
    cbn [base64url_encode base64url_decode]. rewrite !b64_index_char. simpl.
    do 2 f_equal. b64_arith.
  - apply Forall_cons in Hb as [Ha [Hb _]%Forall_cons]. unfold is_byte in *.
    cbn [base64url_encode base64url_decode]. rewrite !b64_index_char. simpl.
    do 2 f_equal; [|f_equal]; b64_arith.
  - apply Forall_cons in Hb as [Ha [Hb [Hc Hrest]%Forall_cons]%Forall_cons].
    rewrite decode_encode_group by done. rewrite IH by (simpl; lia || done). done.
Qed.

Lemma base64url_encode_no_dot bs : char_in "." (base64url_encode bs) = false.
Proof.
  induction bs as [bs IH] using (induction_ltof1 _ (@length Z)); unfold ltof in IH.
  destruct bs as [|a [|b [|c rest]]]; cbn [base64url_encode char_in];
    rewrite ?b64_char_not_dot; [done|done|done|].
  apply IH. simpl. lia.
Qed.

End Base64.

#[export] Instance base64url : Base64Url := {|
  b64_encode := Base64.base64url_encode;
  b64_decode := Base64.base64url_decode
|}.

#[export] Instance base64url_laws : Base64UrlLaws.
Proof.
  split.
  - exact Base64.base64url_decode_encode.
  - exact Base64.base64url_encode_no_dot.
Qed.
