(* ===== verification/JsonText.v ===== *)
(** * JSON text: [json.dumps] and [json.loads]

    The serialisation PyJWT applies to the header and the claims
    ([json.dumps(obj, separators=(",", ":"))], ASCII-escaped) and the
    parser its [decode] applies to them ([json.loads]).  Library code
    (the standard [json] module), modelled from its documented
    behaviour, over text as a list of bytes.  What is not modelled:
    floating-point numbers (a number with a fraction or an exponent is
    refused), [NaN]/[Infinity], escapes [\uXXXX] of a code point above
    [0xff], and the code points of non-ASCII text (each byte above
    [0x7e] is escaped on its own).  This is the [JsonCodec] instance the
    examples evaluate with, and its laws are proved here. *)

From S2P Require Import Prelude Json Jwt.

Module JsonText.
Local Open Scope char_scope.

Definition chr (n : nat) : ascii := ascii_of_nat n.

Definition hex_digit (n : nat) : ascii :=
  if Nat.ltb n 10 then chr (48 + n) else chr (87 + n).    (* 0-9, a-f *)

(** The escape of one character, as [py_encode_basestring_ascii] writes
    it: two-character escapes for the quote, the backslash and five
    control characters, [\u00xx] for the other characters outside
    [' '..'~']. *)
Definition escape_char (c : ascii) : list ascii :=
  let n := nat_of_ascii c in
  if Ascii.eqb c "034" then ["\"; "034"]
  else if Ascii.eqb c "\" then ["\"; "\"]
  else if Nat.eqb n 8 then ["\"; "b"]
  else if Nat.eqb n 12 then ["\"; "f"]
  else if Nat.eqb n 10 then ["\"; "n"]
  else if Nat.eqb n 13 then ["\"; "r"]
  else if Nat.eqb n 9 then ["\"; "t"]
  else if Nat.ltb n 32 || Nat.leb 127 n then
    ["\"; "u"; "0"; "0"; hex_digit (n / 16); hex_digit (n mod 16)]
  else [c].

Definition dump_string (s : string) : list ascii :=
  ["034"] ++ flat_map escape_char (list_ascii_of_string s) ++ ["034"].

Fixpoint dumps (j : json) : list ascii :=
  match j with
  | JNull => list_ascii_of_string "null"%string
  | JBool true => list_ascii_of_string "true"%string
  | JBool false => list_ascii_of_string "false"%string
  | JInt z => list_ascii_of_string (py_str_of_int z)
  | JStr s => dump_string s
  | JArr xs =>
      let fix items (xs : list json) : list ascii :=
        match xs with
        | [] => []
        | [x] => dumps x
        | x :: xs' => dumps x ++ [","] ++ items xs'
        end in
      ["["] ++ items xs ++ ["]"]
  | JObj fs =>
      let fix members (fs : list (string * json)) : list ascii :=
        match fs with
        | [] => []
        | [(k, v)] => dump_string k ++ [":"] ++ dumps v
        | (k, v) :: fs' => dump_string k ++ [":"] ++ dumps v ++ [","] ++ members fs'
        end in
      ["{"] ++ members fs ++ ["}"]
  end.

(** The items of a list and the members of a dict, as [dumps] writes
    them, and the fuel the scanner needs to read a value back. *)
Fixpoint dump_items (xs : list json) : list ascii :=
  match xs with
  | [] => []
  | [x] => dumps x
  | x :: xs' => dumps x ++ [","] ++ dump_items xs'
  end.

Fixpoint dump_members (fs : list (string * json)) : list ascii :=
  match fs with
  | [] => []
  | [(k, v)] => dump_string k ++ [":"] ++ dumps v
  | (k, v) :: fs' => dump_string k ++ [":"] ++ dumps v ++ [","] ++ dump_members fs'
  end.

Fixpoint json_size (j : json) : nat :=
  match j with
  | JArr xs =>
      S ((fix go (xs : list json) : nat :=
            match xs with [] => 0 | x :: xs' => S (json_size x + go xs') end) xs)
  | JObj fs =>
      S ((fix go (fs : list (string * json)) : nat :=
            match fs with [] => 0 | (_, v) :: fs' => S (json_size v + go fs') end) fs)
  | _ => 1
  end.

Fixpoint items_size (xs : list json) : nat :=
  match xs with [] => 0 | x :: xs' => S (json_size x + items_size xs') end.

Fixpoint members_size (fs : list (string * json)) : nat :=
  match fs with [] => 0 | (_, v) :: fs' => S (json_size v + members_size fs') end.

(** ** The scanner of [json.decoder] *)

Definition is_ws (c : ascii) : bool :=
  let n := nat_of_ascii c in Nat.eqb n 32 || Nat.eqb n 9 || Nat.eqb n 10 || Nat.eqb n 13.

Fixpoint skip_ws (s : list ascii) : list ascii :=
  match s with
  | c :: r => if is_ws c then skip_ws r else s
  | [] => []
  end.

Definition is_digit (c : ascii) : bool :=
  let n := nat_of_ascii c in Nat.leb 48 n && Nat.leb n 57.

Fixpoint span_digits (s : list ascii) : list ascii * list ascii :=
  match s with
  | c :: r =>
      if is_digit c then let '(ds, rest) := span_digits r in (c :: ds, rest)
      else ([], s)
  | [] => ([], [])
  end.

Definition hex_value (c : ascii) : option nat :=
  let n := nat_of_ascii c in
  if Nat.leb 48 n && Nat.leb n 57 then Some (n - 48)
  else if Nat.leb 97 n && Nat.leb n 102 then Some (n - 87)
  else if Nat.leb 65 n && Nat.leb n 70 then Some (n - 55)
  else None.

(** [py_scanstring] after the opening quote: the characters up to the
    closing quote, escapes decoded; raw control characters are
    refused. *)
Fixpoint parse_string (s : list ascii) : option (list ascii * list ascii) :=
  match s with
  | [] => None
  | "034" :: r => Some ([], r)
  | "\" :: e :: r =>
      let unescaped (c : ascii) :=
        '(str, r') ← parse_string r; Some (c :: str, r') in
      match e with
      | "034" => unescaped "034"
      | "\" => unescaped "\"
      | "/" => unescaped "/"
      | "b" => unescaped (chr 8)
      | "f" => unescaped (chr 12)
      | "n" => unescaped (chr 10)
      | "r" => unescaped (chr 13)
      | "t" => unescaped (chr 9)
      | "u" =>
          match r with
          | h1 :: h2 :: h3 :: h4 :: r' =>
              v1 ← hex_value h1; v2 ← hex_value h2; v3 ← hex_value h3; v4 ← hex_value h4;
              let v := ((v1 * 16 + v2) * 16 + v3) * 16 + v4 in
              if Nat.ltb v 256 then
                '(str, r'') ← parse_string r'; Some (chr v :: str, r'')
              else None
          | _ => None
          end
      | _ => None
      end
  | c :: r =>
      if Nat.ltb (nat_of_ascii c) 32 then None
      else '(str, r') ← parse_string r; Some (c :: str, r')
  end.

(** Whether a number continues with a fraction or an exponent. *)
Definition float_tail (rest : list ascii) : bool :=
  match rest with
  | c :: _ => Ascii.eqb c "." || Ascii.eqb c "e" || Ascii.eqb c "E"
  | [] => false
  end.

(** An integer as [NUMBER_RE] reads it: an optional minus sign, then 0
    or digits not starting with 0; a number with a fraction or an
    exponent (a [float]) is refused. *)
Definition parse_int (s : list ascii) : option (Z * list ascii) :=
  let '(sign, s1) :=
    match s with
    | c :: r => if Ascii.eqb c "-" then ([c], r) else ([], s)
    | [] => ([], [])
    end in
  let '(ds, rest) := span_digits s1 in
  match ds with
  | [] => None
  | _ =>
      if float_tail rest then None
      else
        let text := string_of_list_ascii (sign ++ ds) in
        z ← py_int_of_str text;
        if String.eqb (py_str_of_int z) text || String.eqb text "-0"%string
        then Some (z, rest) else None
  end.

(** [_scan_once]: dispatch on the next character after whitespace, in
    the order CPython tests it. *)
Fixpoint parse_value (fuel : nat) (s : list ascii) {struct fuel} : option (json * list ascii) :=
  match fuel with
  | O => None
  | S f =>
  match skip_ws s with
  | [] => None
  | c :: r =>
      if Ascii.eqb c "034" then
        '(str, r') ← parse_string r; Some (JStr (string_of_list_ascii str), r')
      else if Ascii.eqb c "{" then
        match skip_ws r with
        | c' :: r' =>
            if Ascii.eqb c' "}" then Some (JObj [], r')
            else '(fs, r'') ← parse_members f r; Some (JObj fs, r'')
        | [] => None
        end
      else if Ascii.eqb c "[" then
        match skip_ws r with
        | c' :: r' =>
            if Ascii.eqb c' "]" then Some (JArr [], r')
            else '(xs, r'') ← parse_elems f r; Some (JArr xs, r'')
        | [] => None
        end
      else if Ascii.eqb c "n" then
        match r with "u" :: "l" :: "l" :: r' => Some (JNull, r') | _ => None end
      else if Ascii.eqb c "t" then
        match r with "r" :: "u" :: "e" :: r' => Some (JBool true, r') | _ => None end
      else if Ascii.eqb c "f" then
        match r with "a" :: "l" :: "s" :: "e" :: r' => Some (JBool false, r') | _ => None end
      else '(z, r') ← parse_int (c :: r); Some (JInt z, r')
  end
  end
with parse_elems (fuel : nat) (s : list ascii) {struct fuel} : option (list json * list ascii) :=
  match fuel with
  | O => None
  | S f =>
      '(v, r) ← parse_value f s;
      match skip_ws r with
      | "," :: r' => '(vs, r'') ← parse_elems f r'; Some (v :: vs, r'')
      | "]" :: r' => Some ([v], r')
      | _ => None
      end
  end
with parse_members (fuel : nat) (s : list ascii) {struct fuel}
    : option (list (string * json) * list ascii) :=
  match fuel with
  | O => None
  | S f =>
  match skip_ws s with
  | "034" :: r =>
      '(k, r1) ← parse_string r;
      match skip_ws r1 with
      | ":" :: r2 =>
          '(v, r3) ← parse_value f r2;
          match skip_ws r3 with
          | "," :: r4 =>
              '(fs, r5) ← parse_members f r4; Some ((string_of_list_ascii k, v) :: fs, r5)
          | "}" :: r4 => Some ([(string_of_list_ascii k, v)], r4)
          | _ => None
          end
      | _ => None
      end
  | _ => None
  end
  end.

(** [json.loads(s)]: one value, surrounded by optional whitespace.  The
    scanner's fuel, one more than the length of the text, exceeds any
    nesting the text can hold. *)
Definition loads (s : list ascii) : option json :=
  '(j, r) ← parse_value (S (length s)) s;
  match skip_ws r with
  | [] => Some j
  | _ => None
  end.

(** The sign [str(z)] starts with. *)
Definition int_sign (z : Z) : list ascii := if Z.ltb z 0 then ["-"] else [].

(** What may follow a number so that it reads back whole. *)
Definition num_stop (rest : list ascii) : bool :=
  match rest with
  | c :: _ => negb (is_digit c) && negb (float_tail rest)
  | [] => true
  end.

(** ** Lemmas *)

Lemma dumps_arr xs : dumps (JArr xs) = ["["] ++ dump_items xs ++ ["]"].
Proof. reflexivity. Qed.

Lemma dumps_obj fs : dumps (JObj fs) = ["{"] ++ dump_members fs ++ ["}"].
Proof. reflexivity. Qed.

Lemma json_size_arr xs : json_size (JArr xs) = S (items_size xs).
Proof. reflexivity. Qed.

Lemma json_size_obj fs : json_size (JObj fs) = S (members_size fs).
Proof. reflexivity. Qed.

(** Every character, escaped, is read back by the string scanner. *)
Lemma parse_string_escape_char c r :
  parse_string (escape_char c ++ r) =
    '(str, r') ← parse_string r; Some (c :: str, r').
Proof. destruct c as [[] [] [] [] [] [] [] []]; reflexivity. Qed.

Lemma parse_string_dump s rest :
  parse_string (flat_map escape_char s ++ "034" :: rest) = Some (s, rest).
Proof.
  induction s as [|c s IH]; [done|]. simpl.
  rewrite <- app_assoc, parse_string_escape_char, IH. done.
Qed.

Lemma digits_uint d :
  Forall (fun c => is_digit c = true) (list_ascii_of_string (NilEmpty.string_of_uint d)).
Proof. induction d; simpl; auto. Qed.

Lemma uint_text_nonempty d :
  d <> Decimal.Nil -> list_ascii_of_string (NilEmpty.string_of_uint d) <> [].
Proof. by destruct d. Qed.

(** [str(z)] is an optional minus sign and a non-empty run of digits. *)
Lemma py_str_of_int_shape z :
  exists ds, list_ascii_of_string (py_str_of_int z) = int_sign z ++ ds /\
    ds <> [] /\ Forall (fun c => is_digit c = true) ds.
Proof.
  unfold py_str_of_int, int_sign. destruct z as [|p|p]; simpl.
  - exists ["0"]. split_and!; [done|done|repeat constructor].
  - eexists. split_and!; [done| |apply digits_uint].
    apply uint_text_nonempty, DecimalPos.Unsigned.to_uint_nonnil.
  - eexists. split_and!; [done| |apply digits_uint].
    apply uint_text_nonempty, DecimalPos.Unsigned.to_uint_nonnil.
Qed.

Lemma span_digits_app ds rest :
  Forall (fun c => is_digit c = true) ds -> num_stop rest = true ->
  span_digits (ds ++ rest) = (ds, rest).
Proof.
  intros Hds Hstop. induction Hds as [|c ds Hc Hds IH]; simpl.
  - destruct rest as [|c rest]; [done|]. simpl in Hstop.
    apply andb_prop in Hstop as [Hd _]. apply negb_true_iff in Hd. simpl. by rewrite Hd.
  - by rewrite Hc, IH.
Qed.

Lemma digit_not c x : is_digit c = true -> is_digit x = false -> Ascii.eqb c x = false.
Proof. intros Hc Hx. destruct (Ascii.eqb_spec c x) as [->|]; [congruence|done]. Qed.

Lemma float_tail_stop rest : num_stop rest = true -> float_tail rest = false.
Proof.
  destruct rest as [|c rest]; [done|]. simpl.
  intros [_ Hf]%andb_prop. by apply negb_true_iff in Hf.
Qed.

Lemma parse_int_text sign d ds rest z :
  (sign = [] \/ sign = ["-"]) ->
  Forall (fun c => is_digit c = true) (d :: ds) -> num_stop rest = true ->
  py_int_of_str (string_of_list_ascii (sign ++ d :: ds)) = Some z ->
  py_str_of_int z = string_of_list_ascii (sign ++ d :: ds) ->
  parse_int (sign ++ d :: ds ++ rest) = Some (z, rest).
Proof.
  intros Hsign Hds Hstop Hz Hs. pose proof (float_tail_stop rest Hstop) as Hf.
  assert (Hd : is_digit d = true) by (by inv_clear Hds).
  unfold parse_int.
  destruct Hsign as [-> | ->];
    cbn -[span_digits py_int_of_str py_str_of_int string_of_list_ascii float_tail];
    [rewrite (digit_not d "-") by done|];
    change (d :: ds ++ rest) with ((d :: ds) ++ rest);
    rewrite (span_digits_app (d :: ds)) by done; rewrite Hf; simpl in *;
    rewrite Hz; simpl; rewrite Hs, String.eqb_refl; done.
Qed.

Lemma parse_int_dumps z rest :
  num_stop rest = true -> parse_int (dumps (JInt z) ++ rest) = Some (z, rest).
Proof.
  intros Hstop. simpl. destruct (py_str_of_int_shape z) as (ds&Hshape&Hne&Hds).
  destruct ds as [|d ds]; [done|].
  assert (Htext : string_of_list_ascii (int_sign z ++ d :: ds) = py_str_of_int z)
    by (by rewrite <- Hshape, string_of_list_ascii_of_string).
  rewrite Hshape, <- app_assoc. simpl.
  apply parse_int_text; try done.
  - unfold int_sign. destruct (Z.ltb z 0); auto.
  - rewrite Htext. apply py_int_of_str_of_int.
Qed.

(** The first character of a number is none the scanner dispatches on
    before numbers, and is not whitespace. *)
Lemma number_head c :
  c = "-" \/ is_digit c = true ->
  is_ws c = false /\ Ascii.eqb c "034" = false /\ Ascii.eqb c "{" = false /\
  Ascii.eqb c "[" = false /\ Ascii.eqb c "n" = false /\ Ascii.eqb c "t" = false /\
  Ascii.eqb c "f" = false /\ Ascii.eqb c "]" = false /\ Ascii.eqb c "}" = false.
Proof.
  intros Hc. destruct c as [[] [] [] [] [] [] [] []];
    destruct Hc as [Hc|Hc]; try discriminate; done.
Qed.

Lemma dumps_int_head z :
  exists c t, dumps (JInt z) = c :: t /\ (c = "-" \/ is_digit c = true).
Proof.
  destruct (py_str_of_int_shape z) as (ds&Hshape&Hne&Hds). simpl. rewrite Hshape.
  unfold int_sign. destruct (Z.ltb z 0); simpl; [by eauto|].
  destruct ds as [|d ds]; [done|]. inv_clear Hds. eauto.
Qed.

(** The first character of any value is not whitespace, nor a closing
    bracket. *)
Lemma dumps_head j :
  exists c t, dumps j = c :: t /\ is_ws c = false /\
    Ascii.eqb c "]" = false /\ Ascii.eqb c "}" = false.
Proof.
  destruct j as [|[]|z|str|xs|fs]; try (do 2 eexists; split_and!; reflexivity).
  destruct (dumps_int_head z) as (c&t&->&Hc).
  destruct (number_head c Hc) as (?&_&_&_&_&_&_&?&?). exists c, t. done.
Qed.

Lemma parse_value_S f s : parse_value (S f) s =
  match skip_ws s with
  | [] => None
  | c :: r =>
      if Ascii.eqb c "034" then
        '(str, r') ← parse_string r; Some (JStr (string_of_list_ascii str), r')
      else if Ascii.eqb c "{" then
        match skip_ws r with
        | c' :: r' =>
            if Ascii.eqb c' "}" then Some (JObj [], r')
            else '(fs, r'') ← parse_members f r; Some (JObj fs, r'')
        | [] => None
        end
      else if Ascii.eqb c "[" then
        match skip_ws r with
        | c' :: r' =>
            if Ascii.eqb c' "]" then Some (JArr [], r')
            else '(xs, r'') ← parse_elems f r; Some (JArr xs, r'')
        | [] => None
        end
      else if Ascii.eqb c "n" then
        match r with "u" :: "l" :: "l" :: r' => Some (JNull, r') | _ => None end
      else if Ascii.eqb c "t" then
        match r with "r" :: "u" :: "e" :: r' => Some (JBool true, r') | _ => None end
      else if Ascii.eqb c "f" then
        match r with "a" :: "l" :: "s" :: "e" :: r' => Some (JBool false, r') | _ => None end
      else '(z, r') ← parse_int (c :: r); Some (JInt z, r')
  end.
Proof. reflexivity. Qed.

Lemma parse_elems_S f s : parse_elems (S f) s =
  '(v, r) ← parse_value f s;
  match skip_ws r with
  | "," :: r' => '(vs, r'') ← parse_elems f r'; Some (v :: vs, r'')
  | "]" :: r' => Some ([v], r')
  | _ => None
  end.
Proof. reflexivity. Qed.

Lemma parse_members_S f s : parse_members (S f) s =
  match skip_ws s with
  | "034" :: r =>
      '(k, r1) ← parse_string r;
      match skip_ws r1 with
      | ":" :: r2 =>
          '(v, r3) ← parse_value f r2;
          match skip_ws r3 with
          | "," :: r4 =>
              '(fs, r5) ← parse_members f r4; Some ((string_of_list_ascii k, v) :: fs, r5)
          | "}" :: r4 => Some ([(string_of_list_ascii k, v)], r4)
          | _ => None
          end
      | _ => None
      end
  | _ => None
  end.
Proof. reflexivity. Qed.

Lemma json_size_pos j : 1 <= json_size j.
Proof. destruct j; simpl; lia. Qed.

Lemma skip_ws_head c t : is_ws c = false -> skip_ws (c :: t) = c :: t.
Proof. intros H. simpl. by rewrite H. Qed.

(** Reading back what [dumps] wrote, by induction on the fuel, for a
    value, the items of a list and the members of a dict together. *)
Lemma parse_dumps_fuel f :
  (forall j rest, json_size j <= f -> num_stop rest = true ->
     parse_value f (dumps j ++ rest) = Some (j, rest)) /\
  (forall xs rest, xs <> [] -> items_size xs <= f ->
     parse_elems f (dump_items xs ++ "]" :: rest) = Some (xs, rest)) /\
  (forall fs rest, fs <> [] -> members_size fs <= f ->
     parse_members f (dump_members fs ++ "}" :: rest) = Some (fs, rest)).
Proof.
  induction f as [|f (IHv & IHe & IHm)].
  { split_and!.
    - intros j rest Hs. pose proof (json_size_pos j). lia.
    - intros [|x xs] rest Hne Hs; [done|]. simpl in Hs. lia.
    - intros [|[k v] fs] rest Hne Hs; [done|]. simpl in Hs. lia. }
  split_and!.
  - intros j rest Hs Hstop. destruct j as [| [] |z|str|xs|fs]; try reflexivity.
    + (* an integer *)
      destruct (dumps_int_head z) as (c&t&Ht&Hc).
      destruct (number_head c Hc) as (Hw&H1&H2&H3&H4&H5&H6&_&_).
      rewrite parse_value_S, Ht. simpl app. rewrite skip_ws_head by done.
      rewrite H1, H2, H3, H4, H5, H6.
      change (c :: t ++ rest) with ((c :: t) ++ rest). rewrite <- Ht.
      by rewrite parse_int_dumps.
    + (* a string *)
      rewrite parse_value_S. simpl. unfold dump_string. rewrite <- app_assoc. simpl.
      rewrite parse_string_dump. simpl. by rewrite string_of_list_ascii_of_string.
    + (* a list *)
      destruct xs as [|x xs]; [reflexivity|].
      rewrite json_size_arr in Hs. rewrite dumps_arr, parse_value_S.
      cbn -[dump_items dumps parse_elems].
      destruct (dumps_head x) as (c&t&Hx&Hw&Hb&_).
      assert (Hd : dump_items (x :: xs) = c :: t ++ match xs with [] => [] | _ => "," :: dump_items xs end).
      { destruct xs; simpl; rewrite Hx; [by rewrite app_nil_r|done]. }
      rewrite <- app_assoc, Hd. simpl. rewrite Hw, Hb.
      change (c :: (t ++ ?a) ++ ?b) with ((c :: t ++ a) ++ b). rewrite <- Hd.
      rewrite IHe by (done || lia). done.
    + (* a dict *)
      destruct fs as [|[k v] fs]; [reflexivity|].
      rewrite json_size_obj in Hs. rewrite dumps_obj, parse_value_S.
      assert (Hd : exists t, dump_members ((k, v) :: fs) = "034" :: t).
      { destruct fs; simpl; eexists; reflexivity. }
      destruct Hd as [t Hd].
      rewrite <- app_assoc, Hd. simpl.
      change ("034" :: (t ++ ?a) ++ ?b) with ((("034" :: t) ++ a) ++ b).
      rewrite <- Hd, <- app_assoc. cbn [app].
      rewrite IHm by (done || lia). done.
  - intros [|x xs] rest Hne Hs; [done|]. simpl in Hs.
    rewrite parse_elems_S. destruct xs as [|y ys].
    + simpl. rewrite IHv by (done || lia). done.
    + change (dump_items (x :: y :: ys)) with (dumps x ++ [","] ++ dump_items (y :: ys)).
      rewrite <- !app_assoc. set (D := dump_items (y :: ys)). simpl app.
      rewrite IHv by (done || lia). simpl. subst D.
      rewrite IHe by (done || simpl in *; lia). done.
  - intros [|[k v] fs] rest Hne Hs; [done|]. simpl in Hs.
    rewrite parse_members_S. destruct fs as [|[k' v'] fs].
    + simpl. unfold dump_string. rewrite <- !app_assoc. simpl.
      rewrite parse_string_dump. simpl. rewrite IHv by (done || lia). simpl.
      by rewrite string_of_list_ascii_of_string.
    + change (dump_members ((k, v) :: (k', v') :: fs)) with
        (dump_string k ++ [":"] ++ dumps v ++ [","] ++ dump_members ((k', v') :: fs)).
      set (D := dump_members ((k', v') :: fs)).
      unfold dump_string at 1. rewrite <- !app_assoc. simpl.
      rewrite parse_string_dump. simpl. rewrite IHv by (done || lia). simpl. subst D.
      rewrite IHm by (done || simpl in *; lia). simpl.
      by rewrite string_of_list_ascii_of_string.
Qed.

(** Induction on JSON values through the lists they contain. *)
Lemma json_ind' (P : json -> Prop) :
  P JNull -> (forall b, P (JBool b)) -> (forall z, P (JInt z)) -> (forall s, P (JStr s)) ->
  (forall xs, Forall P xs -> P (JArr xs)) ->
  (forall fs, Forall (fun kv => P (snd kv)) fs -> P (JObj fs)) ->
  forall j, P j.
Proof.
  intros Hn Hb Hi Hs Ha Ho. fix IH 1. intros [| b | z | s | xs | fs].
  - apply Hn.
  - apply Hb.
  - apply Hi.
  - apply Hs.
  - apply Ha. induction xs as [|x xs IHxs]; constructor; [apply IH | apply IHxs].
  - apply Ho. induction fs as [|[k v] fs IHfs]; constructor; [apply IH | apply IHfs].
Qed.

Lemma items_size_le xs :
  Forall (fun x => json_size x <= length (dumps x)) xs ->
  items_size xs <= S (length (dump_items xs)).
Proof.
  induction 1 as [|x xs Hx Hxs IH]; [simpl; lia|].
  destruct xs as [|y ys]; [simpl in *; lia|].
  change (dump_items (x :: y :: ys)) with (dumps x ++ [","] ++ dump_items (y :: ys)).
  change (items_size (x :: y :: ys)) with (S (json_size x + items_size (y :: ys))).
  rewrite !length_app. cbn [length]. lia.
Qed.

Lemma members_size_le fs :
  Forall (fun kv => json_size (snd kv) <= length (dumps (snd kv))) fs ->
  members_size fs <= S (length (dump_members fs)).
Proof.
  induction 1 as [|[k v] fs Hv Hfs IH]; [simpl; lia|].
  simpl in Hv. destruct fs as [|[k' v'] fs'].
  - simpl. unfold dump_string. rewrite !length_app. simpl. lia.
  - change (dump_members ((k, v) :: (k', v') :: fs')) with
      (dump_string k ++ [":"] ++ dumps v ++ [","] ++ dump_members ((k', v') :: fs')).
    change (members_size ((k, v) :: (k', v') :: fs')) with
      (S (json_size v + members_size ((k', v') :: fs'))).
    unfold dump_string. rewrite !length_app. cbn [length]. lia.
Qed.

(** The scanner never needs more fuel than the text has characters. *)
Lemma json_size_le j : json_size j <= length (dumps j).
Proof.
  induction j as [| b | z | str | xs Hxs | fs Hfs] using json_ind'.
  - simpl. lia.
  - destruct b; simpl; lia.
  - destruct (dumps_int_head z) as (c&t&->&_). simpl. lia.
  - simpl. unfold dump_string. rewrite length_app. simpl. lia.
  - rewrite json_size_arr, dumps_arr, !length_app. simpl.
    pose proof (items_size_le xs Hxs). lia.
  - rewrite json_size_obj, dumps_obj, !length_app. simpl.
    pose proof (members_size_le fs Hfs). lia.
Qed.

(** [json.loads(json.dumps(j)) == j]. *)
Theorem loads_dumps j : loads (dumps j) = Some j.
Proof.
  unfold loads. pose proof (json_size_le j).
  destruct (parse_dumps_fuel (S (length (dumps j)))) as [Hv _].
  specialize (Hv j [] ltac:(lia) eq_refl). rewrite app_nil_r in Hv.
  by rewrite Hv.
Qed.

End JsonText.

(** The JSON text as UTF-8 bytes, as PyJWT hands it to base64url. *)
#[export] Instance json_text : JsonCodec := {|
  json_dumps j := map byte_of_char (JsonText.dumps j);
  json_loads bs := JsonText.loads (map char_of_byte bs)
|}.

#[export] Instance json_text_laws : JsonCodecLaws.
Proof.
  split.
  - intros j. simpl. rewrite map_map.
    rewrite (map_ext _ id char_of_byte_of_char), map_id. apply JsonText.loads_dumps.
  - intros j. simpl. apply Forall_map, Forall_true. apply byte_of_char_range.
Qed.
