(* ===== verification/Refinement.v ===== *)
(** * The service against its contract

    [AuthSpec] is the abstract credential gate of the specification
    (sections 4.2 and 6): a finite map from usernames to passwords,
    [register] that fails on a duplicate and [login] that issues a
    token exactly for the registered password.  [Refinement] relates a
    database file to such a map and proves that the handlers of App.v
    implement the contract for requests with string credentials, step
    by step and over any sequence of requests, as long as the rowids
    are not exhausted (the one case where they differ, theorem
    [register_full_reported_as_duplicate] of App.v). *)

From stdpp Require Import gmap.
From S2P Require Import Prelude Json Digest Hasher Store Jwt App.

Module AuthSpec.

(** The accounts: username to password. *)
Abbreviation accounts := (gmap string string) (only parsing).

(** A request of the contract; a registration carries the salt the
    hasher draws, a login the time it is made. *)
Inductive areq : Type :=
  | ARegister (u p salt : string)
  | ALogin (u p : string) (now_us : Z).

(** The answers of the contract: [register -> ok | duplicate],
    [login -> token | invalid_credentials]. *)
Inductive aresp : Type :=
  | RegOk
  | RegDuplicate
  | LoginToken (u : string) (now_us : Z)
  | LoginInvalid.

Definition spec_step (r : areq) (A : accounts) : aresp * accounts :=
  match r with
  | ARegister u p _ =>
      match A !! u with
      | Some _ => (RegDuplicate, A)
      | None => (RegOk, <[u := p]> A)
      end
  | ALogin u p now_us =>
      if decide (A !! u = Some p) then (LoginToken u now_us, A) else (LoginInvalid, A)
  end.

Fixpoint spec_run (rs : list areq) (A : accounts) : list aresp * accounts :=
  match rs with
  | [] => ([], A)
  | r :: rs' =>
      let '(a, A1) := spec_step r A in
      let '(as_, A2) := spec_run rs' A1 in
      (a :: as_, A2)
  end.

End AuthSpec.

Module Refinement.
Import Store Jwt Hasher App AuthSpec.

Section Refinement.
Context `{Kdf} `{Base64Url} `{JsonCodec} `{Hmac}.

(** The HTTP request a contract request is sent as. *)
Definition conc (r : areq) : request :=
  match r with
  | ARegister u p salt => PostRegister (credentials u p) salt
  | ALogin u p now_us => PostLogin (credentials u p) now_us
  end.

(** The HTTP response a contract answer is given as. *)
Definition interp (a : aresp) : response :=
  match a with
  | RegOk => jsonify 200 "message" MSG_USER_CREATED
  | RegDuplicate => jsonify 400 "error" ERR_USER_EXISTS
  | LoginToken u now_us => login_token (JStr u) now_us
  | LoginInvalid => jsonify 401 "error" ERR_BAD_CREDENTIALS
  end.

(** The salt of a registration is one [gen_salt(16)] can draw. *)
Definition areq_ok (r : areq) : bool :=
  match r with
  | ARegister _ _ salt => gen_salt_ok 16 salt
  | ALogin _ _ _ => true
  end.

(** A digest that checks against exactly one password, and never
    raises. *)
Definition digest_of (digest p : string) : Prop :=
  forall p', check_password_hash digest p' = Some (bool_decide (p' = p)).

(** The abstraction relation: the file is well formed, an account of
    [A] is a row whose digest checks against exactly its password, and
    a username outside [A] is not in the table. *)
Definition refines (d : db) (A : accounts) : Prop :=
  db_wf d /\
  forall u, match A !! u with
            | None => username_taken u (rows (get_db d)) = false
            | Some p => exists r digest,
                select_by_username (Some u) (get_db d) = Some r /\
                row_password r = Some digest /\ digest_of digest p
            end.

(** ** Lemmas *)

Lemma refines_init : refines None ∅.
Proof. split; [done|]. intros u. by rewrite lookup_empty. Qed.

Lemma refines_get_db d A : refines d A -> refines (Some (get_db d)) A.
Proof. intros [Hwf HA]. split; [by apply get_db_wf|exact HA]. Qed.

Lemma refines_taken d A u :
  refines d A -> username_taken u (rows (get_db d)) = true -> is_Some (A !! u).
Proof.
  intros [_ HA] Ht. specialize (HA u). destruct (A !! u); [done|congruence].
Qed.

(** The file of an account is a created table. *)
Lemma refines_some d A u p : refines d A -> A !! u = Some p -> exists t, d = Some t.
Proof.
  intros [_ HA] Hu. specialize (HA u). rewrite Hu in HA.
  destruct HA as (r&_&Hsel&_). destruct d as [t|]; [eauto|done].
Qed.

Section Injective.
Context `{!KdfLaws}.
Hypothesis kdf_injective : forall m s p1 p2 h m1 m2,
  hash_internal m s p1 = Some (h, m1) -> hash_internal m s p2 = Some (h, m2) -> p1 = p2.

Lemma digest_of_generated salt p digest :
  gen_salt_ok 16 salt = true -> generate_password_hash salt p = Some digest ->
  digest_of digest p.
Proof.
  intros Hs Hg p'. destruct (decide (p' = p)) as [->|Hne].
  - rewrite bool_decide_true by done. by eapply check_generated.
  - rewrite bool_decide_false by done.
    by rewrite (check_password_hash_wrong kdf_injective salt p p' digest).
Qed.

Lemma refines_insert d A u p salt digest t' :
  refines d A -> A !! u = None -> gen_salt_ok 16 salt = true ->
  generate_password_hash salt p = Some digest ->
  insert_user (Some u) (Some digest) (get_db d) = Ok t' ->
  refines (Some t') (<[u := p]> A).
Proof.
  intros [Hwf HA] Hu Hs Hg Hins. split; [exact (insert_user_wf _ _ _ _ (get_db_wf d Hwf) Hins)|].
  intros u'. change (get_db (Some t')) with t'. destruct (decide (u' = u)) as [->|Hne].
  - rewrite lookup_insert_eq. eexists _, digest.
    split_and!; [exact (insert_select _ _ _ _ Hins)|done|by eapply digest_of_generated].
  - rewrite lookup_insert_ne by congruence. specialize (HA u').
    destruct (A !! u').
    + by rewrite (insert_select_other (Some u) (Some u') _ _ _ Hins) by congruence.
    + apply insert_user_ok in Hins as (->&_&_). unfold username_taken in *. simpl.
      rewrite existsb_app, HA. simpl. unfold has_username. simpl.
      by rewrite bool_decide_false by congruence.
Qed.

(** ** Refinement *)

(** (C2) Step refinement: for a registration or a login with string
    credentials, while the rowids are not exhausted, the handler answers
    what the contract answers ([register -> ok | duplicate], [login ->
    token | invalid_credentials], a token for [u] exactly when [u] is
    registered with that password) and the new database file refines
    the contract's new accounts.  The hasher is any [Kdf] with its laws
    that is collision-free ([kdf_injective]): that a wrong password is
    refused rests on it. *)
Theorem handle_refines r d A :
  refines d A -> areq_ok r = true -> (seq (get_db d) < MAX_ROWID)%Z ->
  fst (handle (conc r) d) = interp (fst (spec_step r A)) /\
  refines (snd (handle (conc r) d)) (snd (spec_step r A)).
Proof.
  intros HR Hok Hlt. pose proof (proj1 HR) as Hwf.
  destruct r as [u p salt|u p now_us]; simpl in Hok |- *.
  - pose proof (proj2 HR u) as Hu'. destruct (A !! u) as [p0|] eqn:Hu; simpl.
    + destruct (refines_some d A u p0 HR Hu) as [t ->]. destruct Hu' as (r&_&Hsel&_).
      by rewrite register_duplicate by (eapply select_taken; exact Hsel).
    + destruct (register_fresh salt u p d Hok Hwf Hu' Hlt) as (digest&t'&Hg&Hins&->).
      split; [done|]. by eapply refines_insert.
  - pose proof (proj2 HR u) as Hu'.
    destruct (decide (A !! u = Some p)) as [Hp|Hne]; simpl.
    + rewrite Hp in Hu'. destruct Hu' as (r&digest&Hsel&Hpw&Hd).
      rewrite (login_found now_us u p d r digest Hsel Hpw), Hd, bool_decide_true by done.
      split; [done|by apply refines_get_db].
    + destruct (A !! u) as [p0|] eqn:Hu.
      * destruct Hu' as (r&digest&Hsel&Hpw&Hd).
        rewrite (login_found now_us u p d r digest Hsel Hpw).
        rewrite Hd, bool_decide_false by congruence.
        split; [done|by apply refines_get_db].
      * rewrite login_not_found by (by apply find_none_taken).
        split; [done|by apply refines_get_db].
Qed.

(** (C3) Refinement of whole runs: from a file that refines [A], serving
    any sequence of contract requests, whose registrations carry salts
    [gen_salt] can draw and which leaves the AUTOINCREMENT counter
    below its maximum, gives the contract's answers, in order, and a
    file that refines the contract's final accounts, for a
    collision-free [Kdf] ([kdf_injective]). *)
Theorem run_refines rs d A :
  refines d A -> forallb areq_ok rs = true ->
  (seq (get_db d) + Z.of_nat (length rs) <= MAX_ROWID)%Z ->
  fst (run (map conc rs) d) = map interp (fst (spec_run rs A)) /\
  refines (snd (run (map conc rs) d)) (snd (spec_run rs A)).
Proof.
  revert d A; induction rs as [|r rs IH]; intros d A HR Hok Hlen; [done|].
  apply andb_prop in Hok as [Hr Hrs]. simpl in Hlen.
  pose proof (handle_seq (conc r) d (proj1 HR)) as Hseq.
  destruct (handle_refines r d A HR Hr ltac:(lia)) as [E1 R1]. simpl.
  destruct (handle (conc r) d) as [resp d1], (spec_step r A) as [a A1]. simpl in *.
  destruct (IH d1 A1 R1 Hrs ltac:(lia)) as [E2 R2].
  destruct (run (map conc rs) d1), (spec_run rs A1). simpl in *. subst. done.
Qed.

End Injective.

End Refinement.
End Refinement.
