(* ===== verification/Scenario.v ===== *)
(** * Concrete runs of the application

    The handlers of app.py evaluated on concrete requests, with the
    executable instances of the primitives: werkzeug's digest format over
    [ToyKdf], base64url ([Base64]) and JSON text ([JsonText]) as PyJWT
    uses them, and [ToyHmac] below in place of HMAC-SHA256.  The lemmas
    of this file apply the theorems of App.v at these inputs. *)

From stdpp Require Import relations.
From S2P Require Import Prelude Json Digest Hasher Store Jwt App Routing Concurrent Base64 JsonText Refinement.
Import Store Jwt Hasher App Routing Concurrent ToyKdf AuthSpec Refinement.

(** A transparent keyed checksum standing in for HMAC-SHA256: 32 bytes,
    each a polynomial hash of the key, the message and its position.  It
    satisfies [HmacLaws]; it is not a MAC an attacker cannot forge. *)
Module ToyHmac.

Definition toy_hmac (key msg : list Z) : list Z :=
  map (fun i => fold_left (fun acc b => (acc * 31 + b) mod 256)%Z (key ++ msg ++ [Z.of_nat i]) 7%Z)
      (List.seq 0 32).

(** The 384- and 512-bit variants: the same checksum, keyed apart. *)
#[export] Instance toy_hmac_inst : Hmac := {|
  hmac_sha256 := toy_hmac;
  hmac_sha384 := fun k m => toy_hmac (k ++ [1%Z]) m;
  hmac_sha512 := fun k m => toy_hmac (k ++ [2%Z]) m
|}.

#[export] Instance toy_hmac_laws : HmacLaws.
Proof.
  split. intros k m. simpl. unfold toy_hmac. apply Forall_map, Forall_true. intros i.
  generalize (k ++ m ++ [Z.of_nat i]). intros l.
  assert (Hacc : forall acc, (0 <= acc < 256)%Z ->
    is_byte (fold_left (fun acc b => (acc * 31 + b) mod 256)%Z l acc)).
  { induction l as [|b l IH]; simpl; [done|]. intros acc _. apply IH.
    apply Z.mod_pos_bound. lia. }
  apply Hacc. lia.
Qed.

End ToyHmac.
Import ToyHmac.

Module ScenarioExamples.

Definition salt_bob : string := "abcdefghij012345".
Definition t_login : Z := 1700000000000000%Z.    (* 2023-11-14 22:13:20 UTC *)

(** The database after [register] of bob on a fresh install. *)
Definition db_bob : db := snd (register salt_bob (credentials "bob" "pw123") None).

Definition token_bob : string :=
  Jwt.encode (login_claims (JStr "bob") t_login) SECRET_KEY.

(** The digest of bob's password under [ToyKdf], and the table after his
    registration. *)
Definition digest_bob : string :=
  "scrypt:32768:8:1$abcdefghij012345$6162636465666768696a3031323334353a7077313233".
Definition t_bob : users_table := mk_table [mk_row 1 (Some "bob") (Some digest_bob)] 1.

(** The segments of bob's token, and a forged signature segment. *)
Definition header_seg : string := b64_encode (json_dumps (jws_header "HS256")).
Definition payload_seg : string := b64_encode (json_dumps (JObj (login_claims (JStr "bob") t_login))).

(** An unsigned token, [{"alg":"none"}] and an empty signature. *)
Definition none_header : json := JObj [("alg", JStr "none"); ("typ", JStr "JWT")].

(** A username sqlite3 cannot bind (a list): the INSERT raises, the
    bare [except:] answers 400, and the table is only created. *)
Definition body_list_username : body :=
  JsonBody (JObj [("username", JArr []); ("password", JStr "pw")]).

(** A token for an arbitrary user, minted with the key of app.py. *)
Definition forged_claims : list (string * json) :=
  [("user", JStr "admin"); ("exp", JInt (t_login / 1000000 + 3600))].

(** The specification's end-to-end scenario, as contract requests. *)
Definition scenario_areqs : list areq :=
  [ARegister "bob" "pw123" salt_bob; ALogin "bob" "wrong" t_login;
   ALogin "bob" "pw123" t_login; ARegister "bob" "other" salt_bob].

(** A second salt, and the file after alice registers with bob's
    password under it. *)
Definition salt_alice : string := "ZYXWVUTSRQ987654".
Definition db_bob_alice : db := snd (register salt_alice (credentials "alice" "pw123") db_bob).

(** A table whose digest names a method werkzeug does not know. *)
Definition t_md5 : users_table :=
  mk_table [mk_row 1 (Some "eve") (Some "md5$abc$0123")] 1.

(** Two concurrent registrations of alice, and the file and answers
    after the first commits and the second's INSERT fails. *)
Definition conc_jobs : list (json * string) := [(JStr "alice", "h1"); (JStr "alice", "h2")].
Definition t_bob_alice : users_table :=
  mk_table [mk_row 1 (Some "bob") (Some digest_bob); mk_row 2 (Some "alice") (Some "h1")] 2.
Definition conc_final : cstate :=
  mk_cstate t_bob_alice None
    [RDone (JStr "alice") created_response; RDone (JStr "alice") duplicate_response].

(** Bob's registration as an HTTP request, with the method in lower
    case. *)
Definition http_register_bob : http_request :=
  mk_http_request "post" "/register" None (credentials "bob" "pw123").

(** A [POST] to a file of Flask's static rule. *)
Definition http_post_static : http_request := mk_http_request "post" "/static/app.js" None NotJson.

Example run_scenario :
  fst (run [PostRegister (credentials "bob" "pw123") salt_bob;
            PostLogin (credentials "bob" "wrong") t_login;
            PostLogin (credentials "bob" "pw123") t_login;
            GetProtected (Some token_bob) (t_login + 60 * 1000000);
            GetProtected None (t_login + 60 * 1000000);
            GetProtected (Some token_bob) (t_login + 7200 * 1000000)] None) =
  [jsonify 200 "message" MSG_USER_CREATED;
   jsonify 401 "error" ERR_BAD_CREDENTIALS;
   jsonify 200 "token" token_bob;
   jsonify 200 "message" MSG_ACCESS_GRANTED;
   jsonify 401 "error" ERR_TOKEN_MISSING;
   jsonify 403 "error" ERR_TOKEN_INVALID].
Proof. vm_compute. reflexivity. Qed.

Lemma db_bob_eq : db_bob = Some t_bob.
Proof. reflexivity. Qed.

Lemma t_bob_wf : table_wf t_bob.
Proof. split_and!; repeat constructor; simpl; try lia. set_solver. Qed.

(** ** Witnesses of the theorems of App.v *)

Lemma reachable_db_wf_witness : db_wf (Some t_bob).
Proof.
  apply reachable_db_wf.
  change (Some t_bob) with (snd (handle (PostRegister (credentials "bob" "pw123") salt_bob) None)).
  apply reachable_step. constructor.
Defined.

Lemma protected_login_token_witness :
  protected (t_login + 60 * 1000000) (Some token_bob) db_bob =
    (jsonify 200 "message" MSG_ACCESS_GRANTED, db_bob).
Proof. apply (protected_login_token (JStr "bob") t_login). Defined.

Lemma login_token_lifetime_witness :
  status (fst (protected (t_login + 7199 * 1000000) (Some token_bob) db_bob)) = 200%Z /\
  status (fst (protected (t_login + 7200 * 1000000) (Some token_bob) db_bob)) = 403%Z.
Proof.
  split.
  - apply (login_token_lifetime (JStr "bob") t_login (t_login + 7199 * 1000000) db_bob). lia.
  - apply (login_token_lifetime (JStr "bob") t_login (t_login + 7200 * 1000000) db_bob). lia.
Defined.

Lemma register_duplicate_witness :
  register salt_bob (credentials "bob" "other") (Some t_bob) =
    (jsonify 400 "error" ERR_USER_EXISTS, Some t_bob).
Proof. apply register_duplicate. reflexivity. Defined.

Lemma login_wrong_password_witness :
  login t_login (credentials "bob" "wrong") db_bob =
    (jsonify 401 "error" ERR_BAD_CREDENTIALS, db_bob).
Proof.
  apply (login_wrong_password toy_kdf_injective salt_bob "bob" "pw123" "wrong" None db_bob
           (jsonify 200 "message" MSG_USER_CREATED)); try reflexivity.
  discriminate.
Defined.

Lemma login_unknown_user_witness :
  login t_login (credentials "alice" "pw123") db_bob =
    (jsonify 401 "error" ERR_BAD_CREDENTIALS, db_bob).
Proof. apply (login_unknown_user t_login "alice" "pw123" db_bob). reflexivity. Defined.

Lemma protected_accepts_only_signed_witness :
  exists hseg pseg sseg hd header pl claims,
    token_bob = hseg +:+ "." +:+ pseg +:+ "." +:+ sseg /\
    b64_decode hseg = Some hd /\ json_loads hd = Some (JObj header) /\
    dict_get "alg" header = Some (JStr "HS256") /\
    b64_decode pseg = Some pl /\ json_loads pl = Some (JObj claims) /\
    validate_claims claims (timegm_utctimetuple (t_login + 60 * 1000000)) = Ok tt /\
    b64_decode sseg = Some (hs256_sign SECRET_KEY (hseg +:+ "." +:+ pseg)).
Proof.
  apply (protected_accepts_only_signed (t_login + 60 * 1000000) token_bob db_bob).
  vm_compute. reflexivity.
Defined.

Lemma protected_tampered_witness :
  protected (t_login + 60 * 1000000) (Some (header_seg +:+ "." +:+ payload_seg +:+ "." +:+ "AAAA"))
    db_bob = (jsonify 403 "error" ERR_TOKEN_INVALID, db_bob).
Proof.
  apply protected_tampered; [reflexivity | reflexivity |].
  vm_compute. discriminate.
Defined.

Lemma protected_rejects_other_alg_witness :
  protected (t_login + 60 * 1000000)
    (Some (b64_encode (json_dumps none_header) +:+ "." +:+ payload_seg +:+ "." +:+ ""))
    db_bob = (jsonify 403 "error" ERR_TOKEN_INVALID, db_bob).
Proof.
  apply (protected_rejects_other_alg _ _ _ _ _ (json_dumps none_header)
           [("alg", JStr "none"); ("typ", JStr "JWT")]);
    [reflexivity | reflexivity | vm_compute; reflexivity | vm_compute; reflexivity |
     discriminate].
Defined.

Lemma register_without_username_witness :
  exists digest t',
    register salt_bob (JsonBody (JObj [("password", JStr "pw")])) (Some t_bob) =
      (jsonify 200 "message" MSG_USER_CREATED, Some t') /\
    rows t' = rows t_bob ++ [mk_row (seq t_bob + 1) None (Some digest)] /\
    check_password_hash digest "pw" = Some true /\
    forall u r, select_by_username u t' = Some r -> row_username r <> None.
Proof.
  apply register_without_username; [reflexivity | apply t_bob_wf | unfold MAX_ROWID; simpl; lia].
Defined.

Lemma register_full_reported_as_duplicate_witness :
  register salt_bob (credentials "carol" "pw") (Some (mk_table [] MAX_ROWID)) =
    (jsonify 400 "error" ERR_USER_EXISTS, Some (mk_table [] MAX_ROWID)).
Proof.
  apply register_full_reported_as_duplicate; [| simpl; lia | reflexivity].
  split_and!; repeat constructor; unfold MAX_ROWID; simpl; lia.
Defined.

Lemma login_token_roundtrip_witness :
  exists username password u r digest,
    login_input (credentials "bob" "pw123") = Ok (username, password) /\
    bind_text username = Ok u /\
    select_by_username u (get_db db_bob) = Some r /\
    row_password r = Some digest /\
    check_password_hash_value digest password = Some true /\
    Jwt.decode token_bob SECRET_KEY ["HS256"] (t_login + 3600 * 1000000) =
      Ok (login_claims username t_login).
Proof.
  apply (login_token_roundtrip t_login (t_login + 3600 * 1000000)
           (credentials "bob" "pw123") db_bob token_bob db_bob);
    [vm_compute; reflexivity | lia].
Defined.

(** ** Witnesses of the theorems of Refinement.v *)

Example spec_scenario :
  fst (spec_run scenario_areqs ∅) =
    [RegOk; LoginInvalid; LoginToken "bob" t_login; RegDuplicate].
Proof. vm_compute. reflexivity. Qed.

Lemma handle_refines_witness :
  fst (handle (conc (ARegister "bob" "pw123" salt_bob)) None) =
    interp (fst (spec_step (ARegister "bob" "pw123" salt_bob) ∅)) /\
  refines (snd (handle (conc (ARegister "bob" "pw123" salt_bob)) None))
    (snd (spec_step (ARegister "bob" "pw123" salt_bob) ∅)).
Proof.
  apply (handle_refines toy_kdf_injective); [apply refines_init | reflexivity |
    unfold MAX_ROWID; simpl; lia].
Defined.

Lemma run_refines_witness :
  fst (run (map conc scenario_areqs) None) = map interp (fst (spec_run scenario_areqs ∅)) /\
  refines (snd (run (map conc scenario_areqs) None)) (snd (spec_run scenario_areqs ∅)).
Proof.
  apply (run_refines toy_kdf_injective); [apply refines_init | reflexivity |
    unfold MAX_ROWID; simpl; lia].
Defined.

Lemma register_failure_atomic_witness :
  register salt_bob body_list_username None =
    (jsonify 400 "error" ERR_USER_EXISTS, Some empty_table) /\
  get_db (Some empty_table) = get_db None.
Proof.
  assert (E : register salt_bob body_list_username None =
                (jsonify 400 "error" ERR_USER_EXISTS, Some empty_table))
    by (vm_compute; reflexivity).
  split; [exact E|].
  apply (register_failure_atomic salt_bob body_list_username None
           (jsonify 400 "error" ERR_USER_EXISTS) (Some empty_table) E).
  discriminate.
Defined.

Lemma protected_accepts_signed_witness :
  protected t_login (Some (Jwt.encode forged_claims SECRET_KEY)) None =
    (jsonify 200 "message" MSG_ACCESS_GRANTED, None).
Proof. apply protected_accepts_signed. vm_compute. reflexivity. Defined.

Lemma protected_token_without_exp_witness :
  protected (t_login + 1000 * 365 * 86400 * 1000000)
    (Some (Jwt.encode [("user", JStr "bob")] SECRET_KEY)) db_bob =
    (jsonify 200 "message" MSG_ACCESS_GRANTED, db_bob).
Proof. apply protected_token_without_exp. Defined.

Lemma login_without_password_reveals_user_witness :
  fst (login t_login (JsonBody (JObj [("username", JStr "bob")])) db_bob) =
    internal_server_error /\
  fst (login t_login (JsonBody (JObj [("username", JStr "alice")])) db_bob) =
    jsonify 401 "error" ERR_BAD_CREDENTIALS.
Proof.
  apply (login_without_password_reveals_user t_login "bob" "alice"
           (mk_row 1 (Some "bob") (Some digest_bob)) digest_bob
           "scrypt:32768:8:1" salt_bob "6162636465666768696a3031323334353a7077313233");
    vm_compute; reflexivity.
Defined.

Lemma login_token_expiry_terminal_witness :
  protected (t_login + 7300 * 1000000) (Some token_bob) db_bob =
    (jsonify 403 "error" ERR_TOKEN_INVALID, db_bob).
Proof.
  apply (login_token_expiry_terminal (JStr "bob") t_login (t_login + 7200 * 1000000));
    [lia | vm_compute; discriminate].
Defined.

Lemma register_salted_witness :
  row_password (mk_row 1 (Some "bob") (Some digest_bob)) <>
  row_password (mk_row 2 (Some "alice")
                  (Some "scrypt:32768:8:1$ZYXWVUTSRQ987654$5a5958575655545352513938373635343a7077313233")).
Proof.
  apply (register_salted salt_bob salt_alice "bob" "alice" "pw123" None
           (jsonify 200 "message" MSG_USER_CREATED) db_bob
           (jsonify 200 "message" MSG_USER_CREATED) db_bob_alice);
    first [reflexivity | discriminate | vm_compute; reflexivity].
Defined.

Lemma register_int_username_witness :
  register salt_bob (JsonBody (JObj [("username", JInt 5); ("password", JStr "pw")])) None =
  register salt_bob (JsonBody (JObj [("username", JStr (py_str_of_int 5)); ("password", JStr "pw")])) None.
Proof. apply register_int_username. lia. Defined.

Lemma register_overflow_username_witness :
  register salt_bob (JsonBody (JObj [("username", JInt (2 ^ 63)); ("password", JStr "pw")])) db_bob =
    (jsonify 400 "error" ERR_USER_EXISTS, Some (get_db db_bob)).
Proof. apply register_overflow_username. lia. Defined.

Lemma login_unknown_method_witness :
  login t_login (credentials "eve" "pw") (Some t_md5) = (internal_server_error, Some t_md5).
Proof.
  apply (login_unknown_method t_login "eve" "pw" (Some t_md5)
           (mk_row 1 (Some "eve") (Some "md5$abc$0123")) "md5$abc$0123" "md5" "abc" "0123");
    reflexivity.
Defined.

(** ** Witnesses of the theorems of Concurrent.v *)

Lemma conc_nsteps : nsteps cstep 3 (cinit t_bob conc_jobs) conc_final.
Proof.
  eapply nsteps_l; [eapply (cstep_insert _ 0); reflexivity|].
  eapply nsteps_l; [eapply (cstep_commit _ 0); reflexivity|].
  eapply nsteps_l; [eapply (cstep_insert_error _ 1); reflexivity|].
  apply nsteps_O.
Qed.

Lemma concurrent_unique_witness :
  table_wf (committed conc_final) /\
  (forall x i j, succeeded conc_final x i -> succeeded conc_final x j -> i = j) /\
  (forall x i, succeeded conc_final x i ->
     username_taken x (rows t_bob) = false /\
     username_taken x (rows (committed conc_final)) = true).
Proof.
  apply (concurrent_unique t_bob conc_jobs); [apply t_bob_wf|].
  exact (rtc_nsteps_2 _ _ _ conc_nsteps).
Defined.

Lemma concurrent_all_answered_witness :
  exists s', rtc cstep_unlocked (cinit t_bob conc_jobs) s' /\ all_done s'.
Proof. apply (concurrent_all_answered t_bob conc_jobs); [apply t_bob_wf | apply rtc_refl]. Defined.

Lemma concurrent_serial_register_witness :
  exists s', rtc cstep (cinit t_bob conc_jobs) s' /\ writer s' = None /\
    threads s' !! 0 = Some (RDone (JStr "alice")
      (fst (register_store (JStr "alice") "h1" (Some (committed (cinit t_bob conc_jobs)))))) /\
    Some (committed s') = snd (register_store (JStr "alice") "h1" (Some (committed (cinit t_bob conc_jobs)))).
Proof. apply concurrent_serial_register; reflexivity. Defined.

Lemma concurrent_locked_reported_duplicate_witness :
  exists s, creachable t_bob [(JStr "alice", "h1"); (JStr "carol", "h2")] s /\ all_done s /\
    threads s !! 1 = Some (RDone (JStr "carol") duplicate_response) /\
    username_taken "carol" (rows (committed s)) = false.
Proof.
  apply concurrent_locked_reported_duplicate;
    [apply t_bob_wf | unfold MAX_ROWID; simpl; lia | discriminate | reflexivity | reflexivity].
Defined.

Lemma login_token_expired_error_witness :
  Jwt.decode token_bob SECRET_KEY ["HS256"] (t_login + 7200 * 1000000) =
    Err ExpiredSignatureError /\
  verify_token token_bob (t_login + 7200 * 1000000) = jsonify 403 "error" ERR_TOKEN_INVALID.
Proof. apply login_token_expired_error. lia. Defined.

(** ** Witnesses of the theorems of Routing.v *)

Lemma serve_dispatch_witness :
  py_upper "post" = "POST" /\
  serve salt_bob t_login http_register_bob None = handle (PostRegister (credentials "bob" "pw123") salt_bob) None.
Proof.
  split; [reflexivity|].
  exact (proj1 (serve_dispatch salt_bob t_login "post" None (credentials "bob" "pw123") None) eq_refl).
Defined.

Lemma serve_without_view_witness :
  serve salt_bob t_login http_post_static db_bob = (mk_response 405 None, db_bob).
Proof.
  apply (proj1 (proj1 (proj2 (proj2 (proj2 (serve_without_view salt_bob t_login http_post_static db_bob))))
    "app.js" eq_refl eq_refl)).
  simpl. apply (bool_decide_unpack _). vm_compute. reflexivity.
Defined.

End ScenarioExamples.
